(** * IVECGuard: telemetry sync and signed command channel

    A shallow embedding of the agent ([agent.py]) and of the server
    ([server.py]) of the IVECGuard fleet monitor, with the properties its
    specification states about them.

    Conventions.
    - A Python [str] is modelled by the string of its UTF-8 bytes; the
      [encode("utf-8")] of the source is then the identity on bytes.
    - A Python [int] is a [Z].
    - A [dict] keyed by strings is a [gmap string _] when only lookups
      matter, and a JSON object (an ordered list of members) when it is
      serialised.
    - A call that can raise returns an [outcome]. *)

From Stdlib Require Import ZArith List String Ascii Bool Lia DecimalString.
From stdpp Require Import base option list gmap strings.

Local Open Scope string_scope.
Local Open Scope list_scope.
Local Open Scope Z_scope.

(** ** Bytes of a string *)

Definition byte_of_ascii (c : ascii) : Z := Z.of_N (N_of_ascii c).
Definition ascii_of_byte (b : Z) : ascii := ascii_of_N (Z.to_N (b mod 256)).

Definition encode (s : string) : list Z :=
  map byte_of_ascii (list_ascii_of_string s).

(** ** hashlib.sha256 (FIPS 180-4) over bytes *)

Module Sha256.

Definition w32 (x : Z) : Z := x mod 4294967296.
Definition add32 (x y : Z) : Z := w32 (x + y).
Definition rotr (n x : Z) : Z :=
  Z.lor (Z.shiftr x n) (w32 (Z.shiftl x (32 - n))).
Definition shr (n x : Z) : Z := Z.shiftr x n.
Definition not32 (x : Z) : Z := 4294967295 - x.

Definition Ch (x y z : Z) : Z := Z.lxor (Z.land x y) (Z.land (not32 x) z).
Definition Maj (x y z : Z) : Z :=
  Z.lxor (Z.lxor (Z.land x y) (Z.land x z)) (Z.land y z).
Definition Sigma0 (x : Z) : Z :=
  Z.lxor (Z.lxor (rotr 2 x) (rotr 13 x)) (rotr 22 x).
Definition Sigma1 (x : Z) : Z :=
  Z.lxor (Z.lxor (rotr 6 x) (rotr 11 x)) (rotr 25 x).
Definition sigma0 (x : Z) : Z :=
  Z.lxor (Z.lxor (rotr 7 x) (rotr 18 x)) (shr 3 x).
Definition sigma1 (x : Z) : Z :=
  Z.lxor (Z.lxor (rotr 17 x) (rotr 19 x)) (shr 10 x).

(** The constants are fractional parts of roots of the first primes: the
    first 32 bits of the cube roots of the first 64 primes for [K], of the
    square roots of the first 8 primes for [H0]. *)
Definition is_prime (n : Z) : bool :=
  (2 <=? n)
  && forallb (fun d => (n <? d * d) || negb (n mod d =? 0))
             (map Z.of_nat (seq 2 (Z.to_nat n - 2))).

Definition primes_below (n : nat) : list Z :=
  List.filter is_prime (map Z.of_nat (seq 0 n)).

(** The largest [r] below [2 ^ bits] whose cube is at most [n], found bit
    by bit. *)
Fixpoint cube_root (bits : nat) (n r : Z) : Z :=
  match bits with
  | O => r
  | S bits' =>
      let r' := r + 2 ^ Z.of_nat bits' in
      cube_root bits' n (if r' * r' * r' <=? n then r' else r)
  end.

Definition K : list Z :=
  Eval vm_compute in
    map (fun p => w32 (cube_root 36 (p * 2 ^ 96) 0)) (primes_below 312).

Definition H0 : list Z :=
  Eval vm_compute in
    map (fun p => w32 (Z.sqrt (p * 2 ^ 64))) (primes_below 20).

(** Big-endian bytes of [x], [n] of them. *)
Fixpoint be_bytes (n : nat) (x : Z) : list Z :=
  match n with
  | O => []
  | S n' => Z.shiftr x (8 * Z.of_nat n') mod 256 :: be_bytes n' x
  end.

Definition be_word (bs : list Z) : Z :=
  fold_left (fun acc b => acc * 256 + b) bs 0.

(** The message followed by 0x80, zeros up to 56 mod 64, and its length
    in bits on 8 bytes. *)
Definition pad (msg : list Z) : list Z :=
  let len := Z.of_nat (length msg) in
  let zeros := Z.to_nat ((55 - len) mod 64) in
  msg ++ 128 :: repeat 0 zeros ++ be_bytes 8 (8 * len).

(** Cut into pieces of [n] elements; [fuel] bounds the number of pieces. *)
Fixpoint chunks {A} (fuel n : nat) (l : list A) : list (list A) :=
  match fuel, l with
  | O, _ | _, [] => []
  | S fuel', _ => firstn n l :: chunks fuel' n (skipn n l)
  end.

(** The message schedule, most recent word first. *)
Fixpoint schedule (n : nat) (ws : list Z) : list Z :=
  match n with
  | O => ws
  | S n' =>
      let w := add32 (add32 (sigma1 (nth 1 ws 0)) (nth 6 ws 0))
                     (add32 (sigma0 (nth 14 ws 0)) (nth 15 ws 0)) in
      schedule n' (w :: ws)
  end.

Record regs := Regs { ra : Z; rb : Z; rc : Z; rd : Z;
                      re : Z; rf : Z; rg : Z; rh : Z }.

Definition round (r : regs) (kw : Z * Z) : regs :=
  let t1 := add32 (add32 (add32 (rh r) (Sigma1 (re r)))
                         (add32 (Ch (re r) (rf r) (rg r)) (fst kw))) (snd kw) in
  let t2 := add32 (Sigma0 (ra r)) (Maj (ra r) (rb r) (rc r)) in
  Regs (add32 t1 t2) (ra r) (rb r) (rc r) (add32 (rd r) t1) (re r) (rf r) (rg r).

Definition regs_of (h : list Z) : regs :=
  Regs (nth 0 h 0) (nth 1 h 0) (nth 2 h 0) (nth 3 h 0)
       (nth 4 h 0) (nth 5 h 0) (nth 6 h 0) (nth 7 h 0).

Definition list_of (r : regs) : list Z :=
  [ra r; rb r; rc r; rd r; re r; rf r; rg r; rh r].

Definition compress (h : list Z) (block : list Z) : list Z :=
  let w16 := map be_word (chunks 16 4 block) in
  let w := rev (schedule 48 (rev w16)) in
  let r := fold_left round (combine K w) (regs_of h) in
  map (fun p => add32 (fst p) (snd p)) (combine h (list_of r)).

Definition digest (msg : list Z) : list Z :=
  let p := pad msg in
  let h := fold_left compress (chunks (length p) 64 p) H0 in
  flat_map (be_bytes 4) h.

End Sha256.

(** ** hmac.new(key, msg, hashlib.sha256).hexdigest() *)

Module Hmac.

Definition block_size : nat := 64.

Definition block_key (key : list Z) : list Z :=
  let k := if (block_size <? length key)%nat then Sha256.digest key else key in
  k ++ repeat 0 (block_size - length k).

Definition digest (key msg : list Z) : list Z :=
  let k := block_key key in
  let ipad := map (Z.lxor 0x36) k in
  let opad := map (Z.lxor 0x5c) k in
  Sha256.digest (opad ++ Sha256.digest (ipad ++ msg)).

Definition hex_digit (n : Z) : ascii :=
  ascii_of_byte (if n <? 10 then 48 + n else 87 + n).

Fixpoint hex (bs : list Z) : string :=
  match bs with
  | [] => EmptyString
  | b :: bs' =>
      String (hex_digit (Z.shiftr b 4 mod 16))
             (String (hex_digit (b mod 16)) (hex bs'))
  end.

Definition hexdigest (key msg : list Z) : string := hex (digest key msg).

End Hmac.

(** ** Outcomes of calls that can raise *)

Inductive outcome (A : Type) : Type :=
| Returns (a : A)
| Raises.
Arguments Returns {A} a.
Arguments Raises {A}.

(** ** JSON values

    What [json.loads] returns and [json.dumps] takes: [None], [bool], [int],
    [str], [list] and [dict] (members in insertion order). Floats do not
    occur in what the agent writes and are left out. *)

#[local] Set Warnings "-register-all".

Inductive json : Type :=
| JNull
| JBool (b : bool)
| JInt (n : Z)
| JStr (s : string)
| JArr (l : list json)
| JObj (m : list (string * json)).

(** The functions of the Python runtime that the offline buffer goes
    through: [json.dumps(e, ensure_ascii=False)], [json.loads(s)] (with
    [None] for a [ValueError]) and [str.strip()]. The agent's functions are
    stated over any implementation of them; [python_lib] below is one. *)
Class PyLib : Type := {
  json_dumps : json -> string;
  json_loads : string -> option json;
  strip : string -> string
}.

Module PyJson.

Definition digit_char (d : Z) : ascii := ascii_of_byte (48 + d).

(** [x] on exactly [n] decimal digits, as [%0nd] prints it when it fits. *)
Fixpoint digits (n : nat) (x : Z) : string :=
  match n with
  | O => EmptyString
  | S n' => digits n' (x / 10) +:+ String (digit_char (x mod 10)) EmptyString
  end.

Definition string_of_Z (n : Z) : string :=
  NilZero.string_of_int (Z.to_int n).

(** *** dumps *)

Definition escape_char (c : ascii) : string :=
  let b := byte_of_ascii c in
  if b =? 34 then String "\" (String "034" EmptyString)
  else if b =? 92 then "\\"
  else if b =? 10 then "\n"
  else if b =? 13 then "\r"
  else if b =? 9 then "\t"
  else if b =? 8 then "\b"
  else if b =? 12 then "\f"
  else if b <? 32 then
    "\u00" +:+ String (Hmac.hex_digit (b / 16))
                     (String (Hmac.hex_digit (b mod 16)) EmptyString)
  else String c EmptyString.

Fixpoint escape (s : string) : string :=
  match s with
  | EmptyString => EmptyString
  | String c s' => escape_char c +:+ escape s'
  end.

Definition quote (s : string) : string :=
  String "034" (escape s +:+ String "034" EmptyString).

Fixpoint dumps (v : json) : string :=
  match v with
  | JNull => "null"
  | JBool true => "true"
  | JBool false => "false"
  | JInt n => string_of_Z n
  | JStr s => quote s
  | JArr l =>
      "[" +:+ (fix items (l : list json) : string :=
                match l with
                | [] => EmptyString
                | x :: l' =>
                    dumps x +:+ match l' with
                               | [] => EmptyString
                               | _ => ", " +:+ items l'
                               end
                end) l +:+ "]"
  | JObj m =>
      "{" +:+ (fix members (m : list (string * json)) : string :=
                match m with
                | [] => EmptyString
                | (k, x) :: m' =>
                    quote k +:+ ": " +:+ dumps x
                    +:+ match m' with
                       | [] => EmptyString
                       | _ => ", " +:+ members m'
                       end
                end) m +:+ "}"
  end.

(** *** loads *)

Definition is_json_ws (c : ascii) : bool :=
  let b := byte_of_ascii c in
  (b =? 32) || (b =? 9) || (b =? 10) || (b =? 13).

Fixpoint skip_ws (s : string) : string :=
  match s with
  | String c s' => if is_json_ws c then skip_ws s' else s
  | EmptyString => s
  end.

Definition digit_val (c : ascii) : option Z :=
  let b := byte_of_ascii c in
  if (48 <=? b) && (b <=? 57) then Some (b - 48) else None.

Definition hex_val (c : ascii) : option Z :=
  let b := byte_of_ascii c in
  if (48 <=? b) && (b <=? 57) then Some (b - 48)
  else if (97 <=? b) && (b <=? 102) then Some (b - 87)
  else if (65 <=? b) && (b <=? 70) then Some (b - 55)
  else None.

(** The UTF-8 bytes of a code point of the basic plane; surrogates are
    left out. *)
Definition utf8 (cp : Z) : option string :=
  if cp <? 128 then Some (String (ascii_of_byte cp) EmptyString)
  else if cp <? 2048 then
    Some (String (ascii_of_byte (192 + cp / 64))
            (String (ascii_of_byte (128 + cp mod 64)) EmptyString))
  else if (55296 <=? cp) && (cp <=? 57343) then None
  else
    Some (String (ascii_of_byte (224 + cp / 4096))
            (String (ascii_of_byte (128 + (cp / 64) mod 64))
               (String (ascii_of_byte (128 + cp mod 64)) EmptyString))).

(** The characters of a string literal after its opening quote. *)
Fixpoint parse_chars (s : string) : option (string * string) :=
  match s with
  | EmptyString => None
  | String c s' =>
      let b := byte_of_ascii c in
      if b =? 34 then Some (EmptyString, s')
      else if b <? 32 then None
      else if b =? 92 then
        match s' with
        | String e s'' =>
            let eb := byte_of_ascii e in
            let simple (x : Z) :=
              match parse_chars s'' with
              | Some (str, r) => Some (String (ascii_of_byte x) str, r)
              | None => None
              end in
            if eb =? 34 then simple 34
            else if eb =? 92 then simple 92
            else if eb =? 47 then simple 47
            else if eb =? 98 then simple 8
            else if eb =? 102 then simple 12
            else if eb =? 110 then simple 10
            else if eb =? 114 then simple 13
            else if eb =? 116 then simple 9
            else if eb =? 117 then
              match s'' with
              | String h1 (String h2 (String h3 (String h4 s4))) =>
                  match hex_val h1, hex_val h2, hex_val h3, hex_val h4 with
                  | Some a, Some b', Some c', Some d =>
                      match utf8 (((a * 16 + b') * 16 + c') * 16 + d),
                            parse_chars s4 with
                      | Some u, Some (str, r) => Some (u +:+ str, r)
                      | _, _ => None
                      end
                  | _, _, _, _ => None
                  end
              | _ => None
              end
            else None
        | EmptyString => None
        end
      else
        match parse_chars s' with
        | Some (str, r) => Some (String c str, r)
        | None => None
        end
  end.

Fixpoint parse_digits (acc : Z) (s : string) : Z * string :=
  match s with
  | String c s' =>
      match digit_val c with
      | Some d => parse_digits (acc * 10 + d) s'
      | None => (acc, s)
      end
  | EmptyString => (acc, s)
  end.

(** An optional minus sign, then 0 or a digit from 1 to 9 followed by
    digits; refused when a fraction or an exponent follows. *)
Definition parse_int (s : string) : option (Z * string) :=
  let '(neg, s1) :=
    match s with
    | String "-" s' => (true, s')
    | _ => (false, s)
    end in
  match s1 with
  | String c s2 =>
      match digit_val c with
      | Some d =>
          let '(n, r) := if d =? 0 then (0, s2) else parse_digits d s2 in
          match r with
          | String "." _ | String "e" _ | String "E" _ => None
          | _ => Some (if neg then - n else n, r)
          end
      | None => None
      end
  | EmptyString => None
  end.

Definition expect (lit : string) (v : json) (s : string) : option (json * string) :=
  if String.prefix lit s
  then Some (v, String.substring (String.length lit)
                                 (String.length s - String.length lit) s)
  else None.

Fixpoint parse_value (fuel : nat) (s : string) : option (json * string) :=
  match fuel with
  | O => None
  | S fuel' =>
      match skip_ws s with
      | String "n" _ as s1 => expect "null" JNull s1
      | String "t" _ as s1 => expect "true" (JBool true) s1
      | String "f" _ as s1 => expect "false" (JBool false) s1
      | String "034" r =>
          match parse_chars r with
          | Some (str, r') => Some (JStr str, r')
          | None => None
          end
      | String "[" r =>
          match skip_ws r with
          | String "]" r' => Some (JArr [], r')
          | r1 =>
              match parse_items fuel' r1 with
              | Some (l, r') => Some (JArr l, r')
              | None => None
              end
          end
      | String "{" r =>
          match skip_ws r with
          | String "}" r' => Some (JObj [], r')
          | r1 =>
              match parse_members fuel' r1 with
              | Some (m, r') => Some (JObj m, r')
              | None => None
              end
          end
      | s1 =>
          match parse_int s1 with
          | Some (n, r) => Some (JInt n, r)
          | None => None
          end
      end
  end
with parse_items (fuel : nat) (s : string) : option (list json * string) :=
  match fuel with
  | O => None
  | S fuel' =>
      match parse_value fuel' s with
      | Some (v, r) =>
          match skip_ws r with
          | String "," r' =>
              match parse_items fuel' r' with
              | Some (l, r'') => Some (v :: l, r'')
              | None => None
              end
          | String "]" r' => Some ([v], r')
          | _ => None
          end
      | None => None
      end
  end
with parse_members (fuel : nat) (s : string)
  : option (list (string * json) * string) :=
  match fuel with
  | O => None
  | S fuel' =>
      match skip_ws s with
      | String "034" r =>
          match parse_chars r with
          | Some (k, r1) =>
              match skip_ws r1 with
              | String ":" r2 =>
                  match parse_value fuel' r2 with
                  | Some (v, r3) =>
                      match skip_ws r3 with
                      | String "," r4 =>
                          match parse_members fuel' r4 with
                          | Some (m, r5) => Some ((k, v) :: m, r5)
                          | None => None
                          end
                      | String "}" r4 => Some ([(k, v)], r4)
                      | _ => None
                      end
                  | None => None
                  end
              | _ => None
              end
          | None => None
          end
      | _ => None
      end
  end.

Definition loads (s : string) : option json :=
  match parse_value (2 * String.length s + 2) s with
  | Some (v, r) =>
      match skip_ws r with
      | EmptyString => Some v
      | _ => None
      end
  | None => None
  end.

(** *** strip: the ASCII white space that [str.strip()] removes *)

Definition is_space (c : ascii) : bool :=
  let b := byte_of_ascii c in
  ((9 <=? b) && (b <=? 13)) || ((28 <=? b) && (b <=? 32)).

Fixpoint lstrip (s : string) : string :=
  match s with
  | String c s' => if is_space c then lstrip s' else s
  | EmptyString => s
  end.

Fixpoint rstrip (s : string) : string :=
  match s with
  | EmptyString => EmptyString
  | String c s' =>
      match rstrip s' with
      | EmptyString => if is_space c then EmptyString else String c EmptyString
      | r => String c r
      end
  end.

Definition strip (s : string) : string := rstrip (lstrip s).

End PyJson.

Definition python_lib : PyLib :=
  {| json_dumps := PyJson.dumps;
     json_loads := PyJson.loads;
     strip := PyJson.strip |}.

(** ** datetime

    A naive [datetime] is the number of microseconds since
    1970-01-01T00:00:00, as [utcnow()] counts them. *)

Module Datetime.

Definition second : Z := 1000000.
Definition minute : Z := 60 * second.
Definition day : Z := 86400 * second.

(** [datetime.timedelta(minutes=n)] *)
Definition timedelta_minutes (n : Z) : Z := n * minute.

(** Year, month and day of the [z]-th day since 1970-01-01 in the
    proleptic Gregorian calendar. *)
Definition civil (z : Z) : Z * Z * Z :=
  let z := z + 719468 in
  let era := z / 146097 in
  let doe := z mod 146097 in
  let yoe := (doe - doe / 1460 + doe / 36524 - doe / 146096) / 365 in
  let doy := doe - (365 * yoe + yoe / 4 - yoe / 100) in
  let mp := (5 * doy + 2) / 153 in
  let d := doy - (153 * mp + 2) / 5 + 1 in
  let m := if mp <? 10 then mp + 3 else mp - 9 in
  let y := yoe + era * 400 + (if m <=? 2 then 1 else 0) in
  (y, m, d).

(** [YYYY-MM-DDTHH:MM:SS], followed by [.ffffff] when the microseconds
    are not zero. *)
Definition isoformat (t : Z) : string :=
  let '(y, m, d) := civil (t / day) in
  let tod := t mod day in
  let s := tod / second in
  let us := tod mod second in
  PyJson.digits 4 y +:+ "-" +:+ PyJson.digits 2 m +:+ "-" +:+ PyJson.digits 2 d
  +:+ "T" +:+ PyJson.digits 2 (s / 3600) +:+ ":"
  +:+ PyJson.digits 2 ((s / 60) mod 60) +:+ ":" +:+ PyJson.digits 2 (s mod 60)
  +:+ (if us =? 0 then EmptyString else "." +:+ PyJson.digits 6 us).

End Datetime.

(** ** Text files

    The content of a text file is the string Python reads from it;
    [readlines] cuts it after each newline, as iterating over the file or
    [f.readlines()] does. *)

Definition newline : string := String "010" EmptyString.

Fixpoint readlines (s : string) : list string :=
  match s with
  | EmptyString => []
  | String c rest =>
      if Ascii.eqb c "010" then newline :: readlines rest
      else match readlines rest with
           | [] => [String c EmptyString]
           | l :: ls => String c l :: ls
           end
  end.

(** What [f.write(line)] for each of [lines] leaves in a file that was
    empty, as [f.writelines(lines)] on a file opened with ["w"]. *)
Fixpoint writelines (lines : list string) : string :=
  match lines with
  | [] => EmptyString
  | line :: rest => line +:+ writelines rest
  end.

(** A path that does not exist is [None]. *)
Definition file : Type := option string.

Definition exists_ (f : file) : bool :=
  match f with Some _ => true | None => false end.

Definition content (f : file) : string := default EmptyString f.

(** ** agent.py *)

(** A received command: the string members of the JSON object. A member
    that is absent or [null] reads as [None] with [cmd.get]. *)
Abbreviation command_dict := (gmap string string).

(** The dict [{"id": .., "action": .., "expiresAt": .., "signature": ..}] *)
Definition command_entry (cid action expires_at signature : string) : command_dict :=
  <["id" := cid]> (<["action" := action]> (<["expiresAt" := expires_at]>
  (<["signature" := signature]> ∅))).

(** [x] is truthy: neither [None] nor the empty string. *)
Definition truthy (x : option string) : bool :=
  match x with
  | Some (String _ _) => true
  | _ => false
  end.

(** [hmac.compare_digest(a, b)] on two [str]: equality, whatever the time
    it takes. *)
Definition compare_digest (a b : string) : bool := String.eqb a b.

(** What the agent does to the outside: HTTP requests and subprocesses. *)
Inductive effect : Type :=
| Post (url : string) (body : json)
| Get (url : string)
| Run (cmdline : string).

(** What the outside answers during one iteration of the sync loop. *)
Record world : Type := {
  (** [requests.post(.../agent/telemetry)] raises, or returns [r]; then
      [r.json().get("policy", {})] raises or returns. *)
  telemetry_reply : outcome (outcome json);
  (** [requests.get(.../agent/commands/...).json()] *)
  commands_reply : outcome (list command_dict);
  (** whether [subprocess.run] raises for the [i]-th command *)
  subprocess_raises : nat -> bool;
  (** whether the ack of the [i]-th command raises *)
  ack_raises : nat -> bool
}.

Module Agent.

Record IVECGuardAgent : Type := {
  server_url : string;
  command_secret : string;
  agent_id : string;
  event_queue : list json;
  work_stats : json;
  policy : json;
  running : bool
}.

Definition set_event_queue (q : list json) (self : IVECGuardAgent) :=
  {| server_url := server_url self; command_secret := command_secret self;
     agent_id := agent_id self; event_queue := q;
     work_stats := work_stats self; policy := policy self;
     running := running self |}.

Definition set_policy (p : json) (self : IVECGuardAgent) :=
  {| server_url := server_url self; command_secret := command_secret self;
     agent_id := agent_id self; event_queue := event_queue self;
     work_stats := work_stats self; policy := p;
     running := running self |}.

(** The string that is signed: [f"{cid}|{agent_id}|{action}|{expires_at}"] *)
Definition signed_message (cid device action expires_at : string) : string :=
  cid +:+ "|" +:+ device +:+ "|" +:+ action +:+ "|" +:+ expires_at.

Definition _verify_command (self : IVECGuardAgent) (cmd : command_dict) : bool :=
  let cid := cmd !! "id" in
  let action := cmd !! "action" in
  let expires_at := cmd !! "expiresAt" in
  let sig := cmd !! "signature" in
  if negb (truthy cid && truthy action && truthy expires_at && truthy sig)
  then false
  else
    let msg := encode (signed_message (default "" cid) (agent_id self)
                                      (default "" action) (default "" expires_at)) in
    let expected := Hmac.hexdigest (encode (command_secret self)) msg in
    compare_digest expected (default "" sig).

(** [self.event_queue.append(evt)] *)
Definition enqueue (evt : json) (self : IVECGuardAgent) : IVECGuardAgent :=
  set_event_queue (event_queue self ++ [evt]) self.

Definition log_event (etype desc : string) (weight : Z) (meta : json)
           (self : IVECGuardAgent) : IVECGuardAgent :=
  let evt := JObj [("type", JStr etype); ("description", JStr desc);
                   ("weight", JInt weight); ("metadata", meta)] in
  enqueue evt self.

Section OfflineBuffer.
Context {py : PyLib}.

(** Opening with ["a"] creates the file; each event is written on a
    line of its own. *)
Definition _persist_offline (events : list json) (offline_file : file) : file :=
  Some (content offline_file
        +:+ writelines (map (fun e => json_dumps e +:+ newline) events)).

(** The loop of [_load_offline] over the lines from the [i]-th on;
    [Raises] when [json.loads] does. *)
Fixpoint load_lines (max_lines i : Z) (lines : list string)
         (events : list json) : outcome (list json) :=
  match lines with
  | [] => Returns events
  | line :: rest =>
      if i >=? max_lines then Returns events
      else
        let line := strip line in
        if String.eqb line "" then load_lines max_lines (i + 1) rest events
        else
          match json_loads line with
          | Some v => load_lines max_lines (i + 1) rest (events ++ [v])
          | None => Raises
          end
  end.

Definition _load_offline (max_lines : Z) (offline_file : file) : list json :=
  match offline_file with
  | None => []
  | Some text =>
      match load_lines max_lines 0 (readlines text) [] with
      | Returns events => events
      | Raises => []
      end
  end.

(** Remove the first [consumed] lines from the jsonl file. *)
Definition _truncate_offline (consumed : Z) (offline_file : file) : file :=
  if (consumed <=? 0) || negb (exists_ offline_file) then offline_file
  else
    let lines := readlines (content offline_file) in
    let remaining := drop (Z.to_nat consumed) lines in
    Some (writelines remaining).

(** *** sync_loop *)

Definition telemetry_request (self : IVECGuardAgent) (merged : list json) : effect :=
  Post (server_url self +:+ "/agent/telemetry")
       (JObj [("agent_id", JStr (agent_id self)); ("events", JArr merged);
              ("work_stats", work_stats self)]).

Definition commands_request (self : IVECGuardAgent) : effect :=
  Get (server_url self +:+ "/agent/commands/" +:+ agent_id self).

Definition ack_request (self : IVECGuardAgent) (cid status : string) : effect :=
  Post (server_url self +:+ "/agent/commands/" +:+ cid +:+ "/ack")
       (JObj [("status", JStr status)]).

Definition lock_workstation : effect :=
  Run "rundll32.exe user32.dll,LockWorkStation".

(** The body of [for c in cmds] for the [i]-th command: what is done,
    and whether the ack raised. *)
Definition run_command (self : IVECGuardAgent) (w : world) (i : nat)
           (c : command_dict) : list effect * outcome unit :=
  if negb (_verify_command self c) then ([], Returns tt)
  else
    let action := default "" (c !! "action") in
    let '(done, status) :=
      if String.eqb action "LOCK"
      then ([lock_workstation],
            if subprocess_raises w i then "FAILED" else "EXECUTED")
      else ([], "FAILED") in
    let ack := ack_request self (default "" (c !! "id")) status in
    (done ++ [ack], if ack_raises w i then Raises else Returns tt).

Fixpoint run_commands (self : IVECGuardAgent) (w : world) (i : nat)
         (cmds : list command_dict) : list effect * outcome unit :=
  match cmds with
  | [] => ([], Returns tt)
  | c :: rest =>
      match run_command self w i c with
      | (tr, Raises) => (tr, Raises)
      | (tr, Returns _) =>
          let '(tr', o) := run_commands self w (S i) rest in
          (tr ++ tr', o)
      end
  end.

(** [except Exception:] of the loop body *)
Definition on_exception (self : IVECGuardAgent) (offline_file : file)
  : IVECGuardAgent * file :=
  match event_queue self with
  | [] => (self, offline_file)
  | _ :: _ =>
      (set_event_queue [] self,
       _persist_offline (event_queue self) offline_file)
  end.

(** One iteration of [while self.running] (the sleep apart). *)
Definition sync_cycle (self : IVECGuardAgent) (offline_file : file)
           (w : world) : IVECGuardAgent * file * list effect :=
  let offline := _load_offline 200 offline_file in
  let merged := offline ++ event_queue self in
  let upload := telemetry_request self merged in
  match telemetry_reply w with
  | Raises => (on_exception self offline_file, [upload])
  | Returns r =>
      let self := set_event_queue [] self in
      let offline_file :=
        match offline with
        | [] => offline_file
        | _ :: _ => _truncate_offline (Z.of_nat (length offline)) offline_file
        end in
      match r with
      | Raises => (on_exception self offline_file, [upload])
      | Returns p =>
          let self := set_policy p self in
          match commands_reply w with
          | Raises =>
              (on_exception self offline_file, [upload; commands_request self])
          | Returns cmds =>
              let '(tr, o) := run_commands self w 0 cmds in
              let tr := upload :: commands_request self :: tr in
              match o with
              | Raises => (on_exception self offline_file, tr)
              | Returns _ => (self, offline_file, tr)
              end
          end
      end
  end.

(** The iterations of the loop against the successive answers of the
    outside, with everything done, in order. *)
Fixpoint sync_cycles (self : IVECGuardAgent) (offline_file : file)
         (ws : list world) : IVECGuardAgent * file * list effect :=
  match ws with
  | [] => (self, offline_file, [])
  | w :: ws' =>
      let '(self', offline_file', tr) := sync_cycle self offline_file w in
      let '(self'', offline_file'', tr') := sync_cycles self' offline_file' ws' in
      (self'', offline_file'', tr ++ tr')
  end.

End OfflineBuffer.

End Agent.

(** ** server.py *)

(** An HTTP response: the returned body, or the status of the
    [HTTPException] (500 for an exception of the storage layer). *)
Inductive response (A : Type) : Type :=
| OK (body : A)
| HTTPException (status_code : Z).
Arguments OK {A} body.
Arguments HTTPException {A} status_code.

(** The rows of the tables. The primary key [id] of a device and of a
    command is the key under which the row is stored. *)
Module Device.
Record t : Type := mk {
  hostname : string;
  employee_name : string;
  department : string;
  os_info : string;
  ip_address : string;
  status : string;
  risk_score : Z;
  predictive_risk_score : Z;
  last_heartbeat : Z;
  work_stats : json;
  policy : json;
  registered_at : Z
}.
End Device.

Module SecurityEvent.
Record t : Type := mk {
  id : string;
  device_id : string;
  timestamp : option Z;
  type : string;
  severity : string;
  description : string;
  risk_weight : Z;
  metadata_json : json
}.
End SecurityEvent.

Module Command.
Record t : Type := mk {
  device_id : string;
  action : string;
  status : string;
  issued_by : string;
  timestamp : Z;
  expires_at : option Z;
  executed_at : option Z
}.

Definition set_status (s : string) (c : t) : t :=
  mk (device_id c) (action c) s (issued_by c) (timestamp c)
     (expires_at c) (executed_at c).

Definition set_executed_at (d : option Z) (c : t) : t :=
  mk (device_id c) (action c) (status c) (issued_by c) (timestamp c)
     (expires_at c) d.
End Command.

(** The request bodies (pydantic schemas). *)
Module EventIn.
Record t : Type := mk {
  type : string;
  description : string;
  weight : Z;
  metadata : json
}.
End EventIn.

Module TelemetryIn.
Record t : Type := mk {
  agent_id : string;
  events : list EventIn.t;
  work_stats : json
}.
End TelemetryIn.

Module CommandIn.
Record t : Type := mk {
  deviceId : string;
  action : string
}.
End CommandIn.

Module Server.

(** The database session, committed. *)
Record db : Type := Db {
  devices : gmap string Device.t;
  events : list SecurityEvent.t;
  commands : gmap string Command.t
}.

Definition default_work_stats : json :=
  JObj [("uptime", JInt 0); ("activeTime", JInt 0); ("idleTime", JInt 0);
        ("printCount", JInt 0); ("fileModCount", JInt 0)].

Definition default_policy : json :=
  JObj [("fileMonitoring", JBool true); ("usbMonitoring", JBool true);
        ("printMonitoring", JBool true);
        ("searchKeywordMonitoring", JBool true); ("idleTracking", JBool true)].

Section Endpoints.
(** [os.getenv("COMMAND_SIGNING_SECRET", "change-me-in-prod")] *)
Variable COMMAND_SIGNING_SECRET : string.

(** Return a hex HMAC signature for a command payload. *)
Definition _sign_command (cmd_id device_id action : string) (expires_at : Z)
  : string :=
  let msg := encode (cmd_id +:+ "|" +:+ device_id +:+ "|" +:+ action +:+ "|"
                     +:+ Datetime.isoformat expires_at) in
  Hmac.hexdigest (encode COMMAND_SIGNING_SECRET) msg.

Definition register_agent (data : gmap string string) (client_host : string)
           (now : Z) (s : db) : db * response json :=
  match data !! "agent_id" with
  | Some (String _ _ as did) =>
      match devices s !! did with
      | Some dev => (s, OK (Device.policy dev))
      | None =>
          let dev :=
            Device.mk (default "Unknown" (data !! "hostname"))
                      "Auto-Identified Agent" "Infrastructure"
                      (default "Unknown" (data !! "os_info"))
                      client_host "ONLINE" 0 0 now
                      default_work_stats default_policy now in
          (Db (<[did := dev]> (devices s)) (events s) (commands s),
           OK (Device.policy dev))
      end
  | _ => (s, HTTPException 400)
  end.

(** What a [Column(Integer)] holds: a PostgreSQL integer of 32 bits. *)
Definition Integer (z : Z) : bool := (- 2 ^ 31 <=? z) && (z <? 2 ^ 31).

(** The strings of [ids] are pairwise distinct. *)
Fixpoint distinct (ids : list string) : bool :=
  match ids with
  | [] => true
  | id :: rest => negb (existsb (String.eqb id) rest) && distinct rest
  end.

(** The body of [for e in payload.events]: the row that is added and
    the device with its new score. The row is built without a
    [timestamp]: the column default gives it [utcnow], the reading of the
    clock when the row is inserted. *)
Definition ingest_event (agent_id : string) (utcnow : Z) (uuid : string)
           (dev : Device.t) (e : EventIn.t) : Device.t * SecurityEvent.t :=
  let event :=
    SecurityEvent.mk uuid agent_id (Some utcnow) (EventIn.type e)
      (if EventIn.weight e >? 60 then "CRITICAL" else "NORMAL")
      (EventIn.description e) (EventIn.weight e) (EventIn.metadata e) in
  (Device.mk (Device.hostname dev) (Device.employee_name dev)
             (Device.department dev) (Device.os_info dev)
             (Device.ip_address dev) (Device.status dev)
             (Z.min 100 (Device.risk_score dev + EventIn.weight e))
             (Device.predictive_risk_score dev) (Device.last_heartbeat dev)
             (Device.work_stats dev) (Device.policy dev)
             (Device.registered_at dev),
   event).

(** The loop; [uuid4 i] and [utcnow i] are the id drawn for the [i]-th
    row and the reading of the clock at its insert. *)
Fixpoint ingest_events (agent_id : string) (utcnow : nat -> Z)
         (uuid4 : nat -> string) (i : nat) (dev : Device.t)
         (rows : list SecurityEvent.t) (es : list EventIn.t)
  : Device.t * list SecurityEvent.t :=
  match es with
  | [] => (dev, rows)
  | e :: es' =>
      let '(dev', event) := ingest_event agent_id (utcnow i) (uuid4 i) dev e in
      ingest_events agent_id utcnow uuid4 (S i) dev' (rows ++ [event]) es'
  end.

(** [db.commit()] of an upload that leaves the score [score] and adds the
    rows [new] to the rows [old]: the flush raises when the score or a
    weight does not fit its Integer column, and when the id of a new row is
    the primary key of another row. *)
Definition flushes (score : Z) (old new : list SecurityEvent.t) : bool :=
  Integer score
  && forallb (fun r => Integer (SecurityEvent.risk_weight r)) new
  && distinct (map SecurityEvent.id new)
  && forallb (fun r => negb (existsb (fun r0 => String.eqb (SecurityEvent.id r)
                                                   (SecurityEvent.id r0)) old))
             new.

(** When the commit raises, nothing is stored and the answer is a 500. *)
Definition receive_telemetry (payload : TelemetryIn.t) (now : Z)
           (uuid4 : nat -> string) (utcnow : nat -> Z) (s : db)
  : db * response json :=
  match devices s !! TelemetryIn.agent_id payload with
  | None => (s, HTTPException 404)
  | Some dev =>
      let dev :=
        Device.mk (Device.hostname dev) (Device.employee_name dev)
                  (Device.department dev) (Device.os_info dev)
                  (Device.ip_address dev) "ONLINE" (Device.risk_score dev)
                  (Device.predictive_risk_score dev) now
                  (TelemetryIn.work_stats payload) (Device.policy dev)
                  (Device.registered_at dev) in
      let '(dev, rows) :=
        ingest_events (TelemetryIn.agent_id payload) utcnow uuid4 0 dev
                      (events s) (TelemetryIn.events payload) in
      if flushes (Device.risk_score dev) (events s)
                 (drop (length (events s)) rows)
      then
        (Db (<[TelemetryIn.agent_id payload := dev]> (devices s)) rows
            (commands s),
         OK (Device.policy dev))
      else (s, HTTPException 500)
  end.

(** The filter of the poll query. A comparison with a NULL [expires_at]
    is not true. *)
Definition deliverable (agent_id : string) (now : Z) (c : Command.t) : bool :=
  String.eqb (Command.device_id c) agent_id
  && String.eqb (Command.status c) "PENDING"
  && match Command.expires_at c with
     | Some e => now <? e
     | None => false
     end.

(** One entry of the poll result; [Raises] when [expires_at] is [None],
    on which [_sign_command] fails. *)
Definition poll_result (kc : string * Command.t) : outcome command_dict :=
  let '(cid, c) := kc in
  match Command.expires_at c with
  | Some e =>
      let sig := _sign_command cid (Command.device_id c) (Command.action c) e in
      Returns (command_entry cid (Command.action c) (Datetime.isoformat e) sig)
  | None => Raises
  end.

Fixpoint poll_results (cmds : list (string * Command.t))
  : outcome (list command_dict) :=
  match cmds with
  | [] => Returns []
  | kc :: rest =>
      match poll_result kc, poll_results rest with
      | Returns r, Returns rs => Returns (r :: rs)
      | _, _ => Raises
      end
  end.

Definition poll_commands (agent_id : string) (now : Z) (s : db)
  : db * response (list command_dict) :=
  let cmds :=
    filter (fun kc => deliverable agent_id now kc.2 = true) (commands s) in
  match poll_results (map_to_list cmds) with
  | Raises => (s, HTTPException 500)
  | Returns results =>
      (Db (devices s) (events s)
          ((Command.set_status "SENT" <$> cmds) ∪ commands s),
       OK results)
  end.

Definition ack_command (cid : string) (data : gmap string string) (now : Z)
           (s : db) : db * response string :=
  match commands s !! cid with
  | Some cmd =>
      let cmd :=
        Command.set_executed_at (Some now)
          (Command.set_status (default "EXECUTED" (data !! "status")) cmd) in
      (Db (devices s) (events s) (<[cid := cmd]> (commands s)), OK "ok")
  | None => (s, OK "ok")
  end.

Definition update_policy (id : string) (policy : json) (s : db)
  : db * response string :=
  match devices s !! id with
  | None => (s, HTTPException 404)
  | Some dev =>
      let dev :=
        Device.mk (Device.hostname dev) (Device.employee_name dev)
                  (Device.department dev) (Device.os_info dev)
                  (Device.ip_address dev) (Device.status dev)
                  (Device.risk_score dev)
                  (Device.predictive_risk_score dev)
                  (Device.last_heartbeat dev) (Device.work_stats dev)
                  policy (Device.registered_at dev) in
      (Db (<[id := dev]> (devices s)) (events s) (commands s), OK "updated")
  end.

(** [uuid] is the [uuid4()] drawn for the command; the insert fails when
    the key is taken. [now] and [now'] are the two readings of the
    clock. *)
Definition issue_command (payload : CommandIn.t) (uuid : string)
           (now now' : Z) (s : db) : db * response (string * string) :=
  let cmd :=
    Command.mk (CommandIn.deviceId payload) (CommandIn.action payload)
               "PENDING" "ADMIN_UI" now
               (Some (now' + Datetime.timedelta_minutes 5)) None in
  match commands s !! uuid with
  | Some _ => (s, HTTPException 500)
  | None =>
      (Db (devices s) (events s) (<[uuid := cmd]> (commands s)),
       OK (uuid, "PENDING"))
  end.

(** The requests that write to the devices, events and commands tables
    (the tenant settings are left out of the model). *)
Inductive request : Type :=
| RegisterAgent (data : gmap string string) (client_host : string) (now : Z)
| ReceiveTelemetry (payload : TelemetryIn.t) (now : Z) (uuid4 : nat -> string)
                   (utcnow : nat -> Z)
| PollCommands (agent_id : string) (now : Z)
| AckCommand (cid : string) (data : gmap string string) (now : Z)
| UpdatePolicy (id : string) (policy : json)
| IssueCommand (payload : CommandIn.t) (uuid : string) (now now' : Z).

Definition handle (s : db) (r : request) : db :=
  match r with
  | RegisterAgent data host now => (register_agent data host now s).1
  | ReceiveTelemetry payload now uuid4 utcnow =>
      (receive_telemetry payload now uuid4 utcnow s).1
  | PollCommands agent_id now => (poll_commands agent_id now s).1
  | AckCommand cid data now => (ack_command cid data now s).1
  | UpdatePolicy id policy => (update_policy id policy s).1
  | IssueCommand payload uuid now now' => (issue_command payload uuid now now' s).1
  end.

Definition handle_all (s : db) (rs : list request) : db :=
  fold_left handle rs s.

End Endpoints.

End Server.

(** * Vocabulary of the properties *)

(** [s] holds no newline. *)
Fixpoint no_newline (s : string) : bool :=
  match s with
  | EmptyString => true
  | String c rest => negb (Ascii.eqb c "010") && no_newline rest
  end.

(** The lists of lines a text file splits into: every line but the last
    ends with the only newline it holds, and the last one may lack it. *)
Inductive split_lines : list string -> Prop :=
| split_nil : split_lines []
| split_last (l : string) :
    l <> EmptyString -> no_newline l = true -> split_lines [l]
| split_cons (body : string) (ls : list string) :
    no_newline body = true -> split_lines ls ->
    split_lines ((body +:+ newline) :: ls).

Section BufferVocabulary.
Context {py : PyLib}.

(** The line is empty once stripped. *)
Definition blank (line : string) : bool := String.eqb (strip line) "".

(** What [json.loads(line.strip())] gives. *)
Definition decode (line : string) : option json := json_loads (strip line).

(** The lines [_load_offline] decodes: the first [max_lines] lines of
    the file, the blank ones apart. *)
Definition head_lines (max_lines : Z) (text : string) : list string :=
  filter (fun line => blank line = false)
         (take (Z.to_nat max_lines) (readlines text)).

(** The line written for [e] is one line, and reads back as [e]. *)
Definition reads_back (e : json) : Prop :=
  no_newline (json_dumps e) = true
  /\ blank (json_dumps e +:+ newline) = false
  /\ decode (json_dumps e +:+ newline) = Some e.

(** The lines [_persist_offline] writes for [events]. *)
Definition jsonl (events : list json) : list string :=
  map (fun e => json_dumps e +:+ newline) events.

End BufferVocabulary.

(** What an iteration does after the upload: the poll, and for the
    commands the workstation lock and the acks. *)
Definition command_effect (self : Agent.IVECGuardAgent) (e : effect) : Prop :=
  e = Agent.commands_request self
  \/ e = Agent.lock_workstation
  \/ exists cid status, e = Agent.ack_request self cid status.

(** The agent goes through three iterations with [A], [B] and [C] logged
    meanwhile, then a fourth one after [D] was logged. *)
Definition three_cycles_then_one {py : PyLib} (self : Agent.IVECGuardAgent)
           (offline_file : file) (A B C D : json) (w1 w2 w3 w4 : world)
  : Agent.IVECGuardAgent * file * list effect :=
  let '(self1, file1, _) :=
    Agent.sync_cycle (Agent.enqueue A self) offline_file w1 in
  let '(self2, file2, _) := Agent.sync_cycle (Agent.enqueue B self1) file1 w2 in
  let '(self3, file3, _) := Agent.sync_cycle (Agent.enqueue C self2) file2 w3 in
  Agent.sync_cycle (Agent.enqueue D self3) file3 w4.

(** ** Sample data *)

Definition sample_agent : Agent.IVECGuardAgent :=
  {| Agent.server_url := "http://localhost:8000/api/v1";
     Agent.command_secret := "change-me-in-prod";
     Agent.agent_id := "dev-1";
     Agent.event_queue := [];
     Agent.work_stats := JObj [("uptime", JInt 7)];
     Agent.policy := JObj [];
     Agent.running := true |}.

Definition sample_event (etype desc : string) (weight : Z) (meta : json) : json :=
  JObj [("type", JStr etype); ("description", JStr desc);
        ("weight", JInt weight); ("metadata", meta)].

Definition event_A : json := sample_event "USB_INSERT" "USB Mounted: A" 45 (JObj []).
Definition event_B : json :=
  sample_event "PRINT" "Document: B" 15 (JObj [("pages", JInt 3)]).
Definition event_C : json :=
  sample_event "PRINT" "Document: C" 40 (JObj [("pages", JInt 12)]).
Definition event_D : json := sample_event "USB_INSERT" "USB Mounted: D" 45 (JObj []).

(** The server cannot be reached. *)
Definition unreachable : world :=
  {| telemetry_reply := Raises; commands_reply := Raises;
     subprocess_raises := fun _ => false; ack_raises := fun _ => true |}.

(** The server answers, with [cmds] to the poll. *)
Definition reachable (cmds : list command_dict) : world :=
  {| telemetry_reply := Returns (Returns (JObj []));
     commands_reply := Returns cmds;
     subprocess_raises := fun _ => false; ack_raises := fun _ => false |}.

(** A buffer file whose second line is not JSON. *)
Definition broken_buffer : string :=
  PyJson.dumps event_A +:+ newline +:+ "{oops" +:+ newline
  +:+ PyJson.dumps event_B +:+ newline.

(** A command for [sample_agent], signed with its secret. *)
Definition signed_lock : command_dict :=
  command_entry "c1" "LOCK" "2026-11-03T21:27:00"
    "ddd68a4443c98a722c04a4d31b7451e206b14ce4e73cce2ef8eac9d4b552e1a4".

(** ** Vocabulary of the server's properties *)

(** The score after the weights were added one by one, each sum clamped
    to 100. *)
Definition clamped_sum (score : Z) (weights : list Z) : Z :=
  fold_left (fun sc w => Z.min 100 (sc + w)) weights score.

Definition weights (payload : TelemetryIn.t) : list Z :=
  map EventIn.weight (TelemetryIn.events payload).

(** The score of the device [id], when it is registered. *)
Definition score_of (id : string) (s : Server.db) : option Z :=
  Device.risk_score <$> Server.devices s !! id.

(** The status of the command [cid], when there is one. *)
Definition status_of (cid : string) (s : Server.db) : option string :=
  Command.status <$> Server.commands s !! cid.

(** The four statuses of the command lifecycle. *)
Definition lifecycle_status (st : string) : Prop :=
  st = "PENDING" \/ st = "SENT" \/ st = "EXECUTED" \/ st = "FAILED".

(** Every stored status is one of the four. *)
Definition statuses_in_lifecycle (s : Server.db) : Prop :=
  forall cid c, Server.commands s !! cid = Some c ->
                lifecycle_status (Command.status c).

(** When the request is an ack, the status it stores is one of the four. *)
Definition ack_in_lifecycle (r : Server.request) : Prop :=
  match r with
  | Server.AckCommand _ data _ =>
      lifecycle_status (default "EXECUTED" (data !! "status"))
  | _ => True
  end.

(** The request is an ack that stores PENDING on the command [cid]. *)
Definition rearms (cid : string) (r : Server.request) : Prop :=
  exists data now, r = Server.AckCommand cid data now
                   /\ data !! "status" = Some "PENDING".

(** The ids of the commands a poll returned. *)
Definition returned_ids (r : response (list command_dict)) : list (option string) :=
  match r with
  | OK results => map (fun c => c !! "id") results
  | HTTPException _ => []
  end.

(** 2026-11-03T21:27:00 *)
Definition sample_time : Z := 1793741220000000.

Definition sample_device (score : Z) : Device.t :=
  Device.mk "PC" "Auto-Identified Agent" "Infrastructure" "Windows 11"
            "10.0.0.7" "ONLINE" score 0 sample_time
            Server.default_work_stats Server.default_policy sample_time.

(** A database with the device dev-1 at the given score. *)
Definition sample_db (score : Z) : Server.db :=
  Server.Db {["dev-1" := sample_device score]} [] ∅.

(** A telemetry upload of dev-1 with events of the given weights. *)
Definition sample_upload (ws : list Z) : TelemetryIn.t :=
  TelemetryIn.mk "dev-1"
    (map (fun w => EventIn.mk "PRINT" "Document: x" w (JObj [])) ws)
    Server.default_work_stats.

Definition sample_uuid4 (i : nat) : string :=
  "00000000-0000-4000-8000-" +:+ PyJson.digits 12 (Z.of_nat i).

(** The database after LOCK was issued for dev-1 under the id c1. *)
Definition sample_issued : Server.db :=
  (Server.issue_command (CommandIn.mk "dev-1" "LOCK") "c1"
     sample_time sample_time (sample_db 0)).1.

(** Exactly one of the three fields of a delivered command differs from
    what was signed. *)
Definition one_field_altered (cid action expires_at cid' action' expires_at' : string)
  : Prop :=
  (cid' <> cid /\ action' = action /\ expires_at' = expires_at)
  \/ (cid' = cid /\ action' <> action /\ expires_at' = expires_at)
  \/ (cid' = cid /\ action' = action /\ expires_at' <> expires_at).

(** The secret both sides default to. *)
Definition default_secret : string := "change-me-in-prod".

(** Every stored score is at most 100. *)
Definition risk_bounded (s : Server.db) : Prop :=
  forall id dev, Server.devices s !! id = Some dev -> Device.risk_score dev <= 100.

(** The database before the first request. *)
Definition empty_db : Server.db := Server.Db ∅ [] ∅.

(** * More vocabulary *)

(** ** Vocabulary of the device table *)

(** The request uploads no event of negative weight. *)
Definition nonneg_upload (r : Server.request) : Prop :=
  match r with
  | Server.ReceiveTelemetry payload _ _ _ =>
      Forall (fun w => 0 <= w) (weights payload)
  | _ => True
  end.

(** The columns of a device row that no endpoint writes after the insert,
    with the values the insert gives them, and the status, which is only
    ever written as ONLINE. *)
Definition as_inserted (dev : Device.t) : Prop :=
  Device.status dev = "ONLINE"
  /\ Device.predictive_risk_score dev = 0
  /\ Device.employee_name dev = "Auto-Identified Agent"
  /\ Device.department dev = "Infrastructure".

(** The sum of the weights. *)
Definition total (weights : list Z) : Z := fold_right Z.add 0 weights.

(** The rows an upload adds to the events table, one per event, in
    order. *)
Definition uploaded_rows (payload : TelemetryIn.t) (uuid4 : nat -> string)
           (utcnow : nat -> Z) : list SecurityEvent.t :=
  imap (fun j e =>
          SecurityEvent.mk (uuid4 j) (TelemetryIn.agent_id payload)
            (Some (utcnow j)) (EventIn.type e)
            (if EventIn.weight e >? 60 then "CRITICAL" else "NORMAL")
            (EventIn.description e) (EventIn.weight e) (EventIn.metadata e))
       (TelemetryIn.events payload).

(** The upload of a device whose row is [dev] can be committed: the new
    score and every weight fit a 32-bit integer column, and the ids drawn
    for the rows are new and distinct. *)
Definition storable (payload : TelemetryIn.t) (uuid4 : nat -> string)
           (s : Server.db) (dev : Device.t) : Prop :=
  - 2 ^ 31 <= clamped_sum (Device.risk_score dev) (weights payload) < 2 ^ 31
  /\ Forall (fun w => - 2 ^ 31 <= w < 2 ^ 31) (weights payload)
  /\ NoDup (map uuid4 (seq 0 (length (TelemetryIn.events payload))))
  /\ Forall (fun id => id ∉ map SecurityEvent.id (Server.events s))
            (map uuid4 (seq 0 (length (TelemetryIn.events payload)))).

(** The clock at the insert of the rows of the samples. *)
Definition sample_utcnow (j : nat) : Z := sample_time + 1 + Z.of_nat j.

(** A second command for [sample_agent], with another action, signed with
    its secret. *)
Definition wipe_signature : string :=
  Eval vm_compute in
    Hmac.hexdigest (encode "change-me-in-prod")
      (encode (Agent.signed_message "c2" "dev-1" "WIPE" "2026-11-03T21:27:00")).

Definition signed_wipe : command_dict :=
  command_entry "c2" "WIPE" "2026-11-03T21:27:00" wipe_signature.

(** The dict that the ack endpoint gets from the JSON body of a request:
    the members of the object that are strings (a later member replaces
    an earlier one of the same name). *)
Definition request_dict (body : json) : gmap string string :=
  match body with
  | JObj members =>
      fold_left (fun d kv => match kv.2 with
                             | JStr v => <[kv.1 := v]> d
                             | _ => d
                             end) members ∅
  | _ => ∅
  end.

(** The requests of the loop body for the [i]-th command of a poll
    answer, written out: nothing for a command that fails the
    verification; the ack with FAILED for a verified command whose action
    is not LOCK; for LOCK, the workstation lock and then the ack, with
    EXECUTED unless the subprocess call raised. *)
Definition command_requests (self : Agent.IVECGuardAgent) (w : world) (i : nat)
           (c : command_dict) : list effect :=
  if Agent._verify_command self c
  then if String.eqb (default "" (c !! "action")) "LOCK"
       then [Run "rundll32.exe user32.dll,LockWorkStation";
             Post (Agent.server_url self +:+ "/agent/commands/"
                   +:+ default "" (c !! "id") +:+ "/ack")
                  (JObj [("status",
                          JStr (if subprocess_raises w i
                                then "FAILED" else "EXECUTED"))])]
       else [Post (Agent.server_url self +:+ "/agent/commands/"
                   +:+ default "" (c !! "id") +:+ "/ack")
                  (JObj [("status", JStr "FAILED")])]
  else [].

(** The ack of no verified command among the first [i] of [cmds] raises. *)
Definition acks_return (self : Agent.IVECGuardAgent) (w : world)
           (cmds : list command_dict) (i : nat) : Prop :=
  forall j c, (j < i)%nat -> cmds !! j = Some c ->
              Agent._verify_command self c = true -> ack_raises w j = false.

(** The server answers the upload and the poll with [cmds]; the ack of
    the first command raises. *)
Definition first_ack_fails (cmds : list command_dict) : world :=
  {| telemetry_reply := Returns (Returns (JObj []));
     commands_reply := Returns cmds;
     subprocess_raises := fun _ => false; ack_raises := fun i => Nat.eqb i 0 |}.

(** The server answers the upload with an error page: [requests.post]
    returns and [r.json()] raises. *)
Definition server_error : world :=
  {| telemetry_reply := Returns Raises; commands_reply := Raises;
     subprocess_raises := fun _ => false; ack_raises := fun _ => false |}.

(** * More of the code: the monitors, the admin views, the analysis *)

From Stdlib Require Floats Uint63.

(** ** Python values *)

(** A [float] is an IEEE 754 double. *)
Module PyFloat.
Import PrimFloat.

(** [float(z)], for an [int] below 2^63 in absolute value. *)
Definition of_int (z : Z) : float :=
  if z <? 0 then opp (of_uint63 (Uint63.of_Z (- z)))
  else of_uint63 (Uint63.of_Z z).

(** [int(x)]: the integer towards zero; it raises on an infinity and on
    a NaN. *)
Definition to_int (x : float) : outcome Z :=
  match FloatOps.Prim2SF x with
  | SpecFloat.S754_zero _ => Returns 0
  | SpecFloat.S754_finite s m e =>
      let v := if 0 <=? e then Z.pos m * 2 ^ e else Z.pos m / 2 ^ (- e) in
      Returns (if s then - v else v)
  | _ => Raises
  end.

(** The literal [0.8]: the double next to it. *)
Definition c0_8 : float := 0x1.999999999999ap-1%float.

End PyFloat.

(** A [dict] with string keys as a JSON object whose members have
    distinct keys. *)
Module PyDict.

Fixpoint member (key : string) (m : list (string * json)) : option json :=
  match m with
  | [] => None
  | (k, v) :: rest => if String.eqb k key then Some v else member key rest
  end.

(** The members after [d[key] = v]: in place when the key is there, at
    the end when it is new. *)
Fixpoint store (key : string) (v : json) (m : list (string * json))
  : list (string * json) :=
  match m with
  | [] => [(key, v)]
  | (k, v0) :: rest =>
      if String.eqb k key then (k, v) :: rest else (k, v0) :: store key v rest
  end.

(** [d.get(key)], for a value that is a dict. *)
Definition lookup (key : string) (d : json) : option json :=
  match d with
  | JObj m => member key m
  | _ => None
  end.

(** [d.get(key, dflt)]; an [AttributeError] when [d] is not a dict. *)
Definition get (key : string) (dflt : json) (d : json) : outcome json :=
  match d with
  | JObj m => Returns (default dflt (member key m))
  | _ => Raises
  end.

(** [bool(v)] *)
Definition truth (v : json) : bool :=
  match v with
  | JNull => false
  | JBool b => b
  | JInt n => negb (n =? 0)
  | JStr s => negb (String.eqb s "")
  | JArr l => match l with [] => false | _ :: _ => true end
  | JObj m => match m with [] => false | _ :: _ => true end
  end.

(** [a or b] *)
Definition or_ (a b : json) : json := if truth a then a else b.

(** [d[key] += n] for an [int] [n]: a [KeyError] without the key, a
    [TypeError] when [d] is no dict or the value no number. *)
Definition iadd (key : string) (n : Z) (d : json) : outcome json :=
  match d with
  | JObj m =>
      match member key m with
      | Some (JInt v) => Returns (JObj (store key (JInt (v + n)) m))
      | Some (JBool b) => Returns (JObj (store key (JInt (Z.b2z b + n)) m))
      | _ => Raises
      end
  | _ => Raises
  end.

End PyDict.

(** ** agent.py: the monitor threads *)

(** [get_idle_duration()]: [ok] is what [GetLastInputInfo] returns, [tick]
    what [GetTickCount()] returns, [dwTime] the field of the structure.
    The [0] of the last line is given as the float it compares as. *)
Definition get_idle_duration (ok : bool) (tick dwTime : Z) : PrimFloat.float :=
  if ok then
    let millis := tick - dwTime in
    PrimFloat.div (PyFloat.of_int millis) (PyFloat.of_int 1000)
  else PyFloat.of_int 0.

Module Monitor.

Definition set_work_stats (ws : json) (self : Agent.IVECGuardAgent) :=
  {| Agent.server_url := Agent.server_url self;
     Agent.command_secret := Agent.command_secret self;
     Agent.agent_id := Agent.agent_id self;
     Agent.event_queue := Agent.event_queue self;
     Agent.work_stats := ws; Agent.policy := Agent.policy self;
     Agent.running := Agent.running self |}.

(** The fields of a job of [win32print.EnumJobs] (level 1) that the
    monitor reads; [None] stands for a missing key and for the value
    [None], which [job.get(key, 0) or 0] does not tell apart. *)
Record job : Type := {
  JobId : Z;
  pDocument : string;
  TotalPages : option Z;
  Status : option Z
}.

(** A printer of [win32print.EnumPrinters] during one round: its name
    ([printer[2]]), its jobs ([Raises] when [OpenPrinter] or [EnumJobs]
    does), and whether [ClosePrinter] raises. *)
Record printer : Type := {
  pPrinterName : string;
  jobs : outcome (list job);
  close_raises : bool
}.

(** The agent and the local [last_logged]. *)
Definition state : Type := Agent.IVECGuardAgent * gset string.

Section Printing.
(** [win32print.JOB_STATUS_PRINTED] *)
Variable JOB_STATUS_PRINTED : Z.

Definition jid (name : string) (j : job) : string :=
  name +:+ "-" +:+ PyJson.string_of_Z (JobId j).

(** The pages the job is logged with; [None] when it is skipped until
    it advances. *)
Definition counted_pages (j : job) : option Z :=
  let pages := default 0 (TotalPages j) in
  if pages =? 0 then
    let status := default 0 (Status j) in
    if negb (Z.land status JOB_STATUS_PRINTED =? 0) then Some 1 else None
  else Some pages.

(** The body of [for job in jobs]; [Raises] when the update of the print
    count does, after the event was queued. *)
Definition log_job (name : string) (j : job) (st : state) : state * outcome unit :=
  let '(self, last_logged) := st in
  if decide (jid name j ∈ last_logged) then (st, Returns tt)
  else
    match counted_pages j with
    | None => (st, Returns tt)
    | Some pages =>
        let self :=
          Agent.log_event "PRINT" ("Document: " +:+ pDocument j)
                          (if pages <? 10 then 15 else 40)
                          (JObj [("pages", JInt pages)]) self in
        match PyDict.iadd "printCount" pages (Agent.work_stats self) with
        | Raises => ((self, last_logged), Raises)
        | Returns ws =>
            ((set_work_stats ws self, {[jid name j]} ∪ last_logged), Returns tt)
        end
    end.

Fixpoint log_jobs (name : string) (js : list job) (st : state)
  : state * outcome unit :=
  match js with
  | [] => (st, Returns tt)
  | j :: rest =>
      match log_job name j st with
      | (st', Returns _) => log_jobs name rest st'
      | (st', Raises) => (st', Raises)
      end
  end.

(** The body of [for printer in ...] *)
Definition scan_printer (p : printer) (st : state) : state * outcome unit :=
  match jobs p with
  | Raises => (st, Raises)
  | Returns js =>
      match log_jobs (pPrinterName p) js st with
      | (st', Returns _) => (st', if close_raises p then Raises else Returns tt)
      | (st', Raises) => (st', Raises)
      end
  end.

Fixpoint scan_printers (ps : list printer) (st : state) : state * outcome unit :=
  match ps with
  | [] => (st, Returns tt)
  | p :: rest =>
      match scan_printer p st with
      | (st', Returns _) => scan_printers rest st'
      | (st', Raises) => (st', Raises)
      end
  end.

(** One round of the loop of [monitor_printing] (the sleeps apart), with
    what [EnumPrinters] gives. [Raises] is the exception of the policy
    lookup, which nothing catches; those of the [try] are passed over. *)
Definition monitor_printing (printers : outcome (list printer)) (st : state)
  : state * outcome unit :=
  match PyDict.get "printMonitoring" (JBool true) (Agent.policy st.1) with
  | Raises => (st, Raises)
  | Returns enabled =>
      if negb (PyDict.truth enabled) then (st, Returns tt)
      else
        match printers with
        | Raises => (st, Returns tt)
        | Returns ps => ((scan_printers ps st).1, Returns tt)
        end
  end.

End Printing.

(** One round of the loop of [monitor_idle_precise], with the three
    readings of [get_idle_duration]. *)
Definition monitor_idle_precise (ok : bool) (tick dwTime : Z)
           (self : Agent.IVECGuardAgent) : Agent.IVECGuardAgent * outcome unit :=
  match PyDict.get "idleTracking" (JBool true) (Agent.policy self) with
  | Raises => (self, Raises)
  | Returns enabled =>
      if negb (PyDict.truth enabled) then (self, Returns tt)
      else
        match PyDict.iadd "uptime" 1 (Agent.work_stats self) with
        | Raises => (self, Raises)
        | Returns ws =>
            let self := set_work_stats ws self in
            let idle := get_idle_duration ok tick dwTime in
            let key := if PrimFloat.ltb (PyFloat.of_int 60) idle
                       then "idleTime" else "activeTime" in
            match PyDict.iadd key 1 (Agent.work_stats self) with
            | Raises => (self, Raises)
            | Returns ws => (set_work_stats ws self, Returns tt)
            end
        end
  end.

(** One round of the loop of [monitor_usb]: [usb] is what the watcher
    returns, the [DeviceID] of the hub, or its exception. After [Raises]
    the thread is over ([except: pass] is around the loop). *)
Definition monitor_usb (usb : outcome string) (self : Agent.IVECGuardAgent)
  : Agent.IVECGuardAgent * outcome unit :=
  match PyDict.get "usbMonitoring" (JBool true) (Agent.policy self) with
  | Raises => (self, Raises)
  | Returns enabled =>
      if negb (PyDict.truth enabled) then (self, Returns tt)
      else
        match usb with
        | Raises => (self, Raises)
        | Returns DeviceID =>
            (Agent.log_event "USB_INSERT" ("USB Mounted: " +:+ DeviceID) 45
                             (JObj []) self,
             Returns tt)
        end
  end.

End Monitor.

(** ** agent.py: the sync loop over several iterations *)

(** The events a request carries to the telemetry endpoint of [self]: the
    list under ["events"] in the body of a POST to that URL; none for any
    other effect. *)
Definition events_in_upload (self : Agent.IVECGuardAgent) (e : effect) : list json :=
  match e with
  | Post url body =>
      if String.eqb url (Agent.server_url self +:+ "/agent/telemetry")
      then match PyDict.lookup "events" body with
           | Some (JArr events) => events
           | _ => []
           end
      else []
  | _ => []
  end.

(** The events that the requests [tr] of an iteration delivered: those
    of its uploads, when the upload was answered; none when it raised. *)
Definition delivered (self : Agent.IVECGuardAgent) (w : world)
           (tr : list effect) : list json :=
  match telemetry_reply w with
  | Returns _ => concat (map (events_in_upload self) tr)
  | Raises => []
  end.

(** The monitors log [new] events, then the sync loop runs one iteration,
    and so on; the result carries the events that the requests of the
    iterations delivered, in order. *)
Fixpoint run_agent {py : PyLib} (self : Agent.IVECGuardAgent) (offline_file : file)
         (steps : list (list json * world))
  : Agent.IVECGuardAgent * file * list json :=
  match steps with
  | [] => (self, offline_file, [])
  | (new, w) :: rest =>
      let self1 := fold_left (fun s e => Agent.enqueue e s) new self in
      let '(self2, file2, tr) := Agent.sync_cycle self1 offline_file w in
      let '(self3, file3, sent) := run_agent self2 file2 rest in
      (self3, file3, delivered self1 w tr ++ sent)
  end.

(** ** agent.py: the sync loop beside the monitors *)

(** One iteration of the sync loop during which the monitor threads log
    [during] while [requests.post] waits for the answer to the upload:
    after [merged] was built, before the queue is reset. *)
Definition sync_cycle_during {py : PyLib} (self : Agent.IVECGuardAgent)
           (offline_file : file) (w : world) (during : list json)
  : Agent.IVECGuardAgent * file * list effect :=
  let offline := Agent._load_offline 200 offline_file in
  let merged := offline ++ Agent.event_queue self in
  let upload := Agent.telemetry_request self merged in
  let self := fold_left (fun s e => Agent.enqueue e s) during self in
  match telemetry_reply w with
  | Raises => (Agent.on_exception self offline_file, [upload])
  | Returns r =>
      let self := Agent.set_event_queue [] self in
      let offline_file :=
        match offline with
        | [] => offline_file
        | _ :: _ =>
            Agent._truncate_offline (Z.of_nat (length offline)) offline_file
        end in
      match r with
      | Raises => (Agent.on_exception self offline_file, [upload])
      | Returns p =>
          let self := Agent.set_policy p self in
          match commands_reply w with
          | Raises =>
              (Agent.on_exception self offline_file,
               [upload; Agent.commands_request self])
          | Returns cmds =>
              let '(tr, o) := Agent.run_commands self w 0 cmds in
              let tr := upload :: Agent.commands_request self :: tr in
              match o with
              | Raises => (Agent.on_exception self offline_file, tr)
              | Returns _ => (self, offline_file, tr)
              end
          end
      end
  end.

(** ** server.py: the admin view of the devices *)

Module Admin.

(** The entry of [get_devices] for one row. *)
Definition device_out (id : string) (d : Device.t) : json :=
  JObj [("id", JStr id);
        ("name", JStr (Device.hostname d));
        ("employeeName", JStr (Device.employee_name d));
        ("department", JStr (Device.department d));
        ("os", JStr (Device.os_info d));
        ("status", JStr (Device.status d));
        ("lastHeartbeat", JStr (Datetime.isoformat (Device.last_heartbeat d)));
        ("riskScore", JInt (Device.risk_score d));
        ("predictiveRiskScore", JInt (Z.min 100 (Device.risk_score d + 10)));
        ("ipAddress", JStr (Device.ip_address d));
        ("profileId", JStr "p1");
        ("tenantId", JStr "tenant-001");
        ("agentVersion", JStr "2.5.0");
        ("peerDeviation", JInt 0);
        ("isTamperProtected", JBool true);
        ("workStats", Device.work_stats d);
        ("policy", Device.policy d)].

(** The rows in the order the table gives them (the query asks for
    none). *)
Definition get_devices (s : Server.db) : list json :=
  map (fun kd : string * Device.t => device_out kd.1 kd.2)
      (map_to_list (Server.devices s)).

End Admin.

(** ** server.py: the analysis *)

(** [int(v)] and [str(v)] of the values of an event (the JSON values
    above: an event that holds a float is outside the model); the
    analysis is stated over any implementation of them. *)
Class PyBuiltins : Type := {
  int_ : json -> outcome Z;
  str_ : json -> string
}.

Module AIAnalysisOut.
Record forecast : Type := Forecast {
  probability7d : Z;
  topRiskFactors : list string;
  timeToEscalation : string
}.

Record t : Type := mk {
  summary : string;
  threatDetected : bool;
  correlationChain : list string;
  recommendedActions : list string;
  behaviorScore : Z;
  predictiveForecast : forecast
}.
End AIAnalysisOut.

Module AI.
Section Analysis.
Context {builtins : PyBuiltins}.

(** [e.get(key)] *)
Definition get (key : string) (e : gmap string json) : json :=
  default JNull (e !! key).

(** The loop over the events, from the [risk] and the [chain] so far. *)
Fixpoint tally (events : list (gmap string json)) (risk : Z) (chain : list string)
  : outcome (Z * list string) :=
  match events with
  | [] => Returns (risk, chain)
  | e :: rest =>
      match int_ (PyDict.or_ (PyDict.or_ (get "riskWeight" e) (get "weight" e))
                             (JInt 0)) with
      | Raises => Raises
      | Returns w =>
          let t := PyDict.or_ (get "type" e) (JStr "EVENT") in
          tally rest (risk + w) (chain ++ [str_ t])
      end
  end.

Definition summary : string :=
  "Heuristic correlation based on aggregated event weights. "
  +:+ "Configure GENAI_API_KEY on the backend to enable LLM narrative summaries.".

Definition ai_analyze (events : list (gmap string json))
  : response AIAnalysisOut.t :=
  match tally events 0 [] with
  | Raises => HTTPException 500
  | Returns (risk, chain) =>
      let behavior_score := Z.max 0 (Z.min 100 risk) in
      let threat := 60 <=? behavior_score in
      let rec :=
        if 80 <=? behavior_score then ["lock_device"; "isolate_network"]
        else if 60 <=? behavior_score
             then ["increase_monitoring"; "review_print_activity"]
             else ["monitor_closely"] in
      match PyFloat.to_int (PrimFloat.mul (PyFloat.of_int behavior_score)
                                          PyFloat.c0_8) with
      | Raises => HTTPException 500
      | Returns p =>
          OK (AIAnalysisOut.mk summary threat
                (drop (length chain - 10) chain) rec behavior_score
                (AIAnalysisOut.Forecast (Z.min p 100)
                   [if threat then "High-weight event sequence"
                    else "Normal variability"]
                   (if threat then "Immediate" else "Unknown")))
      end
  end.

End Analysis.
End AI.

(** ** Vocabulary of the properties of this part *)

(** The events that were queued between two states of the agent. *)
Definition logged (before after : Agent.IVECGuardAgent) : list json :=
  drop (length (Agent.event_queue before)) (Agent.event_queue after).

(** The pages an event of the print monitor reports in its metadata. *)
Definition event_pages (e : json) : Z :=
  match PyDict.lookup "metadata" e with
  | Some meta =>
      match PyDict.lookup "pages" meta with
      | Some (JInt n) => n
      | _ => 0
      end
  | None => 0
  end.

(** The integer under [key] in the work statistics, when there is one. *)
Definition counter (key : string) (self : Agent.IVECGuardAgent) : option Z :=
  match PyDict.lookup key (Agent.work_stats self) with
  | Some (JInt n) => Some n
  | _ => None
  end.

(** The event the print monitor queues for a document of [pages] pages. *)
Definition print_event (doc : string) (pages : Z) : json :=
  JObj [("type", JStr "PRINT"); ("description", JStr ("Document: " +:+ doc));
        ("weight", JInt (if pages <? 10 then 15 else 40));
        ("metadata", JObj [("pages", JInt pages)])].

(** The monitor passes over the job: it was logged, or it shows no page
    and is not marked printed. *)
Definition settled (JOB_STATUS_PRINTED : Z) (last_logged : gset string)
           (name : string) (j : Monitor.job) : Prop :=
  Monitor.jid name j ∈ last_logged
  \/ Monitor.counted_pages JOB_STATUS_PRINTED j = None.

(** A round over the printers [ps] has nothing to log. *)
Fixpoint quiet (JOB_STATUS_PRINTED : Z) (last_logged : gset string)
         (ps : list Monitor.printer) : Prop :=
  match ps with
  | [] => True
  | p :: rest =>
      match Monitor.jobs p with
      | Raises => True
      | Returns js =>
          Forall (settled JOB_STATUS_PRINTED last_logged (Monitor.pPrinterName p)) js
          /\ (Monitor.close_raises p = true
              \/ quiet JOB_STATUS_PRINTED last_logged rest)
      end
  end.

Section AnalysisVocabulary.
Context {builtins : PyBuiltins}.

(** The weight the analysis reads from an event: its [riskWeight], its
    [weight] when that is missing or falsy, 0 when both are. *)
Definition event_weight (e : gmap string json) : outcome Z :=
  int_ (PyDict.or_ (PyDict.or_ (AI.get "riskWeight" e) (AI.get "weight" e))
                   (JInt 0)).

(** The type the analysis reads from an event. *)
Definition event_type (e : gmap string json) : string :=
  str_ (PyDict.or_ (AI.get "type" e) (JStr "EVENT")).

(** The weights of the events, when [int] raises on none. *)
Fixpoint event_weights (events : list (gmap string json)) : outcome (list Z) :=
  match events with
  | [] => Returns []
  | e :: rest =>
      match event_weight e, event_weights rest with
      | Returns w, Returns ws => Returns (w :: ws)
      | _, _ => Raises
      end
  end.

End AnalysisVocabulary.

(** What a round of the print monitor may do to the agent: it queues
    [new], all of them print events of a positive or negative number of
    pages, and adds their pages to the print count, which was [n]; it
    leaves the policy and the other statistics. *)
Definition grows (self self' : Agent.IVECGuardAgent) (n : Z) (new : list json)
  : Prop :=
  Agent.event_queue self' = Agent.event_queue self ++ new
  /\ counter "printCount" self' = Some (n + total (map event_pages new))
  /\ Forall (fun e => exists doc pages, e = print_event doc pages /\ pages <> 0) new
  /\ Agent.policy self' = Agent.policy self
  /\ (forall key, key <> "printCount" ->
        PyDict.lookup key (Agent.work_stats self')
        = PyDict.lookup key (Agent.work_stats self)).

(** The monitor is switched on: the policy is a dict and the value under
    [key], [True] when there is none, is truthy. *)
Definition switched_on (key : string) (self : Agent.IVECGuardAgent) : bool :=
  match PyDict.get key (JBool true) (Agent.policy self) with
  | Returns enabled => PyDict.truth enabled
  | Raises => false
  end.

(** Sample data of the monitors. *)
Definition sample_monitored : Agent.IVECGuardAgent :=
  {| Agent.server_url := "http://localhost:8000/api/v1";
     Agent.command_secret := "change-me-in-prod";
     Agent.agent_id := "dev-1";
     Agent.event_queue := [event_A];
     Agent.work_stats :=
       JObj [("uptime", JInt 9); ("activeTime", JInt 7); ("idleTime", JInt 2);
             ("printCount", JInt 4); ("fileModCount", JInt 0)];
     Agent.policy := JObj [("usbMonitoring", JBool true)];
     Agent.running := true |}.

(** A printer with a job of 12 pages, a job that shows no page yet, and a
    job without pages that is marked printed. *)
Definition sample_printers : list Monitor.printer :=
  [{| Monitor.pPrinterName := "HP";
      Monitor.jobs :=
        Returns [{| Monitor.JobId := 3; Monitor.pDocument := "report.pdf";
                    Monitor.TotalPages := Some 12; Monitor.Status := Some 0 |};
                 {| Monitor.JobId := 4; Monitor.pDocument := "draft.txt";
                    Monitor.TotalPages := Some 0; Monitor.Status := Some 8 |};
                 {| Monitor.JobId := 5; Monitor.pDocument := "memo.txt";
                    Monitor.TotalPages := None; Monitor.Status := Some 128 |}];
      Monitor.close_raises := false |}].

(** ** agent.py: the threads side by side *)

(** [IVECGuardAgent.__init__], with the two environment variables and
    what [uuid.getnode()] returns. *)
Definition __init__ (IVEC_SERVER COMMAND_SIGNING_SECRET : option string)
           (node : Z) : Agent.IVECGuardAgent :=
  {| Agent.server_url := default "http://localhost:8000/api/v1" IVEC_SERVER;
     Agent.command_secret := default "change-me-in-prod" COMMAND_SIGNING_SECRET;
     Agent.agent_id := PyJson.string_of_Z node;
     Agent.event_queue := [];
     Agent.work_stats :=
       JObj [("uptime", JInt 0); ("activeTime", JInt 0); ("idleTime", JInt 0);
             ("printCount", JInt 0); ("fileModCount", JInt 0)];
     Agent.policy := JObj [];
     Agent.running := true |}.

Module Threads.

(** The agent the threads share, the [last_logged] of the print monitor,
    and which of the three monitor threads have not ended with an
    exception. *)
Record t : Type := mk {
  agent : Agent.IVECGuardAgent;
  last_logged : gset string;
  printing : bool;
  idle : bool;
  usb : bool
}.

(** The threads as [run] starts them. *)
Definition start (self : Agent.IVECGuardAgent) : t := mk self ∅ true true true.

(** What happens next: a round of one of the monitors, or one of the two
    assignments of the sync loop to the shared fields ([self.policy = ...]
    and [self.event_queue = []]). *)
Inductive round : Type :=
| Printing (printers : outcome (list Monitor.printer))
| Idle (ok : bool) (tick dwTime : Z)
| Usb (insertion : outcome string)
| SetPolicy (p : json)
| ResetQueue.

Definition still (alive : bool) (o : outcome unit) : bool :=
  match o with
  | Returns _ => alive
  | Raises => false
  end.

Definition step (JOB_STATUS_PRINTED : Z) (r : round) (th : t) : t :=
  match r with
  | Printing printers =>
      if printing th then
        let '((self, L), o) :=
          Monitor.monitor_printing JOB_STATUS_PRINTED printers
                                   (agent th, last_logged th) in
        mk self L (still true o) (idle th) (usb th)
      else th
  | Idle ok tick dwTime =>
      if idle th then
        let '(self, o) := Monitor.monitor_idle_precise ok tick dwTime (agent th) in
        mk self (last_logged th) (printing th) (still true o) (usb th)
      else th
  | Usb insertion =>
      if usb th then
        let '(self, o) := Monitor.monitor_usb insertion (agent th) in
        mk self (last_logged th) (printing th) (idle th) (still true o)
      else th
  | SetPolicy p =>
      mk (Agent.set_policy p (agent th)) (last_logged th) (printing th)
         (idle th) (usb th)
  | ResetQueue =>
      mk (Agent.set_event_queue [] (agent th)) (last_logged th) (printing th)
         (idle th) (usb th)
  end.

(** The threads after the rounds, and the events the monitors queued
    meanwhile, in order. *)
Fixpoint run (JOB_STATUS_PRINTED : Z) (rounds : list round) (th : t)
  : t * list json :=
  match rounds with
  | [] => (th, [])
  | r :: rest =>
      let th1 := step JOB_STATUS_PRINTED r th in
      let '(th2, events) := run JOB_STATUS_PRINTED rest th1 in
      (th2, logged (agent th) (agent th1) ++ events)
  end.

End Threads.

(** * Properties of the offline buffer *)

Lemma append_nil_l (s : string) : "" +:+ s = s.
Proof. reflexivity. Qed.

Lemma append_cons (c : ascii) (s t : string) :
  String c s +:+ t = String c (s +:+ t).
Proof. reflexivity. Qed.

Lemma append_nil_r (s : string) : s +:+ "" = s.
Proof.
  induction s as [|c s IH]; [reflexivity |].
  now rewrite append_cons, IH.
Qed.

Lemma append_assoc (s1 s2 s3 : string) : (s1 +:+ s2) +:+ s3 = s1 +:+ s2 +:+ s3.
Proof.
  induction s1 as [|c s1 IH]; [reflexivity |].
  now rewrite !append_cons, IH.
Qed.

Lemma length_append (s t : string) :
  String.length (s +:+ t) = (String.length s + String.length t)%nat.
Proof.
  induction s as [|c s IH]; [reflexivity |].
  rewrite append_cons. simpl. now rewrite IH.
Qed.

Lemma append_inj_r (s1 s2 t : string) : s1 +:+ t = s2 +:+ t -> s1 = s2.
Proof.
  revert s2. induction s1 as [|c s1 IH]; intros [|c' s2] H.
  - reflexivity.
  - apply (f_equal String.length) in H.
    rewrite append_nil_l, append_cons in H. simpl in H.
    rewrite length_append in H. lia.
  - apply (f_equal String.length) in H.
    rewrite append_nil_l, append_cons in H. simpl in H.
    rewrite length_append in H. lia.
  - rewrite !append_cons in H. injection H as -> H. f_equal. now apply IH.
Qed.

Lemma append_inj_l (s t1 t2 : string) : s +:+ t1 = s +:+ t2 -> t1 = t2.
Proof.
  induction s as [|c s IH]; [trivial |].
  rewrite !append_cons. intros [= H]. now apply IH.
Qed.

Lemma writelines_app (l1 l2 : list string) :
  writelines (l1 ++ l2) = writelines l1 +:+ writelines l2.
Proof.
  induction l1 as [|l l1 IH]; simpl; [reflexivity |].
  now rewrite IH, append_assoc.
Qed.

(** Writing back the lines of a text gives the text. *)
Lemma writelines_readlines (s : string) : writelines (readlines s) = s.
Proof.
  induction s as [|c s IH]; simpl; [reflexivity |].
  destruct (Ascii.eqb_spec c "010") as [->|Hc]; simpl.
  - now rewrite IH.
  - destruct (readlines s) as [|l ls]; simpl in *;
      rewrite append_cons; now rewrite <- IH.
Qed.

(** A line that ends with its only newline is cut off as a line. *)
Lemma readlines_line (body rest : string) :
  no_newline body = true ->
  readlines (body +:+ newline +:+ rest) = (body +:+ newline) :: readlines rest.
Proof.
  induction body as [|c body IH]; intros H; [reflexivity |].
  rewrite append_cons. simpl in *.
  apply andb_prop in H as [Hc Hb].
  destruct (Ascii.eqb c "010"); [discriminate |].
  now rewrite (IH Hb).
Qed.

Lemma readlines_unterminated (l : string) :
  l <> EmptyString -> no_newline l = true -> readlines l = [l].
Proof.
  induction l as [|c l IH]; simpl; intros Hne H; [congruence |].
  apply andb_prop in H as [Hc Hb].
  destruct (Ascii.eqb c "010"); [discriminate |].
  destruct l as [|c' l]; [reflexivity |].
  rewrite IH; [reflexivity | discriminate | exact Hb].
Qed.

Lemma readlines_split (s : string) : split_lines (readlines s).
Proof.
  induction s as [|c s IH]; simpl; [constructor |].
  destruct (Ascii.eqb_spec c "010") as [->|Hc].
  - apply (split_cons EmptyString); [reflexivity | exact IH].
  - assert (Hcb : negb (Ascii.eqb c "010") = true)
      by (apply negb_true_iff, Ascii.eqb_neq, Hc).
    inversion IH as [Hnil | l Hne Hl Heq | body ls Hb Hls Heq].
    + apply split_last; [discriminate | simpl; now rewrite Hcb].
    + apply split_last; [discriminate | simpl; now rewrite Hcb, Hl].
    + apply (split_cons (String c body)); [simpl; now rewrite Hcb, Hb | exact Hls].
Qed.

Lemma split_lines_readlines (ls : list string) :
  split_lines ls -> readlines (writelines ls) = ls.
Proof.
  induction 1 as [| l Hne Hl | body ls Hb Hls IH]; simpl.
  - reflexivity.
  - rewrite append_nil_r. now apply readlines_unterminated.
  - rewrite append_assoc, readlines_line by exact Hb. now rewrite IH.
Qed.

Lemma split_lines_drop (k : nat) (ls : list string) :
  split_lines ls -> split_lines (drop k ls).
Proof.
  intros H. revert k.
  induction H as [| l Hne Hl | body ls Hb Hls IH]; intros [|k]; simpl;
    try constructor; auto.
  destruct k; constructor.
Qed.

(** Truncating and reading again gives the lines from the [k]-th on. *)
Lemma readlines_truncate (k : nat) (s : string) :
  readlines (writelines (drop k (readlines s))) = drop k (readlines s).
Proof. apply split_lines_readlines, split_lines_drop, readlines_split. Qed.

Lemma readlines_app_lines (ls : list string) (s : string) :
  Forall (fun l => exists body, l = body +:+ newline /\ no_newline body = true) ls ->
  readlines (writelines ls +:+ s) = ls ++ readlines s.
Proof.
  induction 1 as [| l ls (body & -> & Hb) _ IH]; simpl; [reflexivity |].
  rewrite !append_assoc, readlines_line by exact Hb. now rewrite IH.
Qed.

Section Buffer.
Context {py : PyLib}.

(** The loop of [_load_offline] decodes the non-blank lines it is
    allowed to read, and raises when one of them does not decode. *)
Lemma load_lines_spec (max_lines : Z) (lines : list string) :
  forall (i : Z) (events : list json),
    Agent.load_lines max_lines i lines events
    = match mapM decode
              (filter (fun line => blank line = false)
                      (take (Z.to_nat (max_lines - i)) lines)) with
      | Some parsed => Returns (events ++ parsed)
      | None => Raises
      end.
Proof.
  induction lines as [|line rest IH]; intros i events; simpl.
  - rewrite take_nil. simpl. now rewrite app_nil_r.
  - destruct (Z.geb_spec i max_lines) as [Hge|Hlt].
    + replace (Z.to_nat (max_lines - i)) with O by lia.
      simpl. now rewrite app_nil_r.
    + replace (Z.to_nat (max_lines - i))
        with (S (Z.to_nat (max_lines - (i + 1)))) by lia.
      simpl. fold (blank line). fold (decode line).
      destruct (blank line) eqn:Hb.
      * rewrite filter_cons_False by congruence. apply IH.
      * rewrite filter_cons_True by exact Hb. simpl.
        destruct (decode line) as [v|]; simpl; [| reflexivity].
        rewrite IH.
        destruct (mapM decode _) as [parsed|]; simpl; [| reflexivity].
        now rewrite <- app_assoc.
Qed.

Lemma load_offline_spec (max_lines : Z) (text : string) :
  Agent._load_offline max_lines (Some text)
  = default [] (mapM decode (head_lines max_lines text)).
Proof.
  unfold Agent._load_offline, head_lines.
  rewrite load_lines_spec, Z.sub_0_r.
  now destruct (mapM decode _).
Qed.

(** Lines that read back are decoded in order. *)
Lemma mapM_decode_jsonl (events : list json) :
  Forall reads_back events ->
  mapM decode (filter (fun line => blank line = false) (jsonl events))
  = Some events.
Proof.
  induction 1 as [| e es (_ & Hb & Hd) _ IH]; [reflexivity |].
  change (jsonl (e :: es)) with ((json_dumps e +:+ newline) :: jsonl es).
  rewrite filter_cons_True by exact Hb.
  cbn [mapM]. rewrite Hd. cbn [mbind option_bind].
  now rewrite IH.
Qed.

Lemma readlines_jsonl (events : list json) (s : string) :
  Forall reads_back events ->
  readlines (writelines (jsonl events) +:+ s) = jsonl events ++ readlines s.
Proof.
  intros H. apply readlines_app_lines. unfold jsonl.
  apply Forall_map. eapply Forall_impl; [exact H |].
  intros e (Hn & _). simpl. eauto.
Qed.

End Buffer.

(** ** The claims about the offline buffer and the sync loop *)

(** C7. Truncating [k] lines of a buffer file of [m] lines leaves the
    lines from the [k]-th on, [m - k] of them (none when [k] exceeds [m]:
    the file is then empty); truncating 0 lines afterwards changes nothing;
    the file is still there in every case. *)
Theorem truncate_offline_removes_first_lines (text : string) (k j : nat) :
  exists_ (Agent._truncate_offline (Z.of_nat k) (Some text)) = true
  /\ readlines (content (Agent._truncate_offline (Z.of_nat k) (Some text)))
     = drop k (readlines text)
  /\ length (readlines (content (Agent._truncate_offline (Z.of_nat k) (Some text))))
     = (length (readlines text) - k)%nat
  /\ Agent._truncate_offline 0 (Agent._truncate_offline (Z.of_nat k) (Some text))
     = Agent._truncate_offline (Z.of_nat k) (Some text)
  /\ Agent._truncate_offline (Z.of_nat (length (readlines text) + S j)) (Some text)
     = Some "".
Proof.
  assert (Hread : readlines (content (Agent._truncate_offline (Z.of_nat k) (Some text)))
                  = drop k (readlines text)).
  { destruct k as [|k]; [reflexivity |].
    unfold Agent._truncate_offline.
    replace (Z.of_nat (S k) <=? 0) with false by (symmetry; apply Z.leb_gt; lia).
    cbn [orb negb exists_ content default id].
    rewrite Nat2Z.id. apply readlines_truncate. }
  split; [| split; [| split; [| split]]].
  - destruct k; reflexivity.
  - exact Hread.
  - rewrite Hread. apply length_drop.
  - reflexivity.
  - unfold Agent._truncate_offline at 1.
    replace (Z.of_nat (length (readlines text) + S j) <=? 0) with false
      by (symmetry; apply Z.leb_gt; lia).
    cbn [orb negb exists_ content default id].
    rewrite Nat2Z.id, drop_ge by lia. reflexivity.
Qed.

(** C1, as the code has it. A read of the buffer decodes the non-blank
    lines among the first [max_lines]: when each of them is valid JSON it
    returns their values in file order, and when one of them is not it
    returns no event at all (without raising). A missing file reads as
    empty. *)
Theorem load_offline_all_or_nothing {py : PyLib} (max_lines : Z) (text : string) :
  (forall events,
      Forall2 (fun line e => decode line = Some e) (head_lines max_lines text) events ->
      Agent._load_offline max_lines (Some text) = events)
  /\ (forall line,
         line ∈ head_lines max_lines text -> decode line = None ->
         Agent._load_offline max_lines (Some text) = [])
  /\ Agent._load_offline max_lines None = [].
Proof.
  split; [| split].
  - intros events H. rewrite load_offline_spec.
    apply mapM_Some_2 in H. now rewrite H.
  - intros line Hin Hnone. rewrite load_offline_spec.
    assert (mapM decode (head_lines max_lines text) = None) as ->; [| reflexivity].
    apply mapM_None_2, Exists_exists. eauto.
  - reflexivity.
Qed.

Lemma load_offline_all_or_nothing_witness :
  Agent._load_offline (py := python_lib) 200 (Some broken_buffer) = [].
Proof.
  apply (proj1 (proj2 (load_offline_all_or_nothing (py := python_lib)
                         200 broken_buffer)) ("{oops" +:+ newline)).
  - vm_compute. apply list_elem_of_In. vm_compute. right. left. reflexivity.
  - vm_compute. reflexivity.
Defined.

(** C1, refuted as stated: in a buffer of three lines whose second line is
    not JSON, the first and the third line decode to the events A and B,
    and the read returns neither. *)
Lemma load_offline_malformed_line_aborts :
  readlines broken_buffer
  = [PyJson.dumps event_A +:+ newline; "{oops" +:+ newline;
     PyJson.dumps event_B +:+ newline]
  /\ decode (py := python_lib) (PyJson.dumps event_A +:+ newline) = Some event_A
  /\ decode (py := python_lib) ("{oops" +:+ newline) = None
  /\ decode (py := python_lib) (PyJson.dumps event_B +:+ newline) = Some event_B
  /\ Agent._load_offline (py := python_lib) 200 (Some broken_buffer) = []
  /\ Agent._load_offline (py := python_lib) 200 (Some broken_buffer)
     <> [event_A; event_B].
Proof. vm_compute. repeat split; try reflexivity. discriminate. Qed.

Section SyncLoop.
Context {py : PyLib}.

Lemma run_command_effects (self : Agent.IVECGuardAgent) (w : world) (i : nat)
      (c : command_dict) :
  Forall (command_effect self) (Agent.run_command self w i c).1.
Proof.
  unfold Agent.run_command, command_effect.
  destruct (negb (Agent._verify_command self c)); [constructor |].
  destruct (String.eqb _ "LOCK"); simpl.
  - constructor; [right; now left |].
    constructor; [right; right; eauto | constructor].
  - constructor; [right; right; eauto | constructor].
Qed.

Lemma run_commands_effects (self : Agent.IVECGuardAgent) (w : world)
      (cmds : list command_dict) :
  forall i, Forall (command_effect self) (Agent.run_commands self w i cmds).1.
Proof.
  induction cmds as [|c cmds IH]; intros i; simpl; [constructor |].
  pose proof (run_command_effects self w i c) as Hc.
  destruct (Agent.run_command self w i c) as [tr [[]|]]; simpl in *; [| exact Hc].
  specialize (IH (S i)).
  destruct (Agent.run_commands self w (S i) cmds) as [tr' o]. simpl in *.
  apply Forall_app. now split.
Qed.

(** The URL of an ack is not the URL of the upload. *)
Lemma ack_url_not_telemetry (base cid : string) :
  base +:+ "/agent/commands/" +:+ cid +:+ "/ack" <> base +:+ "/agent/telemetry".
Proof.
  intros H. apply append_inj_l in H. rewrite !append_cons in H. discriminate.
Qed.

(** None of the requests that follow the upload goes to its URL. *)
Lemma command_effect_not_upload (self : Agent.IVECGuardAgent) (e : effect) :
  command_effect self e ->
  forall body, e <> Post (Agent.server_url self +:+ "/agent/telemetry") body.
Proof.
  unfold command_effect, Agent.commands_request, Agent.lock_workstation,
    Agent.ack_request.
  intros [-> | [-> | (cid & status & ->)]] body; try discriminate.
  intros [= H _]. now apply ack_url_not_telemetry in H.
Qed.

(** Every iteration starts with the upload of the backlog followed by
    the queue, and uploads nothing else. *)
Lemma sync_cycle_upload (self : Agent.IVECGuardAgent) (f : file) (w : world) :
  exists tr,
    (Agent.sync_cycle self f w).2
    = Post (Agent.server_url self +:+ "/agent/telemetry")
           (JObj [("agent_id", JStr (Agent.agent_id self));
                  ("events",
                   JArr (Agent._load_offline 200 f ++ Agent.event_queue self));
                  ("work_stats", Agent.work_stats self)])
      :: tr
    /\ Forall (command_effect self) tr.
Proof.
  unfold Agent.sync_cycle.
  destruct (telemetry_reply w) as [[p|]|]; simpl; eauto.
  destruct (commands_reply w) as [cmds|]; simpl.
  - match goal with |- context [Agent.run_commands ?s w 0 cmds] =>
      pose proof (run_commands_effects s w cmds 0) as Hc;
      destruct (Agent.run_commands s w 0 cmds) as [tr [[]|]]
    end; simpl in *; eexists; (split; [reflexivity |]);
      (constructor; [now left | exact Hc]).
  - eexists. split; [reflexivity |]. constructor; [now left | constructor].
Qed.

(** An iteration whose upload raises spills the queue to the file. *)
Lemma sync_cycle_unreachable (self : Agent.IVECGuardAgent) (f : file) (w : world) :
  telemetry_reply w = Raises ->
  (Agent.sync_cycle self f w).1 = Agent.on_exception self f.
Proof. intros H. unfold Agent.sync_cycle. now rewrite H. Qed.

Lemma on_exception_spec (self : Agent.IVECGuardAgent) (f : file) :
  Agent.event_queue (Agent.on_exception self f).1 = []
  /\ content (Agent.on_exception self f).2
     = content f +:+ writelines (jsonl (Agent.event_queue self)).
Proof.
  unfold Agent.on_exception.
  destruct (Agent.event_queue self) as [|e q] eqn:Hq; simpl.
  - now rewrite Hq, append_nil_r.
  - split; reflexivity.
Qed.

(** Once the upload has returned, the queue is empty and the lines that
    were read are gone from the file, whatever happens next. *)
Lemma sync_cycle_uploaded (self : Agent.IVECGuardAgent) (f : file) (w : world)
      (r : outcome json) :
  telemetry_reply w = Returns r ->
  Agent.event_queue (Agent.sync_cycle self f w).1.1 = []
  /\ (Agent.sync_cycle self f w).1.2
     = match Agent._load_offline 200 f with
       | [] => f
       | _ :: _ =>
           Agent._truncate_offline
             (Z.of_nat (length (Agent._load_offline 200 f))) f
       end.
Proof.
  intros H. unfold Agent.sync_cycle. cbv zeta. rewrite H.
  set (f' := match Agent._load_offline 200 f with [] => f | _ :: _ => _ end).
  assert (Hex : forall s, Agent.event_queue s = [] ->
                          Agent.on_exception s f' = (s, f'))
    by (intros s Hs; unfold Agent.on_exception; now rewrite Hs).
  destruct r as [p|]; [| rewrite Hex by reflexivity; split; reflexivity].
  destruct (commands_reply w) as [cmds|];
    [| rewrite Hex by reflexivity; split; reflexivity].
  destruct (Agent.run_commands _ w 0 cmds) as [tr [[]|]];
    [| rewrite Hex by reflexivity]; split; reflexivity.
Qed.

Lemma readlines_jsonl_only (events : list json) :
  Forall reads_back events ->
  readlines (writelines (jsonl events)) = jsonl events.
Proof.
  intros H.
  rewrite <- (append_nil_r (writelines _)), readlines_jsonl by exact H.
  apply app_nil_r.
Qed.

(** The events written for a backlog that fits in one read are read back. *)
Lemma load_offline_jsonl (events : list json) :
  Forall reads_back events -> (length events <= 200)%nat ->
  Agent._load_offline 200 (Some (writelines (jsonl events))) = events.
Proof.
  intros H Hlen. rewrite load_offline_spec. unfold head_lines.
  rewrite readlines_jsonl_only by exact H. rewrite take_ge.
  - now rewrite mapM_decode_jsonl.
  - unfold jsonl. rewrite length_map. lia.
Qed.

(** Successive spills add up in the file. *)
Lemma persist_offline_app (es1 es2 : list json) (f : file) :
  Agent._persist_offline es2 (Agent._persist_offline es1 f)
  = Agent._persist_offline (es1 ++ es2) f.
Proof.
  unfold Agent._persist_offline. simpl.
  now rewrite map_app, writelines_app, append_assoc.
Qed.

Lemma persist_offline_fresh (es : list json) (f : file) :
  content f = "" -> Agent._persist_offline es f = Some (writelines (jsonl es)).
Proof. intros H. unfold Agent._persist_offline. now rewrite H. Qed.

End SyncLoop.

(** C6. Every iteration of the sync loop starts with one POST to the
    telemetry URL whose body carries, under "events", the offline backlog
    (what [_load_offline(200)] reads from the head of the file) followed by
    the live queue, and no other request of the iteration goes to that
    URL; when the non-blank lines among the first 200 decode, the backlog
    is their events in file order. In particular, when three iterations
    fail with A, B and C logged one after the other, and D is logged before
    a fourth iteration whose upload goes through, the body of that upload
    carries A, B, C, D in this order, and the queue and the buffer are
    empty afterwards. *)
Theorem sync_cycle_uploads_backlog_then_queue {py : PyLib} :
  (forall self f w, exists tr,
      (Agent.sync_cycle self f w).2
      = Post (Agent.server_url self +:+ "/agent/telemetry")
             (JObj [("agent_id", JStr (Agent.agent_id self));
                    ("events",
                     JArr (Agent._load_offline 200 f ++ Agent.event_queue self));
                    ("work_stats", Agent.work_stats self)])
        :: tr
      /\ Forall (fun e => forall body,
                   e <> Post (Agent.server_url self +:+ "/agent/telemetry") body)
                tr)
  /\ (forall self text w events,
         Forall2 (fun line e => decode line = Some e) (head_lines 200 text) events ->
         exists tr,
           (Agent.sync_cycle self (Some text) w).2
           = Post (Agent.server_url self +:+ "/agent/telemetry")
                  (JObj [("agent_id", JStr (Agent.agent_id self));
                         ("events", JArr (events ++ Agent.event_queue self));
                         ("work_stats", Agent.work_stats self)])
             :: tr)
  /\ (forall self f0 A B C D w1 w2 w3 w4 r,
         Agent.event_queue self = [] -> content f0 = "" ->
         reads_back A -> reads_back B -> reads_back C ->
         telemetry_reply w1 = Raises -> telemetry_reply w2 = Raises ->
         telemetry_reply w3 = Raises -> telemetry_reply w4 = Returns r ->
         exists self' f' tr,
           three_cycles_then_one self f0 A B C D w1 w2 w3 w4
           = (self', f',
              Post (Agent.server_url self +:+ "/agent/telemetry")
                   (JObj [("agent_id", JStr (Agent.agent_id self));
                          ("events", JArr [A; B; C; D]);
                          ("work_stats", Agent.work_stats self)])
              :: tr)
           /\ Agent.event_queue self' = [] /\ content f' = "").
Proof.
  split.
  { intros self f w. destruct (sync_cycle_upload self f w) as (tr & Htr & Hc).
    exists tr. split; [exact Htr |].
    eapply Forall_impl; [exact Hc |]. apply command_effect_not_upload. }
  split.
  { intros self text w events H.
    destruct (sync_cycle_upload self (Some text) w) as (tr & Htr & _).
    exists tr. rewrite Htr, load_offline_spec.
    apply mapM_Some_2 in H. now rewrite H. }
  intros self f0 A B C D w1 w2 w3 w4 r Hq Hf0 HA HB HC H1 H2 H3 H4.
  unfold three_cycles_then_one.
  (* first failure *)
  destruct (Agent.sync_cycle (Agent.enqueue A self) f0 w1) as [[s1 f1] t1] eqn:E1.
  pose proof (sync_cycle_unreachable (Agent.enqueue A self) f0 w1 H1) as P1.
  rewrite E1 in P1. simpl in P1.
  unfold Agent.on_exception, Agent.enqueue in P1. simpl in P1.
  rewrite Hq in P1. simpl in P1. injection P1 as -> ->.
  (* second failure *)
  destruct (Agent.sync_cycle _ _ w2) as [[s2 f2] t2] eqn:E2.
  match type of E2 with Agent.sync_cycle ?s ?f _ = _ =>
    pose proof (sync_cycle_unreachable s f w2 H2) as P2 end.
  rewrite E2 in P2. simpl in P2. injection P2 as -> ->.
  (* third failure *)
  destruct (Agent.sync_cycle _ _ w3) as [[s3 f3] t3] eqn:E3.
  match type of E3 with Agent.sync_cycle ?s ?f _ = _ =>
    pose proof (sync_cycle_unreachable s f w3 H3) as P3 end.
  rewrite E3 in P3. simpl in P3. injection P3 as -> ->.
  clear E1 E2 E3.
  (* the buffer now holds the three lines *)
  rewrite !persist_offline_app, (persist_offline_fresh _ f0 Hf0).
  change ([A] ++ [B] ++ [C]) with [A; B; C].
  assert (Hall : Forall reads_back [A; B; C])
    by (constructor; [exact HA | constructor; [exact HB |
        constructor; [exact HC | constructor]]]).
  pose proof (load_offline_jsonl [A; B; C] Hall ltac:(simpl; lia)) as Hload.
  match goal with |- context [Agent.sync_cycle ?s ?f w4] =>
    destruct (sync_cycle_upload s f w4) as (tr & Htr & _);
    destruct (sync_cycle_uploaded s f w4 r H4) as [Hqueue Hfile];
    destruct (Agent.sync_cycle s f w4) as [[s4 f4] t4]
  end.
  rewrite Hload in Htr, Hfile. simpl in Htr, Hqueue. cbn [fst snd] in Hfile.
  exists s4, f4, tr. split; [| split].
  - now rewrite Htr.
  - exact Hqueue.
  - rewrite Hfile.
    change (writelines (drop 3 (readlines (writelines (jsonl [A; B; C])))) = "").
    now rewrite (readlines_jsonl_only [A; B; C] Hall).
Qed.

Lemma sync_cycle_uploads_backlog_then_queue_witness :
  exists self' f' tr,
    three_cycles_then_one (py := python_lib) sample_agent None
      event_A event_B event_C event_D
      unreachable unreachable unreachable (reachable [])
    = (self', f',
       Post (Agent.server_url sample_agent +:+ "/agent/telemetry")
            (JObj [("agent_id", JStr (Agent.agent_id sample_agent));
                   ("events", JArr [event_A; event_B; event_C; event_D]);
                   ("work_stats", Agent.work_stats sample_agent)])
       :: tr)
    /\ Agent.event_queue self' = [] /\ content f' = "".
Proof.
  apply (proj2 (proj2
           (sync_cycle_uploads_backlog_then_queue (py := python_lib)))
               sample_agent None event_A event_B event_C event_D
               unreachable unreachable unreachable (reachable [])
               (Returns (JObj [])));
    try reflexivity; vm_compute; repeat split; reflexivity.
Defined.

(** When the upload of an iteration raises, the events that were in the
    live queue are appended to the buffer file, one line each, after what
    the file held, which is kept as it was, and the queue is left empty. *)
Lemma sync_cycle_raise_spills_queue {py : PyLib}
      (self : Agent.IVECGuardAgent) (f : file) (w : world) :
  telemetry_reply w = Raises ->
  Agent.event_queue (Agent.sync_cycle self f w).1.1 = []
  /\ content (Agent.sync_cycle self f w).1.2
     = content f +:+ writelines (jsonl (Agent.event_queue self)).
Proof.
  intros H. rewrite (sync_cycle_unreachable self f w H).
  apply on_exception_spec.
Qed.

(** C9, where the code goes wrong. The buffer holds the line of A and the
    queue holds D; the server answers the upload with an error page, so
    that [requests.post] returns and [r.json()] raises. The queue was
    reset and the backlog truncated before the answer was looked at: the
    iteration ends with an empty queue and an empty file, D is not
    appended to the buffer and the line of A is gone, where the claim has
    the buffer hold the lines of A and D. *)
Theorem server_error_drops_queue_and_backlog :
  Agent._load_offline (py := python_lib) 200
    (Some (PyJson.dumps event_A +:+ newline)) = [event_A]
  /\ telemetry_reply server_error = Returns Raises
  /\ (Agent.sync_cycle (py := python_lib) (Agent.enqueue event_D sample_agent)
        (Some (PyJson.dumps event_A +:+ newline)) server_error).2
     = [Post "http://localhost:8000/api/v1/agent/telemetry"
             (JObj [("agent_id", JStr "dev-1");
                    ("events", JArr [event_A; event_D]);
                    ("work_stats", JObj [("uptime", JInt 7)])])]
  /\ Agent.event_queue
       (Agent.sync_cycle (py := python_lib) (Agent.enqueue event_D sample_agent)
          (Some (PyJson.dumps event_A +:+ newline)) server_error).1.1 = []
  /\ (Agent.sync_cycle (py := python_lib) (Agent.enqueue event_D sample_agent)
        (Some (PyJson.dumps event_A +:+ newline)) server_error).1.2 = Some ""
  /\ (Agent.sync_cycle (py := python_lib) (Agent.enqueue event_D sample_agent)
        (Some (PyJson.dumps event_A +:+ newline)) server_error).1.2
     <> Some (PyJson.dumps event_A +:+ newline
              +:+ PyJson.dumps event_D +:+ newline).
Proof.
  vm_compute. repeat split; try reflexivity. discriminate.
Qed.

Section CommandLoop.

(** The body of the loop over the commands, for a verified command. *)
Lemma run_command_verified (self : Agent.IVECGuardAgent) (w : world) (i : nat)
      (c : command_dict) :
  Agent._verify_command self c = true ->
  (Agent.run_command self w i c).1
  = if String.eqb (default "" (c !! "action")) "LOCK"
    then [Agent.lock_workstation;
          Agent.ack_request self (default "" (c !! "id"))
            (if subprocess_raises w i then "FAILED" else "EXECUTED")]
    else [Agent.ack_request self (default "" (c !! "id")) "FAILED"].
Proof.
  intros H. unfold Agent.run_command. rewrite H. simpl.
  now destruct (String.eqb _ "LOCK").
Qed.

Lemma run_command_returns (self : Agent.IVECGuardAgent) (w : world) (i : nat)
      (c : command_dict) :
  ack_raises w i = false -> (Agent.run_command self w i c).2 = Returns tt.
Proof.
  intros H. unfold Agent.run_command.
  destruct (negb (Agent._verify_command self c)); [reflexivity |].
  destruct (String.eqb _ "LOCK"); simpl; now rewrite H.
Qed.

(** What is done for a command that the loop reaches is part of what the
    loop does. *)
Lemma run_commands_reaches (self : Agent.IVECGuardAgent) (w : world)
      (cmds : list command_dict) :
  forall (k i : nat) (c : command_dict),
    cmds !! i = Some c ->
    (forall j, (j < i)%nat -> ack_raises w (k + j) = false) ->
    exists before after,
      (Agent.run_commands self w k cmds).1
      = before ++ (Agent.run_command self w (k + i) c).1 ++ after.
Proof.
  induction cmds as [|c0 rest IH]; intros k i c Hi Hack; [discriminate |].
  destruct i as [|i]; simpl in Hi.
  - injection Hi as ->. rewrite Nat.add_0_r. simpl.
    destruct (Agent.run_command self w k c) as [tr [[]|]]; simpl.
    + destruct (Agent.run_commands self w (S k) rest) as [tr' o]. simpl.
      now exists [], tr'.
    + exists [], []. now rewrite app_nil_r.
  - simpl.
    assert (Hk : ack_raises w k = false)
      by (rewrite <- (Nat.add_0_r k); apply Hack; lia).
    pose proof (run_command_returns self w k c0 Hk) as Hret.
    destruct (Agent.run_command self w k c0) as [tr o]. simpl in Hret. subst o.
    destruct (IH (S k) i c Hi) as (before & after & Heq).
    { intros j Hj. replace (S k + j)%nat with (k + S j)%nat by lia.
      apply Hack. lia. }
    destruct (Agent.run_commands self w (S k) rest) as [tr' o']. simpl in *.
    exists (tr ++ before), after.
    rewrite Heq. replace (k + S i)%nat with (S (k + i)) by lia.
    now rewrite <- app_assoc.
Qed.

(** The loop body for one command: its requests, and whether it raises. *)
Lemma run_command_spec (self : Agent.IVECGuardAgent) (w : world) (i : nat)
      (c : command_dict) :
  Agent.run_command self w i c
  = (command_requests self w i c,
     if Agent._verify_command self c && ack_raises w i
     then Raises else Returns tt).
Proof.
  unfold Agent.run_command, command_requests, Agent.ack_request,
    Agent.lock_workstation.
  destruct (Agent._verify_command self c); simpl; [| reflexivity].
  destruct (String.eqb _ "LOCK"); reflexivity.
Qed.

(** As long as no ack raises, the loop goes from one command to the next. *)
Lemma run_commands_prefix (self : Agent.IVECGuardAgent) (w : world) :
  forall (i k : nat) (cmds : list command_dict),
    (forall j c, (j < i)%nat -> cmds !! j = Some c ->
                 Agent._verify_command self c = true ->
                 ack_raises w (k + j) = false) ->
    (Agent.run_commands self w k cmds).1
    = concat (imap (fun j => command_requests self w (k + j)) (take i cmds))
      ++ (Agent.run_commands self w (k + i) (drop i cmds)).1.
Proof.
  induction i as [|i IH]; intros k cmds Hack.
  - now rewrite Nat.add_0_r, take_0, drop_0.
  - destruct cmds as [|c0 rest]; [reflexivity |].
    cbn [take drop Agent.run_commands]. rewrite run_command_spec.
    assert (H0 : Agent._verify_command self c0 && ack_raises w k = false).
    { destruct (Agent._verify_command self c0) eqn:Hv; [| reflexivity].
      simpl. rewrite <- (Nat.add_0_r k). apply (Hack 0%nat c0); [lia | | ];
        [reflexivity | exact Hv]. }
    rewrite H0.
    assert (Hrest : forall j c, (j < i)%nat -> rest !! j = Some c ->
                      Agent._verify_command self c = true ->
                      ack_raises w (S k + j) = false).
    { intros j c Hj Hc Hv.
      replace (S k + j)%nat with (k + S j)%nat by lia.
      apply (Hack (S j) c); [lia | exact Hc | exact Hv]. }
    specialize (IH (S k) rest Hrest).
    destruct (Agent.run_commands self w (S k) rest) as [tr' o'].
    cbn [fst] in IH |- *. rewrite IH, imap_cons. cbn [concat].
    rewrite Nat.add_0_r, <- app_assoc. f_equal.
    replace (k + S i)%nat with (S k + i)%nat by lia.
    f_equal. f_equal. apply imap_ext. intros j c _. cbn.
    now replace (k + S j)%nat with (S (k + j)) by lia.
Qed.

(** The requests of an iteration whose upload and poll are answered, up
    to the [i]-th command of the answer. *)
Lemma sync_cycle_commands_prefix {py : PyLib}
      (self : Agent.IVECGuardAgent) (f : file) (w : world) (p : json)
      (cmds : list command_dict) (i : nat) :
  telemetry_reply w = Returns (Returns p) ->
  commands_reply w = Returns cmds ->
  acks_return self w cmds i ->
  (Agent.sync_cycle self f w).2
  = Post (Agent.server_url self +:+ "/agent/telemetry")
         (JObj [("agent_id", JStr (Agent.agent_id self));
                ("events",
                 JArr (Agent._load_offline 200 f ++ Agent.event_queue self));
                ("work_stats", Agent.work_stats self)])
    :: Get (Agent.server_url self +:+ "/agent/commands/" +:+ Agent.agent_id self)
    :: concat (imap (command_requests self w) (take i cmds))
    ++ (Agent.run_commands
          (Agent.set_policy p (Agent.set_event_queue [] self)) w i
          (drop i cmds)).1.
Proof.
  intros Ht Hc Hack. unfold Agent.sync_cycle. rewrite Ht, Hc.
  set (self' := Agent.set_policy p (Agent.set_event_queue [] self)).
  pose proof (run_commands_prefix self' w i 0 cmds Hack) as Hpre.
  destruct (Agent.run_commands self' w 0 cmds) as [tr o].
  cbn [fst] in Hpre. subst tr.
  change (fun j => command_requests self' w (0 + j))
    with (command_requests self w).
  change (0 + i)%nat with i.
  destruct o as [[]|]; reflexivity.
Qed.

End CommandLoop.

(** The requests of an iteration up to and with those of a verified
    command that the loop reaches. *)
Lemma sync_cycle_reaches_command {py : PyLib}
        (self : Agent.IVECGuardAgent) (f : file) (w : world) (p : json)
        (cmds : list command_dict) (i : nat) (c : command_dict) :
  telemetry_reply w = Returns (Returns p) ->
  commands_reply w = Returns cmds ->
  cmds !! i = Some c ->
  Agent._verify_command self c = true ->
  acks_return self w cmds i ->
  exists after,
    (Agent.sync_cycle self f w).2
    = Post (Agent.server_url self +:+ "/agent/telemetry")
           (JObj [("agent_id", JStr (Agent.agent_id self));
                  ("events",
                   JArr (Agent._load_offline 200 f ++ Agent.event_queue self));
                  ("work_stats", Agent.work_stats self)])
      :: Get (Agent.server_url self +:+ "/agent/commands/"
              +:+ Agent.agent_id self)
      :: concat (imap (command_requests self w) (take i cmds))
      ++ (if String.eqb (default "" (c !! "action")) "LOCK"
          then [Run "rundll32.exe user32.dll,LockWorkStation";
                Post (Agent.server_url self +:+ "/agent/commands/"
                      +:+ default "" (c !! "id") +:+ "/ack")
                     (JObj [("status",
                             JStr (if subprocess_raises w i
                                   then "FAILED" else "EXECUTED"))])]
          else [Post (Agent.server_url self +:+ "/agent/commands/"
                      +:+ default "" (c !! "id") +:+ "/ack")
                     (JObj [("status", JStr "FAILED")])])
      ++ after
    /\ (ack_raises w i = true -> after = []).
Proof.
  intros Ht Hc Hi Hv Hack.
  rewrite (sync_cycle_commands_prefix self f w p cmds i Ht Hc Hack).
  rewrite (drop_S _ _ _ Hi). cbn [Agent.run_commands].
  rewrite run_command_spec.
  change (Agent._verify_command
            (Agent.set_policy p (Agent.set_event_queue [] self)) c)
    with (Agent._verify_command self c).
  rewrite Hv. cbn [andb].
  assert (Hreq : command_requests
                   (Agent.set_policy p (Agent.set_event_queue [] self)) w i c
                 = if String.eqb (default "" (c !! "action")) "LOCK"
                   then [Run "rundll32.exe user32.dll,LockWorkStation";
                         Post (Agent.server_url self +:+ "/agent/commands/"
                               +:+ default "" (c !! "id") +:+ "/ack")
                              (JObj [("status",
                                      JStr (if subprocess_raises w i
                                            then "FAILED" else "EXECUTED"))])]
                   else [Post (Agent.server_url self +:+ "/agent/commands/"
                               +:+ default "" (c !! "id") +:+ "/ack")
                              (JObj [("status", JStr "FAILED")])]).
  { unfold command_requests.
    change (Agent._verify_command
              (Agent.set_policy p (Agent.set_event_queue [] self)) c)
      with (Agent._verify_command self c).
    now rewrite Hv. }
  rewrite Hreq.
  destruct (ack_raises w i).
  - exists []. split; [| reflexivity]. cbn [fst]. now rewrite app_nil_r.
  - destruct (Agent.run_commands _ w (S i) (drop (S i) cmds)) as [tr' o'].
    exists tr'. split; [reflexivity | discriminate].
Qed.




(** * Properties of the server *)

(** ** Risk score *)

Lemma clamped_sum_le (weights : list Z) :
  forall score, score <= 100 -> clamped_sum score weights <= 100.
Proof.
  unfold clamped_sum.
  induction weights as [|w ws IH]; intros score H; simpl; [exact H |].
  apply IH. lia.
Qed.

Lemma clamped_sum_ge (weights : list Z) :
  Forall (fun w => 0 <= w) weights ->
  forall score, score <= 100 -> score <= clamped_sum score weights.
Proof.
  unfold clamped_sum.
  induction 1 as [|w ws Hw _ IH]; intros score H; simpl; [lia |].
  etransitivity; [| apply IH]; lia.
Qed.

(** The loop over the events adds the weights to the score one by one. *)
Lemma ingest_events_score (agent_id : string) (utcnow : nat -> Z)
      (uuid4 : nat -> string) (es : list EventIn.t) :
  forall (i : nat) (dev : Device.t) (rows : list SecurityEvent.t),
    Device.risk_score (Server.ingest_events agent_id utcnow uuid4 i dev rows es).1
    = clamped_sum (Device.risk_score dev) (map EventIn.weight es).
Proof.
  induction es as [|e es IH]; intros i dev rows; simpl; [reflexivity |].
  now rewrite IH.
Qed.

(** The loop leaves every column of the device but the score, and appends
    one row per event. *)
Lemma ingest_events_spec (agent_id : string) (utcnow : nat -> Z)
      (uuid4 : nat -> string) (es : list EventIn.t) :
  forall (i : nat) (dev : Device.t) (rows : list SecurityEvent.t),
    Server.ingest_events agent_id utcnow uuid4 i dev rows es
    = (Device.mk (Device.hostname dev) (Device.employee_name dev)
         (Device.department dev) (Device.os_info dev) (Device.ip_address dev)
         (Device.status dev)
         (clamped_sum (Device.risk_score dev) (map EventIn.weight es))
         (Device.predictive_risk_score dev) (Device.last_heartbeat dev)
         (Device.work_stats dev) (Device.policy dev) (Device.registered_at dev),
       rows ++ imap (fun j e =>
                 SecurityEvent.mk (uuid4 (i + j)%nat) agent_id
                   (Some (utcnow (i + j)%nat)) (EventIn.type e)
                   (if EventIn.weight e >? 60 then "CRITICAL" else "NORMAL")
                   (EventIn.description e) (EventIn.weight e)
                   (EventIn.metadata e)) es).
Proof.
  induction es as [|e es IH]; intros i dev rows.
  - simpl. rewrite app_nil_r. now destruct dev.
  - cbn [Server.ingest_events Server.ingest_event]. rewrite IH. simpl.
    rewrite <- app_assoc, Nat.add_0_r. simpl. do 3 f_equal.
    apply imap_ext. intros j x _. simpl. now rewrite Nat.add_succ_r.
Qed.

(** What an upload stores, in one equation. *)
Lemma receive_telemetry_spec (payload : TelemetryIn.t) (now : Z)
      (uuid4 : nat -> string) (utcnow : nat -> Z) (s : Server.db) :
  Server.receive_telemetry payload now uuid4 utcnow s
  = match Server.devices s !! TelemetryIn.agent_id payload with
    | None => (s, HTTPException 404)
    | Some dev =>
        if Server.flushes (clamped_sum (Device.risk_score dev) (weights payload))
                          (Server.events s) (uploaded_rows payload uuid4 utcnow)
        then
          (Server.Db
             (<[TelemetryIn.agent_id payload :=
                  Device.mk (Device.hostname dev) (Device.employee_name dev)
                    (Device.department dev) (Device.os_info dev)
                    (Device.ip_address dev) "ONLINE"
                    (clamped_sum (Device.risk_score dev) (weights payload))
                    (Device.predictive_risk_score dev) now
                    (TelemetryIn.work_stats payload) (Device.policy dev)
                    (Device.registered_at dev)]> (Server.devices s))
             (Server.events s ++ uploaded_rows payload uuid4 utcnow)
             (Server.commands s),
           OK (Device.policy dev))
        else (s, HTTPException 500)
    end.
Proof.
  unfold Server.receive_telemetry.
  destruct (Server.devices s !! TelemetryIn.agent_id payload) as [dev|];
    [| reflexivity].
  rewrite ingest_events_spec. cbn [Device.risk_score Device.policy].
  now rewrite drop_app_length.
Qed.

Lemma Integer_spec (z : Z) :
  Server.Integer z = true <-> - 2 ^ 31 <= z < 2 ^ 31.
Proof. unfold Server.Integer. rewrite andb_true_iff, Z.leb_le, Z.ltb_lt. tauto. Qed.

Lemma existsb_eqb_elem_of (id : string) (ids : list string) :
  existsb (String.eqb id) ids = true <-> id ∈ ids.
Proof.
  rewrite existsb_exists. split.
  - intros (x & Hin & Heq). apply String.eqb_eq in Heq. subst x.
    now apply list_elem_of_In.
  - intros Hin. exists id. split; [now apply list_elem_of_In |].
    apply String.eqb_refl.
Qed.

Lemma distinct_spec (ids : list string) :
  Server.distinct ids = true <-> NoDup ids.
Proof.
  induction ids as [|id ids IH]; simpl.
  - split; [constructor | reflexivity].
  - rewrite andb_true_iff, negb_true_iff, IH, NoDup_cons.
    rewrite <- not_true_iff_false, existsb_eqb_elem_of. tauto.
Qed.

Lemma uploaded_rows_from (agent_id : string) (uuid4 : nat -> string)
      (utcnow : nat -> Z) (es : list EventIn.t) :
  forall k,
    map SecurityEvent.id
        (imap (fun j e =>
                 SecurityEvent.mk (uuid4 (k + j)%nat) agent_id
                   (Some (utcnow (k + j)%nat)) (EventIn.type e)
                   (if EventIn.weight e >? 60 then "CRITICAL" else "NORMAL")
                   (EventIn.description e) (EventIn.weight e)
                   (EventIn.metadata e)) es)
    = map uuid4 (seq k (length es))
    /\ map SecurityEvent.risk_weight
           (imap (fun j e =>
                    SecurityEvent.mk (uuid4 (k + j)%nat) agent_id
                      (Some (utcnow (k + j)%nat)) (EventIn.type e)
                      (if EventIn.weight e >? 60 then "CRITICAL" else "NORMAL")
                      (EventIn.description e) (EventIn.weight e)
                      (EventIn.metadata e)) es)
       = map EventIn.weight es.
Proof.
  induction es as [|e es IH]; intros k; [split; reflexivity |].
  destruct (IH (S k)) as [Hid Hw]. cbn [imap map seq length].
  rewrite Nat.add_0_r.
  rewrite (imap_ext _ (fun j e0 =>
             SecurityEvent.mk (uuid4 (S k + j)%nat) agent_id
               (Some (utcnow (S k + j)%nat)) (EventIn.type e0)
               (if EventIn.weight e0 >? 60 then "CRITICAL" else "NORMAL")
               (EventIn.description e0) (EventIn.weight e0)
               (EventIn.metadata e0)))
    by (intros j x _; simpl; now rewrite Nat.add_succ_r).
  rewrite Hid, Hw. split; reflexivity.
Qed.

(** The ids and the weights of the rows an upload adds. *)
Lemma uploaded_rows_columns (payload : TelemetryIn.t) (uuid4 : nat -> string)
      (utcnow : nat -> Z) :
  map SecurityEvent.id (uploaded_rows payload uuid4 utcnow)
  = map uuid4 (seq 0 (length (TelemetryIn.events payload)))
  /\ map SecurityEvent.risk_weight (uploaded_rows payload uuid4 utcnow)
     = weights payload.
Proof.
  apply (uploaded_rows_from (TelemetryIn.agent_id payload) uuid4 utcnow
           (TelemetryIn.events payload) 0).
Qed.

(** The commit goes through exactly for an upload that can be stored. *)
Lemma flushes_spec (payload : TelemetryIn.t) (uuid4 : nat -> string)
      (utcnow : nat -> Z) (s : Server.db) (dev : Device.t) :
  Server.flushes (clamped_sum (Device.risk_score dev) (weights payload))
                 (Server.events s) (uploaded_rows payload uuid4 utcnow) = true
  <-> storable payload uuid4 s dev.
Proof.
  destruct (uploaded_rows_columns payload uuid4 utcnow) as [Hid Hw].
  unfold Server.flushes, storable.
  rewrite !andb_true_iff, Integer_spec, distinct_spec, Hid, <- Hw, <- Hid.
  assert (H1 : forallb (fun r => Server.Integer (SecurityEvent.risk_weight r))
                       (uploaded_rows payload uuid4 utcnow) = true
               <-> Forall (fun w => - 2 ^ 31 <= w < 2 ^ 31)
                          (map SecurityEvent.risk_weight
                               (uploaded_rows payload uuid4 utcnow))).
  { rewrite forallb_forall, Forall_map, Forall_forall. split.
    - intros H r Hr. apply Integer_spec, H. now apply list_elem_of_In.
    - intros H r Hr. apply Integer_spec, H. now apply list_elem_of_In. }
  assert (H2 : forallb (fun r => negb (existsb
                          (fun r0 => String.eqb (SecurityEvent.id r)
                                                (SecurityEvent.id r0))
                          (Server.events s)))
                       (uploaded_rows payload uuid4 utcnow) = true
               <-> Forall (fun id => id ∉ map SecurityEvent.id (Server.events s))
                          (map SecurityEvent.id
                               (uploaded_rows payload uuid4 utcnow))).
  { rewrite forallb_forall, Forall_map, Forall_forall.
    assert (Hone : forall r,
               negb (existsb (fun r0 => String.eqb (SecurityEvent.id r)
                                                   (SecurityEvent.id r0))
                             (Server.events s)) = true
               <-> SecurityEvent.id r ∉ map SecurityEvent.id (Server.events s)).
    { intros r. rewrite negb_true_iff, <- not_true_iff_false.
      apply not_iff_compat. rewrite existsb_exists. split.
      - intros (r0 & Hin & Heq). apply String.eqb_eq in Heq. rewrite Heq.
        apply list_elem_of_In, in_map. exact Hin.
      - intros Hin. apply list_elem_of_In, in_map_iff in Hin
          as (r0 & Heq & Hin).
        exists r0. split; [exact Hin |]. rewrite Heq. apply String.eqb_refl. }
    split.
    - intros H r Hr. apply Hone, H. now apply list_elem_of_In.
    - intros H r Hr. apply Hone, H. now apply list_elem_of_In. }
  rewrite H1, H2. tauto.
Qed.

(** What an upload does to the score of the device that uploads. *)
Lemma receive_telemetry_score (payload : TelemetryIn.t) (now : Z)
      (uuid4 : nat -> string) (utcnow : nat -> Z) (s : Server.db)
      (dev : Device.t) :
  Server.devices s !! TelemetryIn.agent_id payload = Some dev ->
  score_of (TelemetryIn.agent_id payload)
           (Server.receive_telemetry payload now uuid4 utcnow s).1
  = Some (if Server.flushes (clamped_sum (Device.risk_score dev) (weights payload))
                            (Server.events s) (uploaded_rows payload uuid4 utcnow)
          then clamped_sum (Device.risk_score dev) (weights payload)
          else Device.risk_score dev).
Proof.
  intros H. rewrite receive_telemetry_spec, H. unfold score_of.
  destruct (Server.flushes _ _ _); simpl.
  - now rewrite lookup_insert_eq.
  - now rewrite H.
Qed.

(** C2. An upload that the database takes adds the weight of each event
    to the stored score of the device, each sum clamped to 100; the
    database takes it exactly when the new score and the weights fit their
    32-bit integer columns and the ids of the new rows are new, and
    otherwise the upload is answered with a server error and stores
    nothing. From a score of at most 100 the stored score is at most 100
    afterwards, in both cases. *)
Theorem telemetry_risk_score_clamped (payload : TelemetryIn.t) (now : Z)
        (uuid4 : nat -> string) (utcnow : nat -> Z) (s : Server.db)
        (dev : Device.t) :
  Server.devices s !! TelemetryIn.agent_id payload = Some dev ->
  Device.risk_score dev <= 100 ->
  exists score',
    score_of (TelemetryIn.agent_id payload)
             (Server.receive_telemetry payload now uuid4 utcnow s).1 = Some score'
    /\ score' <= 100
    /\ (storable payload uuid4 s dev ->
        (Server.receive_telemetry payload now uuid4 utcnow s).2
        = OK (Device.policy dev)
        /\ score' = clamped_sum (Device.risk_score dev) (weights payload))
    /\ (~ storable payload uuid4 s dev ->
        Server.receive_telemetry payload now uuid4 utcnow s
        = (s, HTTPException 500)
        /\ score' = Device.risk_score dev).
Proof.
  intros H Hle.
  pose proof (flushes_spec payload uuid4 utcnow s dev) as Hfl.
  pose proof (receive_telemetry_score payload now uuid4 utcnow s dev H) as Hsc.
  pose proof (receive_telemetry_spec payload now uuid4 utcnow s) as Hrt.
  rewrite H in Hrt.
  destruct (Server.flushes _ _ _).
  - eexists. split; [exact Hsc |]. split; [now apply clamped_sum_le |].
    split.
    + intros _. rewrite Hrt. split; reflexivity.
    + intros Hn. exfalso. apply Hn, Hfl. reflexivity.
  - eexists. split; [exact Hsc |]. split; [exact Hle |]. split.
    + intros Hst. apply Hfl in Hst. discriminate.
    + intros _. rewrite Hrt. split; reflexivity.
Qed.

Lemma telemetry_risk_score_clamped_witness :
  exists score',
    score_of "dev-1"
      (Server.receive_telemetry (sample_upload [100; 100; 100]) sample_time
         sample_uuid4 sample_utcnow (sample_db 95)).1 = Some score'
    /\ score' <= 100
    /\ (storable (sample_upload [100; 100; 100]) sample_uuid4 (sample_db 95)
                 (sample_device 95) ->
        (Server.receive_telemetry (sample_upload [100; 100; 100]) sample_time
           sample_uuid4 sample_utcnow (sample_db 95)).2
        = OK (Device.policy (sample_device 95))
        /\ score' = clamped_sum (Device.risk_score (sample_device 95))
                                (weights (sample_upload [100; 100; 100])))
    /\ (~ storable (sample_upload [100; 100; 100]) sample_uuid4 (sample_db 95)
                   (sample_device 95) ->
        Server.receive_telemetry (sample_upload [100; 100; 100]) sample_time
          sample_uuid4 sample_utcnow (sample_db 95)
        = (sample_db 95, HTTPException 500)
        /\ score' = Device.risk_score (sample_device 95)).
Proof.
  apply (telemetry_risk_score_clamped (sample_upload [100; 100; 100]) sample_time
           sample_uuid4 sample_utcnow (sample_db 95) (sample_device 95)).
  - reflexivity.
  - simpl. lia.
Defined.

(** C3, as the code has it. An ingest whose events all have a weight of
    at least 0, on a device whose stored score is at most 100, leaves a
    score that is at least the score before. *)
Theorem telemetry_risk_score_monotone (payload : TelemetryIn.t) (now : Z)
        (uuid4 : nat -> string) (utcnow : nat -> Z) (s : Server.db)
        (dev : Device.t) :
  Server.devices s !! TelemetryIn.agent_id payload = Some dev ->
  Device.risk_score dev <= 100 ->
  Forall (fun e => 0 <= EventIn.weight e) (TelemetryIn.events payload) ->
  exists score',
    score_of (TelemetryIn.agent_id payload)
             (Server.receive_telemetry payload now uuid4 utcnow s).1 = Some score'
    /\ Device.risk_score dev <= score'.
Proof.
  intros H Hle Hw. eexists.
  split; [apply (receive_telemetry_score _ _ _ _ _ _ H) |].
  destruct (Server.flushes _ _ _); [| lia].
  apply clamped_sum_ge; [| exact Hle].
  unfold weights. now apply Forall_map.
Qed.

Lemma telemetry_risk_score_monotone_witness :
  exists score',
    score_of "dev-1"
      (Server.receive_telemetry (sample_upload [15; 0; 45]) sample_time
         sample_uuid4 sample_utcnow (sample_db 50)).1 = Some score'
    /\ Device.risk_score (sample_device 50) <= score'.
Proof.
  apply (telemetry_risk_score_monotone (sample_upload [15; 0; 45]) sample_time
           sample_uuid4 sample_utcnow (sample_db 50) (sample_device 50)).
  - reflexivity.
  - simpl. lia.
  - repeat constructor; simpl; lia.
Defined.

(** C3, refuted as stated: an upload with one event of weight -10 takes
    the score of dev-1 from 50 down to 40. *)
Lemma telemetry_negative_weight_lowers_score :
  score_of "dev-1" (sample_db 50) = Some 50
  /\ score_of "dev-1"
       (Server.receive_telemetry (sample_upload [-10]) sample_time
          sample_uuid4 sample_utcnow (sample_db 50)).1 = Some 40
  /\ 40 < 50.
Proof. split; [| split]; [vm_compute; reflexivity .. | lia]. Qed.

(** ** Command lifecycle *)

Section CommandTable.
Variable secret : string.

Lemma deliverable_spec (agent : string) (now : Z) (c : Command.t) :
  Server.deliverable agent now c = true
  <-> Command.device_id c = agent /\ Command.status c = "PENDING"
      /\ exists e, Command.expires_at c = Some e /\ now < e.
Proof.
  unfold Server.deliverable.
  rewrite !andb_true_iff, !String.eqb_eq.
  destruct (Command.expires_at c) as [e|].
  - rewrite Z.ltb_lt. split.
    + intros [[? ?] ?]. eauto.
    + intros (? & ? & e' & [= <-] & ?). auto.
  - split; [intros [_ [=]] | intros (_ & _ & e & [=] & _)].
Qed.

(** Signing never fails on the commands the query selects. *)
Lemma poll_results_total (agent : string) (now : Z)
      (l : list (string * Command.t)) :
  Forall (fun kc => Server.deliverable agent now kc.2 = true) l ->
  exists results, Server.poll_results secret l = Returns results.
Proof.
  induction 1 as [| [cid c] l Hd _ [results IH]]; simpl; [eauto |].
  apply deliverable_spec in Hd as (_ & _ & e & He & _). simpl in He.
  rewrite He, IH. eauto.
Qed.

(** Every entry of the result comes from a selected row and carries its
    key as id. *)
Lemma poll_results_entries (l : list (string * Command.t)) :
  forall results r,
    Server.poll_results secret l = Returns results -> r ∈ results ->
    exists cid c, (cid, c) ∈ l /\ r !! "id" = Some cid.
Proof.
  induction l as [| [cid c] l IH]; simpl; intros results r Hres Hin.
  - injection Hres as <-. inversion Hin.
  - destruct (Command.expires_at c) as [e|]; [| discriminate].
    destruct (Server.poll_results secret l) as [rs|]; [| discriminate].
    injection Hres as <-.
    apply elem_of_cons in Hin as [-> | Hin].
    + exists cid, c. split; [left |]. unfold command_entry.
      apply lookup_insert_eq.
    + destruct (IH rs r eq_refl Hin) as (cid' & c' & Hin' & Hid).
      exists cid', c'. split; [now right | exact Hid].
Qed.

Lemma poll_commands_ok (agent : string) (now : Z) (s : Server.db) :
  exists results,
    Server.poll_commands secret agent now s
    = (Server.Db (Server.devices s) (Server.events s)
         ((Command.set_status "SENT"
           <$> filter (fun kc => Server.deliverable agent now kc.2 = true)
                      (Server.commands s))
          ∪ Server.commands s),
       OK results)
    /\ Server.poll_results secret
         (map_to_list (filter (fun kc => Server.deliverable agent now kc.2 = true)
                              (Server.commands s)))
       = Returns results.
Proof.
  unfold Server.poll_commands.
  destruct (poll_results_total agent now
              (map_to_list (filter (fun kc => Server.deliverable agent now kc.2 = true)
                                   (Server.commands s)))) as [results Hres].
  - apply Forall_forall. intros [cid c] Hin.
    apply elem_of_map_to_list, map_lookup_filter_Some in Hin as [_ Hd].
    exact Hd.
  - rewrite Hres. eauto.
Qed.

(** A poll turns the commands it selects to SENT and leaves the others. *)
Lemma poll_commands_lookup (agent : string) (now : Z) (s : Server.db)
      (cid : string) :
  Server.commands (Server.poll_commands secret agent now s).1 !! cid
  = (fun c => if Server.deliverable agent now c
              then Command.set_status "SENT" c else c)
    <$> Server.commands s !! cid.
Proof.
  destruct (poll_commands_ok agent now s) as (results & -> & _). simpl.
  rewrite lookup_union, lookup_fmap.
  destruct (Server.commands s !! cid) as [c|] eqn:Hc; simpl.
  - destruct (Server.deliverable agent now c) eqn:Hd.
    + assert (filter (fun kc => Server.deliverable agent now kc.2 = true)
                     (Server.commands s) !! cid = Some c) as ->
        by (apply map_lookup_filter_Some; auto).
      reflexivity.
    + assert (filter (fun kc => Server.deliverable agent now kc.2 = true)
                     (Server.commands s) !! cid = None) as ->
        by (apply map_lookup_filter_None; right; intros x Hx; simpl; congruence).
      reflexivity.
  - assert (filter (fun kc => Server.deliverable agent now kc.2 = true)
                   (Server.commands s) !! cid = None) as ->
      by (apply map_lookup_filter_None; auto).
    reflexivity.
Qed.

Lemma ack_command_lookup (cid' : string) (data : gmap string string) (now : Z)
      (s : Server.db) (cid : string) :
  Server.commands (Server.ack_command cid' data now s).1 !! cid
  = if decide (cid' = cid)
    then (fun c => Command.set_executed_at (Some now)
                     (Command.set_status (default "EXECUTED" (data !! "status")) c))
         <$> Server.commands s !! cid
    else Server.commands s !! cid.
Proof.
  unfold Server.ack_command.
  destruct (decide (cid' = cid)) as [->|Hne].
  - destruct (Server.commands s !! cid) as [c|] eqn:Hc; simpl.
    + now rewrite lookup_insert_eq.
    + exact Hc.
  - destruct (Server.commands s !! cid') as [c|]; simpl; [| reflexivity].
    now rewrite lookup_insert_ne.
Qed.

Lemma issue_command_lookup (payload : CommandIn.t) (uuid : string)
      (now now' : Z) (s : Server.db) (cid : string) :
  Server.commands (Server.issue_command payload uuid now now' s).1 !! cid
  = if decide (uuid = cid)
    then match Server.commands s !! cid with
         | Some c => Some c
         | None =>
             Some (Command.mk (CommandIn.deviceId payload)
                     (CommandIn.action payload) "PENDING" "ADMIN_UI" now
                     (Some (now' + Datetime.timedelta_minutes 5)) None)
         end
    else Server.commands s !! cid.
Proof.
  unfold Server.issue_command.
  destruct (decide (uuid = cid)) as [->|Hne].
  - destruct (Server.commands s !! cid) as [c|] eqn:Hc; simpl.
    + exact Hc.
    + now rewrite lookup_insert_eq.
  - destruct (Server.commands s !! uuid) as [c|]; simpl; [reflexivity |].
    now rewrite lookup_insert_ne.
Qed.

Lemma register_agent_commands data host now s :
  Server.commands (Server.register_agent data host now s).1 = Server.commands s.
Proof.
  unfold Server.register_agent.
  destruct (data !! "agent_id") as [[|a did]|]; try reflexivity.
  now destruct (Server.devices s !! _).
Qed.

Lemma receive_telemetry_commands payload now uuid4 utcnow s :
  Server.commands (Server.receive_telemetry payload now uuid4 utcnow s).1
  = Server.commands s.
Proof.
  rewrite receive_telemetry_spec.
  destruct (Server.devices s !! _); [| reflexivity].
  now destruct (Server.flushes _ _ _).
Qed.

Lemma update_policy_commands id policy s :
  Server.commands (Server.update_policy id policy s).1 = Server.commands s.
Proof.
  unfold Server.update_policy. now destruct (Server.devices s !! _).
Qed.

End CommandTable.

(** The commands table after each endpoint. *)
Create Rewrite HintDb commands_table.
#[local] Hint Rewrite register_agent_commands receive_telemetry_commands
  update_policy_commands poll_commands_lookup ack_command_lookup
  issue_command_lookup : commands_table.

(** One case per endpoint, with the commands table it leaves. *)
Ltac request_cases r :=
  destruct r as [data host now | payload now uuid4 utcnow | agent now
                 | cid' data now | id policy | payload uuid now now'];
  simpl; autorewrite with commands_table.

Section Lifecycle.
Variable secret : string.

(** What one request does to the status of one command. *)
Lemma handle_status (s : Server.db) (r : Server.request) (cid : string)
      (c' : Command.t) :
  Server.commands (Server.handle secret s r) !! cid = Some c' ->
  (exists c, Server.commands s !! cid = Some c
             /\ Command.status c' = Command.status c)
  \/ (exists c agent now,
         r = Server.PollCommands agent now
         /\ Server.commands s !! cid = Some c
         /\ Command.status c = "PENDING" /\ Command.status c' = "SENT")
  \/ (exists c data now,
         r = Server.AckCommand cid data now
         /\ Server.commands s !! cid = Some c
         /\ Command.status c' = default "EXECUTED" (data !! "status"))
  \/ (exists payload now now',
         r = Server.IssueCommand payload cid now now'
         /\ Server.commands s !! cid = None
         /\ Command.status c' = "PENDING").
Proof.
  request_cases r.
  - eauto.
  - eauto.
  - destruct (Server.commands s !! cid) as [c|]; simpl; [| discriminate].
    intros [= <-].
    destruct (Server.deliverable agent now c) eqn:Hd; [| eauto].
    apply deliverable_spec in Hd as (_ & Hp & _).
    right. left. exists c, agent, now. auto.
  - destruct (decide (cid' = cid)) as [->|Hne]; [| eauto].
    destruct (Server.commands s !! cid) as [c|]; simpl; [| discriminate].
    intros [= <-]. right. right. left. exists c, data, now. auto.
  - eauto.
  - destruct (decide (uuid = cid)) as [->|Hne]; [| eauto].
    destruct (Server.commands s !! cid) as [c|] eqn:Hc; intros [= <-]; [eauto |].
    right. right. right. exists payload, now, now'. auto.
Qed.

(** The statuses stay among the four as long as the acks carry one of
    them. *)
Lemma handle_statuses_in_lifecycle (s : Server.db) (r : Server.request) :
  statuses_in_lifecycle s -> ack_in_lifecycle r ->
  statuses_in_lifecycle (Server.handle secret s r).
Proof.
  intros Hs Hr cid c' Hc'.
  destruct (handle_status s r cid c' Hc')
    as [(c & Hc & ->) | [(c & ? & ? & _ & _ & _ & ->)
       | [(c & data & now & -> & _ & ->) | (? & ? & ? & _ & _ & ->)]]].
  - exact (Hs cid c Hc).
  - right. now left.
  - exact Hr.
  - now left.
Qed.

(** A command that is not PENDING stays so, unless an ack stores PENDING
    on it. *)
Lemma handle_keeps_delivered (s : Server.db) (r : Server.request)
      (cid : string) :
  ~ rearms cid r ->
  (exists c, Server.commands s !! cid = Some c /\ Command.status c <> "PENDING") ->
  exists c, Server.commands (Server.handle secret s r) !! cid = Some c
            /\ Command.status c <> "PENDING".
Proof.
  intros Hr (c & Hc & Hst).
  request_cases r.
  - eauto.
  - eauto.
  - rewrite Hc. simpl.
    destruct (Server.deliverable agent now c) eqn:Hd; [| eauto].
    apply deliverable_spec in Hd as (_ & Hp & _). contradiction.
  - destruct (decide (cid' = cid)) as [->|Hne]; [| eauto].
    rewrite Hc. simpl. eexists. split; [reflexivity |]. simpl.
    destruct (data !! "status") as [st|] eqn:Hdata; simpl; [| discriminate].
    intros ->. apply Hr. exists data, now. auto.
  - eauto.
  - destruct (decide (uuid = cid)) as [->|Hne]; [| eauto].
    rewrite Hc. eauto.
Qed.

Lemma handle_all_keeps_delivered (rs : list Server.request) (cid : string) :
  Forall (fun r => ~ rearms cid r) rs ->
  forall s,
    (exists c, Server.commands s !! cid = Some c /\ Command.status c <> "PENDING") ->
    exists c, Server.commands (Server.handle_all secret s rs) !! cid = Some c
              /\ Command.status c <> "PENDING".
Proof.
  unfold Server.handle_all.
  induction 1 as [| r rs Hr _ IH]; intros s Hs; simpl; [exact Hs |].
  apply IH. now apply handle_keeps_delivered.
Qed.

(** What a poll returns was PENDING for the device, unexpired, and is
    SENT afterwards. *)
Lemma poll_commands_returned (agent : string) (now : Z) (s : Server.db)
      (results : list command_dict) (r : command_dict) :
  (Server.poll_commands secret agent now s).2 = OK results -> r ∈ results ->
  exists cid c e,
    r !! "id" = Some cid /\ Server.commands s !! cid = Some c
    /\ Command.device_id c = agent /\ Command.status c = "PENDING"
    /\ Command.expires_at c = Some e /\ now < e
    /\ Server.commands (Server.poll_commands secret agent now s).1 !! cid
       = Some (Command.set_status "SENT" c).
Proof.
  intros Hok Hin.
  destruct (poll_commands_ok secret agent now s) as (results' & Heq & Hres).
  rewrite Heq in Hok. injection Hok as ->.
  destruct (poll_results_entries secret _ _ _ Hres Hin) as (cid & c & Hmem & Hid).
  apply elem_of_map_to_list, map_lookup_filter_Some in Hmem as [Hc Hd].
  simpl in Hd. pose proof Hd as Hd'.
  apply deliverable_spec in Hd' as (Hdev & Hp & e & He & Hlt).
  exists cid, c, e. repeat (split; [assumption |]).
  rewrite poll_commands_lookup, Hc. simpl. now rewrite Hd.
Qed.

End Lifecycle.

(** ** The score bound is an invariant of the endpoints *)

Section RiskInvariant.
Variable secret : string.

Lemma handle_risk_bounded (s : Server.db) (r : Server.request) :
  risk_bounded s -> risk_bounded (Server.handle secret s r).
Proof.
  intros Hs.
  request_cases r.
  - unfold Server.register_agent.
    destruct (data !! "agent_id") as [[|a did]|]; try exact Hs.
    destruct (Server.devices s !! String a did) eqn:Hdev; [exact Hs |].
    intros id dev. simpl. rewrite lookup_insert.
    case_decide; [intros [= <-]; simpl; lia | apply Hs].
  - rewrite receive_telemetry_spec.
    destruct (Server.devices s !! TelemetryIn.agent_id payload) as [dev0|] eqn:Hdev;
      [| exact Hs].
    destruct (Server.flushes _ _ _); [| exact Hs].
    intros id dev. simpl. rewrite lookup_insert.
    case_decide; [| apply Hs].
    intros [= <-]. simpl. apply clamped_sum_le. eapply Hs, Hdev.
  - destruct (poll_commands_ok secret agent now s) as (results & -> & _). exact Hs.
  - unfold Server.ack_command. destruct (Server.commands s !! cid'); exact Hs.
  - unfold Server.update_policy.
    destruct (Server.devices s !! id) as [dev0|] eqn:Hdev; [| exact Hs].
    intros id' dev. simpl. rewrite lookup_insert.
    case_decide; [| apply Hs].
    intros [= <-]. simpl. eapply Hs, Hdev.
  - unfold Server.issue_command. destruct (Server.commands s !! uuid); exact Hs.
Qed.

(** Whatever requests the server handles, starting from scores of at most
    100 (from no device at all, in particular), no stored score exceeds
    100. *)
Lemma handle_all_risk_bounded (rs : list Server.request) :
  forall s, risk_bounded s -> risk_bounded (Server.handle_all secret s rs).
Proof.
  unfold Server.handle_all.
  induction rs as [|r rs IH]; intros s Hs; simpl; [exact Hs |].
  apply IH, handle_risk_bounded, Hs.
Qed.

Lemma reachable_risk_bounded (rs : list Server.request) :
  risk_bounded (Server.handle_all secret empty_db rs).
Proof. apply handle_all_risk_bounded. intros id dev H. inversion H. Qed.

End RiskInvariant.

(** C4, as the code has it. A command gets its status in three ways only:
    the issue endpoint creates it PENDING; the poll endpoint turns a PENDING
    command to SENT; the ack endpoint stores the status the request body
    carries (EXECUTED when it carries none) on the command with that id,
    whatever that string is and whatever the status of the command was.
    Every other request leaves the status as it is. *)
Theorem command_status_transitions (secret : string) (s : Server.db)
        (r : Server.request) (cid : string) (c' : Command.t) :
  Server.commands (Server.handle secret s r) !! cid = Some c' ->
  (exists c, Server.commands s !! cid = Some c
             /\ Command.status c' = Command.status c)
  \/ (exists c agent now,
         r = Server.PollCommands agent now
         /\ Server.commands s !! cid = Some c
         /\ Command.status c = "PENDING" /\ Command.status c' = "SENT")
  \/ (exists c data now,
         r = Server.AckCommand cid data now
         /\ Server.commands s !! cid = Some c
         /\ Command.status c' = default "EXECUTED" (data !! "status"))
  \/ (exists payload now now',
         r = Server.IssueCommand payload cid now now'
         /\ Server.commands s !! cid = None
         /\ Command.status c' = "PENDING").
Proof. apply handle_status. Qed.

Lemma command_status_transitions_witness :
  (exists c, Server.commands sample_issued !! "c1" = Some c
             /\ Command.status
                  (Command.mk "dev-1" "LOCK" "FAILED" "ADMIN_UI" sample_time
                     (Some (sample_time + 300000000)) (Some (sample_time + 2)))
                = Command.status c)
  \/ (exists c agent now,
         Server.AckCommand "c1" {["status" := "FAILED"]} (sample_time + 2)
         = Server.PollCommands agent now
         /\ Server.commands sample_issued !! "c1" = Some c
         /\ Command.status c = "PENDING"
         /\ Command.status
              (Command.mk "dev-1" "LOCK" "FAILED" "ADMIN_UI" sample_time
                 (Some (sample_time + 300000000)) (Some (sample_time + 2)))
            = "SENT")
  \/ (exists c data now,
         Server.AckCommand "c1" {["status" := "FAILED"]} (sample_time + 2)
         = Server.AckCommand "c1" data now
         /\ Server.commands sample_issued !! "c1" = Some c
         /\ Command.status
              (Command.mk "dev-1" "LOCK" "FAILED" "ADMIN_UI" sample_time
                 (Some (sample_time + 300000000)) (Some (sample_time + 2)))
            = default "EXECUTED" (data !! "status"))
  \/ (exists payload now now',
         Server.AckCommand "c1" {["status" := "FAILED"]} (sample_time + 2)
         = Server.IssueCommand payload "c1" now now'
         /\ Server.commands sample_issued !! "c1" = None
         /\ Command.status
              (Command.mk "dev-1" "LOCK" "FAILED" "ADMIN_UI" sample_time
                 (Some (sample_time + 300000000)) (Some (sample_time + 2)))
            = "PENDING").
Proof.
  apply (command_status_transitions default_secret sample_issued
           (Server.AckCommand "c1" {["status" := "FAILED"]} (sample_time + 2))).
  vm_compute. reflexivity.
Defined.

(** C4, refuted as stated: an ack whose body carries the status BOGUS, sent
    for a command that is still PENDING (it was never polled), stores
    BOGUS. *)
Lemma ack_stores_any_status_on_any_command :
  status_of "c1" sample_issued = Some "PENDING"
  /\ status_of "c1"
       (Server.ack_command "c1" {["status" := "BOGUS"]} (sample_time + 1)
          sample_issued).1 = Some "BOGUS"
  /\ ~ lifecycle_status "BOGUS".
Proof.
  split; [| split]; [vm_compute; reflexivity .. |].
  intros [H | [H | [H | H]]]; discriminate.
Qed.

(** C8, as the code has it. A poll always answers; what it returns are
    commands of the requested device that were PENDING with [expires_at]
    strictly after the time of the poll (so none that has expired), and each
    of them is SENT afterwards. A command that a poll returned is not
    returned by a later poll, for any device and at any time, as long as no
    ack request in between stores the status PENDING on it. *)
Theorem poll_delivers_once (secret : string) (s : Server.db) (agent : string)
        (now : Z) :
  exists results,
    (Server.poll_commands secret agent now s).2 = OK results
    /\ (forall r, r ∈ results ->
          exists cid c e,
            r !! "id" = Some cid /\ Server.commands s !! cid = Some c
            /\ Command.device_id c = agent /\ Command.status c = "PENDING"
            /\ Command.expires_at c = Some e /\ now < e
            /\ Server.commands (Server.poll_commands secret agent now s).1 !! cid
               = Some (Command.set_status "SENT" c))
    /\ (forall cid rs agent' now',
          Some cid ∈ returned_ids (Server.poll_commands secret agent now s).2 ->
          Forall (fun q => ~ rearms cid q) rs ->
          Some cid ∉ returned_ids
            (Server.poll_commands secret agent' now'
               (Server.handle_all secret
                  (Server.poll_commands secret agent now s).1 rs)).2).
Proof.
  destruct (poll_commands_ok secret agent now s) as (results & Heq & _).
  assert (Hok : (Server.poll_commands secret agent now s).2 = OK results)
    by now rewrite Heq.
  exists results. split; [exact Hok |]. split.
  - intros r Hin. now apply (poll_commands_returned secret agent now s results).
  - intros cid rs agent' now' Hret Hrs Hagain.
    rewrite Hok in Hret. simpl in Hret.
    apply list_elem_of_fmap in Hret as (r & Hid & Hin). symmetry in Hid.
    destruct (poll_commands_returned secret agent now s results r Hok Hin)
      as (cid0 & c & e & Hid0 & _ & _ & _ & _ & _ & Hsent).
    rewrite Hid in Hid0. injection Hid0 as <-.
    destruct (handle_all_keeps_delivered secret rs cid Hrs
                (Server.poll_commands secret agent now s).1)
      as (c1 & Hc1 & Hst1).
    { eexists. split; [exact Hsent | discriminate]. }
    set (s2 := Server.handle_all secret _ rs) in *.
    destruct (poll_commands_ok secret agent' now' s2) as (results2 & Heq2 & _).
    assert (Hok2 : (Server.poll_commands secret agent' now' s2).2 = OK results2)
      by now rewrite Heq2.
    rewrite Hok2 in Hagain. simpl in Hagain.
    apply list_elem_of_fmap in Hagain as (r2 & Hid2 & Hin2).
    destruct (poll_commands_returned secret agent' now' s2 results2 r2 Hok2 Hin2)
      as (cid2 & c2 & e2 & Hid2' & Hc2 & _ & Hp2 & _).
    rewrite <- Hid2 in Hid2'. injection Hid2' as <-.
    rewrite Hc1 in Hc2. injection Hc2 as <-. contradiction.
Qed.

Lemma poll_delivers_once_witness :
  Some "c1" ∉ returned_ids
    (Server.poll_commands default_secret "dev-1" (sample_time + 4)
       (Server.handle_all default_secret
          (Server.poll_commands default_secret "dev-1" (sample_time + 1)
             sample_issued).1
          [Server.AckCommand "c1" {["status" := "EXECUTED"]} (sample_time + 2);
           Server.PollCommands "dev-1" (sample_time + 3)])).2.
Proof.
  destruct (poll_delivers_once default_secret sample_issued "dev-1"
              (sample_time + 1)) as (results & Hok & _ & Honce).
  apply Honce.
  - vm_compute. left.
  - constructor; [| constructor; [| constructor]].
    + intros (data & now & Heq & Hst). injection Heq as <- _.
      rewrite lookup_singleton_eq in Hst. discriminate.
    + intros (data & now & Heq & _). discriminate.
Defined.

(** C8, refuted as stated: c1 is returned by a poll of dev-1, an ack then
    stores the status PENDING on it, and the next poll of dev-1 returns it
    again. *)
Lemma ack_pending_redelivers :
  returned_ids
    (Server.poll_commands default_secret "dev-1" (sample_time + 1)
       sample_issued).2 = [Some "c1"]
  /\ returned_ids
       (Server.poll_commands default_secret "dev-1" (sample_time + 3)
          (Server.handle default_secret
             (Server.poll_commands default_secret "dev-1" (sample_time + 1)
                sample_issued).1
             (Server.AckCommand "c1" {["status" := "PENDING"]} (sample_time + 2)))).2
     = [Some "c1"].
Proof. split; vm_compute; reflexivity. Qed.

(** * Properties of the command signature *)

Lemma truthy_spec (x : option string) :
  truthy x = true <-> exists s, x = Some s /\ s <> "".
Proof.
  destruct x as [[|c s]|]; simpl.
  - split; [discriminate | intros (s & [= <-] & H); contradiction].
  - split; [| reflexivity].
    intros _. eexists. split; [reflexivity | discriminate].
  - split; [discriminate | intros (s & [=] & _)].
Qed.

Lemma command_entry_lookup (cid action expires_at signature : string) :
  command_entry cid action expires_at signature !! "id" = Some cid
  /\ command_entry cid action expires_at signature !! "action" = Some action
  /\ command_entry cid action expires_at signature !! "expiresAt" = Some expires_at
  /\ command_entry cid action expires_at signature !! "signature" = Some signature.
Proof.
  unfold command_entry. split; [| split; [| split]]; reflexivity.
Qed.

(** ** The digest is never empty *)

Lemma length_be_bytes (n : nat) (x : Z) : length (Sha256.be_bytes n x) = n.
Proof. induction n as [|n IH]; simpl; [reflexivity | now rewrite IH]. Qed.

Lemma length_compress (h block : list Z) :
  length h = 8%nat -> length (Sha256.compress h block) = 8%nat.
Proof.
  intros H. unfold Sha256.compress.
  rewrite length_map, length_combine, H. reflexivity.
Qed.

Lemma length_sha256 (msg : list Z) : length (Sha256.digest msg) = 32%nat.
Proof.
  unfold Sha256.digest.
  assert (H : forall blocks h, length h = 8%nat ->
                length (fold_left Sha256.compress blocks h) = 8%nat).
  { induction blocks as [|b bs IH]; intros h Hh; simpl; [exact Hh |].
    apply IH, length_compress, Hh. }
  specialize (H (Sha256.chunks (length (Sha256.pad msg)) 64 (Sha256.pad msg))
                Sha256.H0 eq_refl).
  destruct (fold_left Sha256.compress _ Sha256.H0)
    as [|a [|b [|c [|d [|e [|f [|g [|h [|]]]]]]]]]; try discriminate.
  reflexivity.
Qed.

Lemma length_hex (bs : list Z) :
  String.length (Hmac.hex bs) = (2 * length bs)%nat.
Proof. induction bs as [|b bs IH]; simpl; [reflexivity | rewrite IH; lia]. Qed.

(** A hex digest has 64 characters. *)
Lemma length_hexdigest (key msg : list Z) :
  String.length (Hmac.hexdigest key msg) = 64%nat.
Proof.
  unfold Hmac.hexdigest, Hmac.digest. now rewrite length_hex, length_sha256.
Qed.

Lemma hexdigest_nonempty (key msg : list Z) : Hmac.hexdigest key msg <> "".
Proof.
  intros H. pose proof (length_hexdigest key msg) as Hl.
  rewrite H in Hl. discriminate.
Qed.

Lemma isoformat_nonempty (t : Z) : Datetime.isoformat t <> "".
Proof.
  unfold Datetime.isoformat.
  destruct (Datetime.civil _) as [[y m] d].
  intros H. apply (f_equal String.length) in H.
  rewrite !length_append in H. simpl in H. lia.
Qed.

(** ** The signed string *)

(** Altering one field changes the signed string. *)
Lemma signed_message_one_field (device cid action expires_at cid' action'
                                expires_at' : string) :
  one_field_altered cid action expires_at cid' action' expires_at' ->
  Agent.signed_message cid' device action' expires_at'
  <> Agent.signed_message cid device action expires_at.
Proof.
  unfold Agent.signed_message.
  intros [(Hne & -> & ->) | [(-> & Hne & ->) | (-> & -> & Hne)]] H; apply Hne.
  - now apply append_inj_r in H.
  - do 4 apply append_inj_l in H. now apply append_inj_r in H.
  - now do 6 apply append_inj_l in H.
Qed.

Lemma byte_of_ascii_inj (a b : ascii) : byte_of_ascii a = byte_of_ascii b -> a = b.
Proof.
  unfold byte_of_ascii. intros H. apply N2Z.inj in H.
  rewrite <- (ascii_N_embedding a), <- (ascii_N_embedding b). now rewrite H.
Qed.

Lemma encode_inj (s t : string) : encode s = encode t -> s = t.
Proof.
  unfold encode. revert t.
  induction s as [|c s IH]; intros [|c' t]; simpl; try discriminate; [reflexivity |].
  intros [= Hc H]. f_equal; [now apply byte_of_ascii_inj | now apply IH].
Qed.

(** ** The verifier *)

Lemma verify_command_iff (self : Agent.IVECGuardAgent) (cmd : command_dict) :
  Agent._verify_command self cmd = true
  <-> exists cid action expires_at sig,
      cmd !! "id" = Some cid /\ cmd !! "action" = Some action
      /\ cmd !! "expiresAt" = Some expires_at /\ cmd !! "signature" = Some sig
      /\ cid <> "" /\ action <> "" /\ expires_at <> "" /\ sig <> ""
      /\ sig = Hmac.hexdigest
                 (encode (Agent.command_secret self))
                 (encode (Agent.signed_message cid (Agent.agent_id self)
                                               action expires_at)).
Proof.
  unfold Agent._verify_command, compare_digest. split.
  - destruct (truthy (cmd !! "id")) eqn:H1; [| discriminate].
    destruct (truthy (cmd !! "action")) eqn:H2; [| discriminate].
    destruct (truthy (cmd !! "expiresAt")) eqn:H3; [| discriminate].
    destruct (truthy (cmd !! "signature")) eqn:H4; [| discriminate].
    apply truthy_spec in H1 as (cid & E1 & N1).
    apply truthy_spec in H2 as (action & E2 & N2).
    apply truthy_spec in H3 as (exp & E3 & N3).
    apply truthy_spec in H4 as (sig & E4 & N4).
    rewrite E1, E2, E3, E4. simpl. intros H. apply String.eqb_eq in H.
    exists cid, action, exp, sig. auto 10.
  - intros (cid & action & exp & sig & E1 & E2 & E3 & E4 & N1 & N2 & N3 & N4 & Hs).
    rewrite E1, E2, E3, E4.
    assert (truthy (Some cid) = true) as -> by (apply truthy_spec; eauto).
    assert (truthy (Some action) = true) as -> by (apply truthy_spec; eauto).
    assert (truthy (Some exp) = true) as -> by (apply truthy_spec; eauto).
    assert (truthy (Some sig) = true) as -> by (apply truthy_spec; eauto).
    simpl. apply String.eqb_eq. now symmetry.
Qed.

(** What the poll endpoint signs for a device is accepted by the agent of
    that device that holds the same secret. *)
Lemma poll_result_verifies (self : Agent.IVECGuardAgent) (cid : string)
      (c : Command.t) (e : Z) :
  cid <> "" -> Command.action c <> "" ->
  Command.device_id c = Agent.agent_id self ->
  Command.expires_at c = Some e ->
  exists r,
    Server.poll_result (Agent.command_secret self) (cid, c) = Returns r
    /\ Agent._verify_command self r = true.
Proof.
  intros Hcid Hact Hdev He. unfold Server.poll_result. rewrite He.
  eexists. split; [reflexivity |].
  apply verify_command_iff.
  destruct (command_entry_lookup cid (Command.action c) (Datetime.isoformat e)
              (Server._sign_command (Agent.command_secret self) cid
                 (Command.device_id c) (Command.action c) e))
    as (L1 & L2 & L3 & L4).
  do 4 eexists. repeat (split; [eassumption |]).
  split; [apply isoformat_nonempty |].
  split; [apply hexdigest_nonempty |].
  unfold Server._sign_command, Agent.signed_message. now rewrite Hdev.
Qed.

(** A command that carries the signature of other fields is accepted only
    when the two signed strings have the same HMAC. *)
Lemma verify_command_tampered (self : Agent.IVECGuardAgent)
      (cid action expires_at cid' action' expires_at' : string) :
  Agent._verify_command self
    (command_entry cid' action' expires_at'
       (Hmac.hexdigest (encode (Agent.command_secret self))
          (encode (Agent.signed_message cid (Agent.agent_id self)
                                        action expires_at)))) = true ->
  Hmac.hexdigest (encode (Agent.command_secret self))
    (encode (Agent.signed_message cid' (Agent.agent_id self) action' expires_at'))
  = Hmac.hexdigest (encode (Agent.command_secret self))
      (encode (Agent.signed_message cid (Agent.agent_id self) action expires_at)).
Proof.
  intros H. apply verify_command_iff in H
    as (c & a & x & sig & E1 & E2 & E3 & E4 & _ & _ & _ & _ & Hs).
  destruct (command_entry_lookup cid' action' expires_at'
              (Hmac.hexdigest (encode (Agent.command_secret self))
                 (encode (Agent.signed_message cid (Agent.agent_id self)
                                               action expires_at))))
    as (L1 & L2 & L3 & L4).
  rewrite L1 in E1. rewrite L2 in E2. rewrite L3 in E3. rewrite L4 in E4.
  injection E1 as <-. injection E2 as <-. injection E3 as <-. injection E4 as <-.
  now symmetry.
Qed.

(** C5, as the code has it. The verifier accepts a received command exactly
    when id, action, expiresAt and signature are all present and not empty
    and the signature is the hex HMAC-SHA256, under the agent's secret, of
    id|agent id|action|expiresAt. So what the server's poll signs for this
    device with the same secret is accepted. A command in which exactly one
    of id, action and expiresAt was altered after signing has a different
    signed string, and is accepted only if the HMAC of the two strings is
    the same; tampering LOCK into WIPE in the sample command is rejected. *)
Theorem verify_command_spec :
  (forall self cmd,
      Agent._verify_command self cmd = true
      <-> exists cid action expires_at sig,
          cmd !! "id" = Some cid /\ cmd !! "action" = Some action
          /\ cmd !! "expiresAt" = Some expires_at /\ cmd !! "signature" = Some sig
          /\ cid <> "" /\ action <> "" /\ expires_at <> "" /\ sig <> ""
          /\ sig = Hmac.hexdigest
                     (encode (Agent.command_secret self))
                     (encode (Agent.signed_message cid (Agent.agent_id self)
                                                   action expires_at)))
  /\ (forall self cid c e,
         cid <> "" -> Command.action c <> "" ->
         Command.device_id c = Agent.agent_id self ->
         Command.expires_at c = Some e ->
         exists r,
           Server.poll_result (Agent.command_secret self) (cid, c) = Returns r
           /\ Agent._verify_command self r = true)
  /\ (forall self cid action expires_at cid' action' expires_at',
         one_field_altered cid action expires_at cid' action' expires_at' ->
         Agent._verify_command self
           (command_entry cid' action' expires_at'
              (Hmac.hexdigest (encode (Agent.command_secret self))
                 (encode (Agent.signed_message cid (Agent.agent_id self)
                                               action expires_at)))) = true ->
         encode (Agent.signed_message cid' (Agent.agent_id self) action' expires_at')
         <> encode (Agent.signed_message cid (Agent.agent_id self) action expires_at)
         /\ Hmac.hexdigest (encode (Agent.command_secret self))
              (encode (Agent.signed_message cid' (Agent.agent_id self)
                                            action' expires_at'))
            = Hmac.hexdigest (encode (Agent.command_secret self))
                (encode (Agent.signed_message cid (Agent.agent_id self)
                                              action expires_at)))
  /\ Agent._verify_command sample_agent (<["action" := "WIPE"]> signed_lock) = false.
Proof.
  split; [exact verify_command_iff |].
  split; [exact poll_result_verifies |].
  split; [| vm_compute; reflexivity].
  intros self cid action exp cid' action' exp' Halt Hv. split.
  - intros H. apply encode_inj in H.
    exact (signed_message_one_field (Agent.agent_id self) _ _ _ _ _ _ Halt H).
  - now apply verify_command_tampered.
Qed.

Lemma verify_command_spec_witness :
  Agent._verify_command sample_agent signed_lock = true.
Proof.
  apply (proj1 verify_command_spec sample_agent signed_lock).
  exists "c1", "LOCK", "2026-11-03T21:27:00",
    "ddd68a4443c98a722c04a4d31b7451e206b14ce4e73cce2ef8eac9d4b552e1a4".
  do 4 (split; [reflexivity |]).
  do 4 (split; [discriminate |]).
  vm_compute. reflexivity.
Defined.

(** C5, refuted as stated. The server signs the command c1 of dev-1 with
    the action LOCK|2026; the same signature is accepted on a command whose
    action reads LOCK, the rest of the signed action being moved to the
    front of expiresAt. And a command with an empty id is rejected although
    its four fields are present and its signature is the HMAC of the string
    they make. *)
Lemma verify_accepts_moved_delimiter :
  Agent._verify_command sample_agent
    (command_entry "c1" "LOCK" ("2026|" +:+ Datetime.isoformat sample_time)
       (Server._sign_command default_secret "c1" "dev-1" "LOCK|2026" sample_time))
  = true
  /\ "LOCK" <> "LOCK|2026"
  /\ Agent._verify_command sample_agent
       (command_entry "" "LOCK" (Datetime.isoformat sample_time)
          (Hmac.hexdigest (encode default_secret)
             (encode (Agent.signed_message "" "dev-1" "LOCK"
                        (Datetime.isoformat sample_time)))))
     = false.
Proof. split; [| split]; [vm_compute; reflexivity | discriminate |].
  vm_compute. reflexivity.
Qed.

(** * The library models on known values *)

Example sha256_initial_hash :
  Sha256.H0 = [0x6a09e667; 0xbb67ae85; 0x3c6ef372; 0xa54ff53a;
               0x510e527f; 0x9b05688c; 0x1f83d9ab; 0x5be0cd19].
Proof. reflexivity. Qed.

Example sha256_round_constants :
  length Sha256.K = 64%nat /\ nth 0 Sha256.K 0 = 0x428a2f98
  /\ nth 63 Sha256.K 0 = 0xc67178f2.
Proof. repeat split. Qed.

Example sha256_abc :
  Hmac.hex (Sha256.digest (encode "abc"))
  = "ba7816bf8f01cfea414140de5dae2223b00361a396177a9cb410ff61f20015ad".
Proof. vm_compute. reflexivity. Qed.

Example sha256_empty :
  Hmac.hex (Sha256.digest [])
  = "e3b0c44298fc1c149afbf4c8996fb92427ae41e4649b934ca495991b7852b855".
Proof. vm_compute. reflexivity. Qed.

Example sha256_two_blocks :
  Hmac.hex (Sha256.digest (repeat 97 100))
  = "2816597888e4a0d3a36b82b83316ab32680eb8f00f8cd3b904d681246d285a0e".
Proof. vm_compute. reflexivity. Qed.

Example hmac_sha256_default_secret :
  Hmac.hexdigest (encode default_secret)
                 (encode "c1|dev-1|LOCK|2026-11-03T21:27:00")
  = "ddd68a4443c98a722c04a4d31b7451e206b14ce4e73cce2ef8eac9d4b552e1a4".
Proof. vm_compute. reflexivity. Qed.

Example hmac_sha256_long_key :
  Hmac.hexdigest (repeat 107 70) (encode "hello")
  = "73473f937d4c181ed6aa87ce97d6db7dc732e19dd43e60c8ab7ee3aed2d9f4b0".
Proof. vm_compute. reflexivity. Qed.

Example isoformat_seconds :
  Datetime.isoformat sample_time = "2026-11-03T21:27:00".
Proof. vm_compute. reflexivity. Qed.

Example isoformat_microseconds :
  Datetime.isoformat (sample_time + 123) = "2026-11-03T21:27:00.000123".
Proof. vm_compute. reflexivity. Qed.

Example isoformat_leap_day :
  Datetime.isoformat 951782400000000 = "2000-02-29T00:00:00".
Proof. vm_compute. reflexivity. Qed.

Example log_event_queues_the_dict :
  Agent.event_queue
    (Agent.log_event "PRINT" "Document: B" 15 (JObj [("pages", JInt 3)])
       sample_agent) = [event_B].
Proof. reflexivity. Qed.

Example dumps_event_B :
  PyJson.dumps event_B
  = "{" +:+ PyJson.quote "type" +:+ ": " +:+ PyJson.quote "PRINT" +:+ ", "
    +:+ PyJson.quote "description" +:+ ": " +:+ PyJson.quote "Document: B"
    +:+ ", " +:+ PyJson.quote "weight" +:+ ": 15, "
    +:+ PyJson.quote "metadata" +:+ ": {" +:+ PyJson.quote "pages" +:+ ": 3}}".
Proof. vm_compute. reflexivity. Qed.

Example sample_events_read_back :
  Forall (reads_back (py := python_lib)) [event_A; event_B; event_C; event_D].
Proof. repeat constructor; vm_compute; reflexivity. Qed.

Example loads_rejects_truncated_object :
  PyJson.loads "{oops" = None /\ PyJson.loads "[1, 2" = None
  /\ PyJson.loads "[1, 2] x" = None.
Proof. vm_compute. repeat split; reflexivity. Qed.

Example strip_whitespace :
  PyJson.strip ("  a b " +:+ newline) = "a b" /\ PyJson.strip (" " +:+ newline) = "".
Proof. vm_compute. split; reflexivity. Qed.

(** The issue, poll and verify round trip on the sample database: the
    command issued for dev-1 is delivered once, signed, and the agent
    accepts it. *)
Example issued_command_is_accepted :
  match (Server.poll_commands default_secret "dev-1" (sample_time + 1)
           sample_issued).2 with
  | OK [c] => Agent._verify_command sample_agent c = true
  | _ => False
  end.
Proof. vm_compute. reflexivity. Qed.

(** * Further properties of the offline buffer *)

Section BufferMore.
Context {py : PyLib}.

Lemma jsonl_take (n : nat) (events : list json) :
  take n (jsonl events) = jsonl (take n events).
Proof. unfold jsonl. now rewrite fmap_take. Qed.

Lemma jsonl_drop (n : nat) (events : list json) :
  drop n (jsonl events) = jsonl (drop n events).
Proof. unfold jsonl. now rewrite fmap_drop. Qed.

Lemma jsonl_app (es1 es2 : list json) :
  jsonl (es1 ++ es2) = jsonl es1 ++ jsonl es2.
Proof. unfold jsonl. apply map_app. Qed.

(** A read with any cap of a buffer that holds the lines of [events]. *)
Lemma load_offline_jsonl_cap (max_lines : Z) (events : list json) :
  Forall reads_back events ->
  Agent._load_offline max_lines (Some (writelines (jsonl events)))
  = take (Z.to_nat max_lines) events.
Proof.
  intros H. rewrite load_offline_spec. unfold head_lines.
  rewrite readlines_jsonl_only by exact H.
  rewrite jsonl_take, mapM_decode_jsonl; [reflexivity |].
  now apply Forall_take.
Qed.

(** The lines left by a truncation, whatever the file. *)
Lemma truncate_offline_lines (k : nat) (f : file) :
  readlines (content (Agent._truncate_offline (Z.of_nat k) f))
  = drop k (readlines (content f)).
Proof.
  destruct k as [|k]; [reflexivity |].
  unfold Agent._truncate_offline.
  replace (Z.of_nat (S k) <=? 0) with false by (symmetry; apply Z.leb_gt; lia).
  destruct f as [text|]; cbn [orb negb exists_ content default id].
  - rewrite Nat2Z.id. apply readlines_truncate.
  - reflexivity.
Qed.

(** A truncation of a buffer that holds the lines of [events]. *)
Lemma truncate_offline_jsonl (k : nat) (events : list json) :
  Forall reads_back events ->
  content (Agent._truncate_offline (Z.of_nat k) (Some (writelines (jsonl events))))
  = writelines (jsonl (drop k events)).
Proof.
  intros H.
  rewrite <- (writelines_readlines (content _)), truncate_offline_lines.
  cbn [content default id].
  now rewrite readlines_jsonl_only, jsonl_drop by exact H.
Qed.

End BufferMore.

(** X1. Events persisted to a buffer file that is missing or empty are read
    back as they were, in order, by a read whose cap is at least their
    number (for events whose written line reads back). *)
Theorem persist_then_load_round_trip {py : PyLib} (events : list json)
        (f : file) (max_lines : Z) :
  content f = "" ->
  Forall reads_back events ->
  Z.of_nat (length events) <= max_lines ->
  Agent._load_offline max_lines (Agent._persist_offline events f) = events.
Proof.
  intros Hf H Hlen.
  rewrite (persist_offline_fresh events f Hf), load_offline_jsonl_cap by exact H.
  apply take_ge. lia.
Qed.

Lemma persist_then_load_round_trip_witness :
  Agent._load_offline (py := python_lib) 3
    (Agent._persist_offline (py := python_lib) [event_A; event_B; event_C] None)
  = [event_A; event_B; event_C].
Proof.
  apply (persist_then_load_round_trip (py := python_lib)
           [event_A; event_B; event_C] None 3).
  - reflexivity.
  - repeat constructor; vm_compute; reflexivity.
  - simpl. lia.
Defined.

(** X2. A buffer longer than the cap drains in pieces: a read with cap [n]
    returns the first [n] events; truncating by the number read leaves the
    lines of the remaining events, which the next read returns from their
    start; what was read and what is left make up the buffer. *)
Theorem load_truncate_drains_in_order {py : PyLib} (events : list json) (n : nat) :
  Forall reads_back events ->
  Agent._load_offline (Z.of_nat n) (Some (writelines (jsonl events)))
  = take n events
  /\ content (Agent._truncate_offline
                (Z.of_nat (length (take n events)))
                (Some (writelines (jsonl events))))
     = writelines (jsonl (drop n events))
  /\ Agent._load_offline (Z.of_nat n)
       (Agent._truncate_offline
          (Z.of_nat (length (take n events)))
          (Some (writelines (jsonl events))))
     = take n (drop n events)
  /\ take n events ++ drop n events = events.
Proof.
  intros H.
  assert (Hread : Agent._load_offline (Z.of_nat n)
                    (Some (writelines (jsonl events))) = take n events)
    by (rewrite load_offline_jsonl_cap, Nat2Z.id by exact H; reflexivity).
  assert (Hleft : content (Agent._truncate_offline
                             (Z.of_nat (length (take n events)))
                             (Some (writelines (jsonl events))))
                  = writelines (jsonl (drop n events))).
  { rewrite truncate_offline_jsonl by exact H. rewrite length_take.
    destruct (Nat.le_ge_cases n (length events)) as [Hle | Hge].
    - now rewrite Nat.min_l.
    - rewrite Nat.min_r by exact Hge. now rewrite drop_all, drop_ge. }
  split; [exact Hread |]. split; [exact Hleft |]. split; [| apply take_drop].
  destruct (Agent._truncate_offline _ _) as [text|] eqn:Ht.
  - cbn [content default id] in Hleft. rewrite Hleft.
    rewrite load_offline_jsonl_cap, Nat2Z.id; [reflexivity |].
    now apply Forall_drop.
  - cbn [content default id] in Hleft.
    assert (Hnil : drop n events = []).
    { destruct (drop n events) as [|e es]; [reflexivity |].
      simpl in Hleft. symmetry in Hleft.
      apply (f_equal String.length) in Hleft.
      rewrite !length_append in Hleft. simpl in Hleft. lia. }
    now rewrite Hnil, take_nil.
Qed.

Lemma load_truncate_drains_in_order_witness :
  Agent._load_offline (py := python_lib) (Z.of_nat 2)
    (Some (writelines (jsonl (py := python_lib) [event_A; event_B; event_C])))
  = take 2 [event_A; event_B; event_C]
  /\ content (Agent._truncate_offline
                (Z.of_nat (length (take 2 [event_A; event_B; event_C])))
                (Some (writelines (jsonl (py := python_lib)
                                     [event_A; event_B; event_C]))))
     = writelines (jsonl (py := python_lib) (drop 2 [event_A; event_B; event_C]))
  /\ Agent._load_offline (py := python_lib) (Z.of_nat 2)
       (Agent._truncate_offline
          (Z.of_nat (length (take 2 [event_A; event_B; event_C])))
          (Some (writelines (jsonl (py := python_lib)
                               [event_A; event_B; event_C]))))
     = take 2 (drop 2 [event_A; event_B; event_C])
  /\ take 2 [event_A; event_B; event_C] ++ drop 2 [event_A; event_B; event_C]
     = [event_A; event_B; event_C].
Proof.
  apply (load_truncate_drains_in_order (py := python_lib)
           [event_A; event_B; event_C] 2).
  repeat constructor; vm_compute; reflexivity.
Defined.

(** X3. Truncations add up, on the file itself: removing the first [k]
    lines and then the first [j] lines leaves the file that removing the
    first [k + j] lines leaves. A file that does not exist is left as it
    is, whatever the count (no file is created), and a file that exists
    still exists afterwards. *)
Theorem truncate_offline_twice (f : file) (k j : nat) :
  Agent._truncate_offline (Z.of_nat j) (Agent._truncate_offline (Z.of_nat k) f)
  = Agent._truncate_offline (Z.of_nat (k + j)) f
  /\ Agent._truncate_offline (Z.of_nat k) None = None
  /\ exists_ (Agent._truncate_offline (Z.of_nat k) f) = exists_ f.
Proof.
  split; [| split].
  - destruct f as [text|]; [| now destruct k, j].
    destruct j as [|j].
    + now rewrite Nat.add_0_r.
    + destruct k as [|k]; [reflexivity |].
      pose proof (truncate_offline_lines (S k) (Some text)) as Hk.
      unfold Agent._truncate_offline in *.
      replace (Z.of_nat (S k) <=? 0) with false in * by (symmetry; apply Z.leb_gt; lia).
      replace (Z.of_nat (S j) <=? 0) with false by (symmetry; apply Z.leb_gt; lia).
      replace (Z.of_nat (S k + S j) <=? 0) with false by (symmetry; apply Z.leb_gt; lia).
      cbn [orb negb exists_] in *. rewrite Hk, drop_drop, !Nat2Z.id.
      reflexivity.
  - now destruct k.
  - unfold Agent._truncate_offline.
    destruct (Z.of_nat k <=? 0), f; reflexivity.
Qed.

(** * Further properties of the sync loop *)

Section SyncMore.
Context {py : PyLib}.

Lemma enqueue_all_queue (new : list json) :
  forall self,
    Agent.event_queue (fold_left (fun s e => Agent.enqueue e s) new self)
    = Agent.event_queue self ++ new.
Proof.
  induction new as [|e new IH]; intros self; simpl.
  - now rewrite app_nil_r.
  - rewrite IH. simpl. now rewrite <- app_assoc.
Qed.

(** The events of the uploads of an iteration, read from its requests:
    those of the body of its one POST to the telemetry URL. *)
Lemma sync_cycle_events_in_uploads (self : Agent.IVECGuardAgent) (f : file)
      (w : world) :
  concat (map (events_in_upload self) (Agent.sync_cycle self f w).2)
  = Agent._load_offline 200 f ++ Agent.event_queue self.
Proof.
  destruct (sync_cycle_upload self f w) as (tr & -> & Hc).
  cbn [map concat events_in_upload]. rewrite String.eqb_refl.
  cbn [PyDict.lookup PyDict.member]. cbn.
  assert (Hnil : concat (map (events_in_upload self) tr) = []).
  { induction Hc as [|e tr He _ IH]; [reflexivity |].
    cbn [map concat]. rewrite IH, app_nil_r.
    destruct e as [url body | url | cmdline]; try reflexivity.
    cbn [events_in_upload].
    destruct (String.eqb url _) eqn:Hurl; [| reflexivity].
    apply String.eqb_eq in Hurl. subst url.
    now apply command_effect_not_upload with (body := body) in He. }
  now rewrite Hnil, app_nil_r.
Qed.

Lemma sync_cycle_delivered (self : Agent.IVECGuardAgent) (f : file) (w : world) :
  delivered self w (Agent.sync_cycle self f w).2
  = match telemetry_reply w with
    | Raises => []
    | Returns _ => Agent._load_offline 200 f ++ Agent.event_queue self
    end.
Proof.
  unfold delivered. destruct (telemetry_reply w); [| reflexivity].
  apply sync_cycle_events_in_uploads.
Qed.

(** An iteration changes neither the address of the server, nor the id
    of the agent, nor its work statistics. *)
Lemma sync_cycle_identity (self : Agent.IVECGuardAgent) (f : file) (w : world) :
  Agent.server_url (Agent.sync_cycle self f w).1.1 = Agent.server_url self
  /\ Agent.agent_id (Agent.sync_cycle self f w).1.1 = Agent.agent_id self
  /\ Agent.work_stats (Agent.sync_cycle self f w).1.1 = Agent.work_stats self.
Proof.
  unfold Agent.sync_cycle, Agent.on_exception.
  destruct (telemetry_reply w) as [[p|]|]; cbn.
  - destruct (commands_reply w) as [cmds|]; cbn; [| auto].
    destruct (Agent.run_commands _ w 0 cmds) as [tr [[]|]]; cbn; auto.
  - auto.
  - destruct (Agent.event_queue self); cbn; auto.
Qed.

(** What one iteration does to a buffer that holds the lines of [B]. *)
Lemma sync_cycle_buffer (self : Agent.IVECGuardAgent) (B : list json) (w : world) :
  Forall reads_back B ->
  Agent.event_queue (Agent.sync_cycle self (Some (writelines (jsonl B))) w).1.1 = []
  /\ content (Agent.sync_cycle self (Some (writelines (jsonl B))) w).1.2
     = match telemetry_reply w with
       | Raises => writelines (jsonl (B ++ Agent.event_queue self))
       | Returns _ => writelines (jsonl (drop 200 B))
       end
  /\ delivered self w
       (Agent.sync_cycle self (Some (writelines (jsonl B))) w).2
     = match telemetry_reply w with
       | Raises => []
       | Returns _ => take 200 B ++ Agent.event_queue self
       end.
Proof.
  intros HB.
  pose proof (load_offline_jsonl_cap 200 B HB) as Hload.
  change (Z.to_nat 200) with 200%nat in Hload.
  rewrite sync_cycle_delivered.
  destruct (telemetry_reply w) as [r|] eqn:Hw.
  - destruct (sync_cycle_uploaded self (Some (writelines (jsonl B))) w r Hw)
      as [Hq Hf].
    split; [exact Hq |]. split; [| now rewrite Hload].
    rewrite Hf, Hload.
    destruct (take 200 B) as [|e es] eqn:Ht.
    + cbn [content default id].
      apply take_nil_inv in Ht as [Hz | ->]; [discriminate | reflexivity].
    + rewrite <- Ht, truncate_offline_jsonl, length_take by exact HB.
      destruct (Nat.le_ge_cases 200 (length B)) as [Hle | Hge].
      * now rewrite Nat.min_l.
      * rewrite Nat.min_r by exact Hge. now rewrite drop_all, drop_ge.
  - rewrite (sync_cycle_unreachable self (Some (writelines (jsonl B))) w Hw).
    destruct (on_exception_spec self (Some (writelines (jsonl B)))) as [Hq Hf].
    split; [exact Hq |]. split; [| reflexivity].
    rewrite Hf. cbn [content default id].
    now rewrite jsonl_app, writelines_app.
Qed.

(** The buffer file is still there after an iteration. *)
Lemma sync_cycle_keeps_file (self : Agent.IVECGuardAgent) (text : string)
      (w : world) :
  exists text', (Agent.sync_cycle self (Some text) w).1.2 = Some text'.
Proof.
  destruct (telemetry_reply w) as [r|] eqn:Hw.
  - destruct (sync_cycle_uploaded self (Some text) w r Hw) as [_ ->].
    destruct (Agent._load_offline 200 (Some text)) as [|e es]; [eauto |].
    unfold Agent._truncate_offline.
    destruct (_ || _); eauto.
  - rewrite (sync_cycle_unreachable self (Some text) w Hw).
    unfold Agent.on_exception.
    destruct (Agent.event_queue self); simpl; eauto.
Qed.

End SyncMore.

(** X4. One iteration neither loses nor repeats an event of a buffer that
    holds the lines of the events [B]: when the upload raises, the queue is
    moved behind [B] in the file and no event counts as delivered; when it
    returns, the events found under "events" in the bodies of the POSTs
    of the iteration to the telemetry URL are the first 200 events of [B]
    followed by the queue, and the file keeps the rest of [B]. The queue
    is empty afterwards in both cases, whatever fails later in the
    iteration. *)
Theorem sync_cycle_moves_events {py : PyLib} (self : Agent.IVECGuardAgent)
        (B : list json) (w : world) :
  Forall reads_back B ->
  Agent.event_queue (Agent.sync_cycle self (Some (writelines (jsonl B))) w).1.1 = []
  /\ content (Agent.sync_cycle self (Some (writelines (jsonl B))) w).1.2
     = match telemetry_reply w with
       | Raises => writelines (jsonl (B ++ Agent.event_queue self))
       | Returns _ => writelines (jsonl (drop 200 B))
       end
  /\ delivered self w
       (Agent.sync_cycle self (Some (writelines (jsonl B))) w).2
     = match telemetry_reply w with
       | Raises => []
       | Returns _ => take 200 B ++ Agent.event_queue self
       end.
Proof. apply sync_cycle_buffer. Qed.

Lemma sync_cycle_moves_events_witness :
  Agent.event_queue
    (Agent.sync_cycle (py := python_lib) (Agent.enqueue event_D sample_agent)
       (Some (writelines (jsonl (py := python_lib) [event_A; event_B])))
       unreachable).1.1 = []
  /\ content
       (Agent.sync_cycle (py := python_lib) (Agent.enqueue event_D sample_agent)
          (Some (writelines (jsonl (py := python_lib) [event_A; event_B])))
          unreachable).1.2
     = writelines (jsonl (py := python_lib)
                     ([event_A; event_B]
                      ++ Agent.event_queue (Agent.enqueue event_D sample_agent)))
  /\ delivered (Agent.enqueue event_D sample_agent) unreachable
       (Agent.sync_cycle (py := python_lib) (Agent.enqueue event_D sample_agent)
          (Some (writelines (jsonl (py := python_lib) [event_A; event_B])))
          unreachable).2
     = [].
Proof.
  apply (sync_cycle_moves_events (py := python_lib)
           (Agent.enqueue event_D sample_agent) [event_A; event_B] unreachable).
  repeat constructor; vm_compute; reflexivity.
Defined.

(** X5. Over any number of iterations, with events logged in between, no
    event is dropped or duplicated by the agent: the events found in the
    bodies of the uploads whose POST returned (read from the requests of
    each iteration), those left in the buffer and those left in the queue
    are, together, the events that were in the buffer and the queue at the
    start and the events logged since (as long as the written lines read
    back). *)
Theorem run_agent_conserves_events {py : PyLib}
        (steps : list (list json * world)) :
  forall (self : Agent.IVECGuardAgent) (B : list json),
    Forall reads_back B ->
    Forall reads_back (Agent.event_queue self) ->
    Forall (fun step => Forall reads_back step.1) steps ->
    exists B',
      content (run_agent self (Some (writelines (jsonl B))) steps).1.2
      = writelines (jsonl B')
      /\ (run_agent self (Some (writelines (jsonl B))) steps).2
         ++ B'
         ++ Agent.event_queue (run_agent self (Some (writelines (jsonl B))) steps).1.1
         ≡ₚ B ++ Agent.event_queue self ++ concat (map fst steps).
Proof.
  induction steps as [|[new w] rest IH]; intros self B HB HQ Hsteps.
  - exists B. split; [reflexivity |]. simpl. now rewrite app_nil_r.
  - apply Forall_cons in Hsteps as [Hnew Hrest]. simpl in Hnew.
    cbn [run_agent].
    set (self1 := fold_left (fun s e => Agent.enqueue e s) new self).
    assert (Hq1 : Agent.event_queue self1 = Agent.event_queue self ++ new)
      by apply enqueue_all_queue.
    destruct (sync_cycle_buffer self1 B w HB) as (Hq2 & Hf2 & Hacc).
    destruct (Agent.sync_cycle self1 (Some (writelines (jsonl B))) w)
      as [[self2 file2] tr] eqn:Hcycle.
    cbn [fst snd] in Hq2, Hf2.
    (* the buffer after this iteration *)
    set (B2 := match telemetry_reply w with
               | Raises => B ++ Agent.event_queue self1
               | Returns _ => drop 200 B
               end).
    assert (HB2 : Forall reads_back B2).
    { unfold B2. destruct (telemetry_reply w).
      - now apply Forall_drop.
      - rewrite Hq1. apply Forall_app. split; [exact HB |].
        apply Forall_app. now split. }
    assert (Hfile2 : content file2 = writelines (jsonl B2))
      by (rewrite Hf2; unfold B2; now destruct (telemetry_reply w)).
    destruct (sync_cycle_keeps_file self1 (writelines (jsonl B)) w) as [text2 Hsome].
    rewrite Hcycle in Hsome. cbn [fst snd] in Hsome. subst file2.
    cbn [content default id] in Hfile2. subst text2.
    destruct (IH self2 B2 HB2) as (B' & Hcontent & Hperm).
    { rewrite Hq2. constructor. }
    { exact Hrest. }
    destruct (run_agent self2 (Some (writelines (jsonl B2))) rest)
      as [[self3 file3] sent].
    cbn [fst snd] in *.
    exists B'. split; [exact Hcontent |].
    rewrite Hq2 in Hperm. cbn [app] in Hperm.
    rewrite <- app_assoc, Hperm, Hacc. cbn [map concat fst].
    unfold B2. destruct (telemetry_reply w); rewrite Hq1.
    + rewrite <- (take_drop 200 B) at 3.
      rewrite <- !app_assoc.
      apply Permutation_app_head.
      rewrite !(app_assoc (Agent.event_queue self) new).
      apply Permutation_app_swap_app.
    + cbn [app]. now rewrite <- !app_assoc.
Qed.

Lemma run_agent_conserves_events_witness :
  exists B',
    content (run_agent (py := python_lib) sample_agent
               (Some (writelines (jsonl (py := python_lib) [])))
               [([event_A], unreachable); ([event_B], reachable [])]).1.2
    = writelines (jsonl (py := python_lib) B')
    /\ (run_agent (py := python_lib) sample_agent
          (Some (writelines (jsonl (py := python_lib) [])))
          [([event_A], unreachable); ([event_B], reachable [])]).2
       ++ B'
       ++ Agent.event_queue
            (run_agent (py := python_lib) sample_agent
               (Some (writelines (jsonl (py := python_lib) [])))
               [([event_A], unreachable); ([event_B], reachable [])]).1.1
       ≡ₚ [] ++ Agent.event_queue sample_agent
          ++ concat (map fst [([event_A], unreachable); ([event_B], reachable [])]).
Proof.
  apply (run_agent_conserves_events (py := python_lib)
           [([event_A], unreachable); ([event_B], reachable [])] sample_agent []).
  - constructor.
  - constructor.
  - constructor; [| constructor; [| constructor]];
      (constructor; [vm_compute; repeat split; reflexivity | constructor]).
Defined.

Section BlankLines.
Context {py : PyLib}.

Lemma drop_repeat {A} (x : A) (k : nat) :
  forall n, drop n (repeat x k) = repeat x (k - n).
Proof. induction k as [|k IH]; intros [|n]; simpl; auto. Qed.

Lemma filter_blank_lines (a : nat) :
  blank newline = true ->
  filter (fun line => blank line = false) (repeat newline a) = [].
Proof.
  intros Hnl. induction a as [|a IH]; [reflexivity |]. simpl.
  rewrite filter_cons_False by congruence. exact IH.
Qed.

(** A buffer of [a] empty lines followed by the lines of [events], read
    whole. *)
Lemma load_offline_blank_then_jsonl (a : nat) (events : list json) :
  blank newline = true ->
  Forall reads_back events ->
  (a + length events <= 200)%nat ->
  readlines (writelines (repeat newline a ++ jsonl events))
  = repeat newline a ++ jsonl events
  /\ Agent._load_offline 200
       (Some (writelines (repeat newline a ++ jsonl events))) = events.
Proof.
  intros Hnl H Hlen.
  assert (Hlines : readlines (writelines (repeat newline a ++ jsonl events))
                   = repeat newline a ++ jsonl events).
  { rewrite <- (append_nil_r (writelines _)), readlines_app_lines.
    - apply app_nil_r.
    - apply Forall_app. split.
      + apply Forall_forall. intros l Hl. apply list_elem_of_In, repeat_spec in Hl.
        subst l. exists "". split; reflexivity.
      + unfold jsonl. apply Forall_map. eapply Forall_impl; [exact H |].
        intros e (Hn & _). simpl. eauto. }
  split; [exact Hlines |].
  rewrite load_offline_spec. unfold head_lines. rewrite Hlines.
  rewrite take_ge by (rewrite length_app, repeat_length; unfold jsonl;
                      rewrite length_map; lia).
  rewrite filter_app.
  rewrite filter_blank_lines by exact Hnl.
  cbn [app]. now rewrite mapM_decode_jsonl.
Qed.

End BlankLines.

(** X6. Truncation counts events, not lines. When the head of the buffer
    holds [k] empty lines before the lines of [events] (all within one
    read) and the upload of an iteration returns, the body of that upload
    carries all of [events] before the queue, but only as many lines as
    events are removed from the file: the last [k] events (all of them
    when [k] exceeds their number) stay in it, and whatever the next
    iteration meets, the body of its upload carries them again. *)
Theorem blank_lines_make_events_resent {py : PyLib} (self : Agent.IVECGuardAgent)
        (events : list json) (k : nat) (w w' : world) (r : outcome json) :
  blank newline = true ->
  Forall reads_back events ->
  (k + length events <= 200)%nat ->
  telemetry_reply w = Returns r ->
  exists self1 f1 tr tr',
    Agent.sync_cycle self
      (Some (writelines (repeat newline k ++ jsonl events))) w
    = (self1, f1,
       Post (Agent.server_url self +:+ "/agent/telemetry")
            (JObj [("agent_id", JStr (Agent.agent_id self));
                   ("events", JArr (events ++ Agent.event_queue self));
                   ("work_stats", Agent.work_stats self)])
       :: tr)
    /\ Agent._load_offline 200 f1 = drop (length events - k) events
    /\ (Agent.sync_cycle self1 f1 w').2
       = Post (Agent.server_url self +:+ "/agent/telemetry")
              (JObj [("agent_id", JStr (Agent.agent_id self));
                     ("events", JArr (drop (length events - k) events));
                     ("work_stats", Agent.work_stats self)])
         :: tr'.
Proof.
  intros Hnl H Hlen Hw.
  destruct (load_offline_blank_then_jsonl k events Hnl H Hlen) as [Hlines Hload].
  set (f := Some (writelines (repeat newline k ++ jsonl events))) in *.
  destruct (sync_cycle_upload self f w) as (tr & Htr & _).
  destruct (sync_cycle_uploaded self f w r Hw) as [Hq Hf].
  destruct (sync_cycle_identity self f w) as (Hurl & Hid & Hws).
  destruct (Agent.sync_cycle self f w) as [[self1 f1] tr1].
  cbn [fst snd] in *. subst tr1.
  assert (Hf1 : Agent._load_offline 200 f1 = drop (length events - k) events).
  { subst f. rewrite Hf, Hload.
    destruct events as [|e es] eqn:He; [now rewrite Hload |].
    rewrite <- He in *.
    set (n := length events) in *.
    assert (Hn : (0 < n)%nat) by (unfold n; rewrite He; simpl; lia).
    unfold Agent._truncate_offline.
    replace (Z.of_nat n <=? 0) with false by (symmetry; apply Z.leb_gt; lia).
    cbn [orb negb exists_ content default id].
    rewrite Nat2Z.id, Hlines, drop_app, repeat_length, jsonl_drop.
    rewrite drop_repeat.
    apply load_offline_blank_then_jsonl; [exact Hnl | now apply Forall_drop |].
    rewrite length_drop. lia. }
  destruct (sync_cycle_upload self1 f1 w') as (tr' & Htr' & _).
  exists self1, f1, tr, tr'. split; [| split].
  - now rewrite Hload.
  - exact Hf1.
  - now rewrite Htr', Hf1, Hq, app_nil_r, Hurl, Hid, Hws.
Qed.

Lemma blank_lines_make_events_resent_witness :
  exists self1 f1 tr tr',
    Agent.sync_cycle (py := python_lib) sample_agent
      (Some (writelines (repeat newline 1
                         ++ jsonl (py := python_lib) [event_A; event_B])))
      (reachable [])
    = (self1, f1,
       Post (Agent.server_url sample_agent +:+ "/agent/telemetry")
            (JObj [("agent_id", JStr (Agent.agent_id sample_agent));
                   ("events",
                    JArr ([event_A; event_B] ++ Agent.event_queue sample_agent));
                   ("work_stats", Agent.work_stats sample_agent)])
       :: tr)
    /\ Agent._load_offline (py := python_lib) 200 f1
       = drop (length [event_A; event_B] - 1) [event_A; event_B]
    /\ (Agent.sync_cycle (py := python_lib) self1 f1 unreachable).2
       = Post (Agent.server_url sample_agent +:+ "/agent/telemetry")
              (JObj [("agent_id", JStr (Agent.agent_id sample_agent));
                     ("events",
                      JArr (drop (length [event_A; event_B] - 1)
                                 [event_A; event_B]));
                     ("work_stats", Agent.work_stats sample_agent)])
         :: tr'.
Proof.
  apply (blank_lines_make_events_resent (py := python_lib) sample_agent
           [event_A; event_B] 1 (reachable []) unreachable (Returns (JObj []))).
  - vm_compute. reflexivity.
  - repeat constructor; vm_compute; reflexivity.
  - simpl. lia.
  - reflexivity.
Defined.

(** * Further properties of the command loop *)

Section CommandLoopMore.

(** What the loop does comes from verified commands only. *)
Lemma run_commands_only_verified (self : Agent.IVECGuardAgent) (w : world)
      (cmds : list command_dict) :
  forall i e,
    e ∈ (Agent.run_commands self w i cmds).1 ->
    exists c,
      c ∈ cmds /\ Agent._verify_command self c = true
      /\ (e = Agent.lock_workstation /\ c !! "action" = Some "LOCK"
          \/ exists status,
              e = Agent.ack_request self (default "" (c !! "id")) status
              /\ (status = "EXECUTED" \/ status = "FAILED")
              /\ (status = "EXECUTED" -> c !! "action" = Some "LOCK")).
Proof.
  induction cmds as [|c cmds IH]; intros i e He; simpl in He; [inversion He |].
  assert (Hone : e ∈ (Agent.run_command self w i c).1
                 \/ e ∈ (Agent.run_commands self w (S i) cmds).1).
  { destruct (Agent.run_command self w i c) as [tr [[]|]]; simpl in *; [| now left].
    destruct (Agent.run_commands self w (S i) cmds) as [tr' o]. simpl in *.
    now apply elem_of_app in He. }
  destruct Hone as [Hc | Hrest].
  - exists c. split; [left |].
    unfold Agent.run_command in Hc.
    destruct (Agent._verify_command self c) eqn:Hv; simpl in Hc; [| inversion Hc].
    split; [reflexivity |].
    destruct (c !! "action") as [action|] eqn:Ha; simpl in Hc.
    + destruct (String.eqb_spec action "LOCK") as [-> | Hne]; simpl in Hc.
      * apply elem_of_cons in Hc as [-> | Hc]; [now left |].
        apply list_elem_of_singleton in Hc as ->. right.
        destruct (subprocess_raises w i); eexists; (split; [reflexivity |]); auto.
      * apply list_elem_of_singleton in Hc as ->. right.
        eexists. split; [reflexivity |]. split; [now right | discriminate].
    + apply list_elem_of_singleton in Hc as ->. right.
      eexists. split; [reflexivity |]. split; [now right | discriminate].
  - destruct (IH (S i) e Hrest) as (c' & Hin & Hrest').
    exists c'. split; [now right | exact Hrest'].
Qed.

(** The loop up to a command whose ack raises. *)
Lemma run_commands_ack_raises (self : Agent.IVECGuardAgent) (w : world)
      (pre post : list command_dict) (c : command_dict) :
  forall i,
    (forall j, (j < length pre)%nat -> ack_raises w (i + j) = false) ->
    Agent._verify_command self c = true ->
    ack_raises w (i + length pre) = true ->
    Agent.run_commands self w i (pre ++ c :: post)
    = ((Agent.run_commands self w i pre).1
       ++ (Agent.run_command self w (i + length pre) c).1, Raises).
Proof.
  induction pre as [|c0 pre IH]; intros i Hpre Hv Hack; simpl.
  - rewrite Nat.add_0_r in *.
    assert (Hr : (Agent.run_command self w i c).2 = Raises).
    { unfold Agent.run_command. rewrite Hv. simpl.
      destruct (String.eqb _ "LOCK"); simpl; now rewrite Hack. }
    destruct (Agent.run_command self w i c) as [tr o]. simpl in *. subst o.
    reflexivity.
  - assert (H0 : ack_raises w i = false)
      by (rewrite <- (Nat.add_0_r i); apply Hpre; simpl; lia).
    pose proof (run_command_returns self w i c0 H0) as Hret.
    destruct (Agent.run_command self w i c0) as [tr o]. simpl in Hret. subst o.
    simpl in Hack.
    replace (i + S (length pre))%nat with (S i + length pre)%nat in * by lia.
    rewrite (IH (S i)).
    + destruct (Agent.run_commands self w (S i) pre) as [tr' o']. simpl.
      now rewrite app_assoc.
    + intros j Hj. replace (S i + j)%nat with (i + S j)%nat by lia.
      apply Hpre. simpl. lia.
    + exact Hv.
    + exact Hack.
Qed.

End CommandLoopMore.

(** X7. The command loop never runs anything and never acknowledges
    anything for a command that fails the verification: every subprocess it
    starts is the workstation lock for a verified command whose action is
    LOCK, and every ack it sends carries the id of a verified command, with
    the status EXECUTED or FAILED, EXECUTED only for LOCK. *)
Theorem command_loop_acts_on_verified_only (self : Agent.IVECGuardAgent)
        (w : world) (cmds : list command_dict) (e : effect) :
  e ∈ (Agent.run_commands self w 0 cmds).1 ->
  exists c,
    c ∈ cmds /\ Agent._verify_command self c = true
    /\ (e = Agent.lock_workstation /\ c !! "action" = Some "LOCK"
        \/ exists status,
            e = Agent.ack_request self (default "" (c !! "id")) status
            /\ (status = "EXECUTED" \/ status = "FAILED")
            /\ (status = "EXECUTED" -> c !! "action" = Some "LOCK")).
Proof. apply run_commands_only_verified. Qed.

Lemma command_loop_acts_on_verified_only_witness :
  exists c,
    c ∈ [<["signature" := "00"]> signed_lock; signed_lock]
    /\ Agent._verify_command sample_agent c = true
    /\ (Agent.lock_workstation = Agent.lock_workstation
        /\ c !! "action" = Some "LOCK"
        \/ exists status,
            Agent.lock_workstation
            = Agent.ack_request sample_agent (default "" (c !! "id")) status
            /\ (status = "EXECUTED" \/ status = "FAILED")
            /\ (status = "EXECUTED" -> c !! "action" = Some "LOCK")).
Proof.
  apply (command_loop_acts_on_verified_only sample_agent
           (reachable [<["signature" := "00"]> signed_lock; signed_lock])
           [<["signature" := "00"]> signed_lock; signed_lock]
           Agent.lock_workstation).
  vm_compute. left.
Defined.

(** X8. When the ack of a verified command raises, the loop over the
    commands stops there with that exception: what it did is what it did for
    the commands before and for this one, and the commands that follow in
    the poll answer are neither run nor acknowledged. *)
Theorem ack_failure_drops_following_commands (self : Agent.IVECGuardAgent)
        (w : world) (pre post : list command_dict) (c : command_dict) :
  (forall j, (j < length pre)%nat -> ack_raises w j = false) ->
  Agent._verify_command self c = true ->
  ack_raises w (length pre) = true ->
  Agent.run_commands self w 0 (pre ++ c :: post)
  = ((Agent.run_commands self w 0 pre).1
     ++ (Agent.run_command self w (length pre) c).1, Raises).
Proof.
  intros Hpre Hv Hack.
  apply (run_commands_ack_raises self w pre post c 0); assumption.
Qed.

Lemma ack_failure_drops_following_commands_witness :
  Agent.run_commands sample_agent unreachable 0 ([] ++ signed_lock :: [signed_lock])
  = ((Agent.run_commands sample_agent unreachable 0 []).1
     ++ (Agent.run_command sample_agent unreachable (length (@nil command_dict))
           signed_lock).1, Raises).
Proof.
  apply (ack_failure_drops_following_commands sample_agent unreachable
           [] [signed_lock] signed_lock).
  - intros j Hj. inversion Hj.
  - vm_compute. reflexivity.
  - reflexivity.
Defined.

(** * The command channel, end to end *)

Section CommandChannel.
Variable secret : string.

(** The entries of a poll result carry the keys of the selected rows, in
    the order of the rows. *)
Lemma poll_results_ids (l : list (string * Command.t)) :
  forall results,
    Server.poll_results secret l = Returns results ->
    map (fun c : command_dict => c !! "id") results
    = map (fun kc : string * Command.t => Some kc.1) l.
Proof.
  induction l as [| [cid c] l IH]; simpl; intros results Hres.
  - now injection Hres as <-.
  - destruct (Command.expires_at c) as [e|]; [| discriminate].
    destruct (Server.poll_results secret l) as [rs|]; [| discriminate].
    injection Hres as <-. simpl. now rewrite (IH rs eq_refl).
Qed.

(** Every selected row has its entry in the result. *)
Lemma poll_results_member (l : list (string * Command.t)) :
  forall results kc,
    Server.poll_results secret l = Returns results -> kc ∈ l ->
    exists r, Server.poll_result secret kc = Returns r /\ r ∈ results.
Proof.
  induction l as [| kc0 l IH]; simpl; intros results kc Hres Hin.
  - inversion Hin.
  - destruct (Server.poll_result secret kc0) as [r0|] eqn:H0; [| discriminate].
    destruct (Server.poll_results secret l) as [rs|]; [| discriminate].
    injection Hres as <-.
    apply elem_of_cons in Hin as [-> | Hin].
    + exists r0. split; [exact H0 | left].
    + destruct (IH rs kc eq_refl Hin) as (r & Hr & Hrin).
      exists r. split; [exact Hr | now right].
Qed.

Lemma returned_ids_poll (agent : string) (now : Z) (s : Server.db) :
  returned_ids (Server.poll_commands secret agent now s).2
  = map (fun kc : string * Command.t => Some kc.1)
        (map_to_list (filter (fun kc => Server.deliverable agent now kc.2 = true)
                             (Server.commands s))).
Proof.
  destruct (poll_commands_ok secret agent now s) as (results & -> & Hres).
  simpl. now apply poll_results_ids.
Qed.

Lemma returned_ids_spec (agent : string) (now : Z) (s : Server.db) (cid : string) :
  Some cid ∈ returned_ids (Server.poll_commands secret agent now s).2
  <-> exists c, Server.commands s !! cid = Some c
                /\ Server.deliverable agent now c = true.
Proof.
  rewrite returned_ids_poll. split.
  - intros Hin. apply list_elem_of_fmap in Hin as ([cid' c] & [= ->] & Hin).
    apply elem_of_map_to_list, map_lookup_filter_Some in Hin as [Hc Hd].
    eauto.
  - intros (c & Hc & Hd). apply list_elem_of_fmap. exists (cid, c).
    split; [reflexivity |].
    apply elem_of_map_to_list, map_lookup_filter_Some. auto.
Qed.

End CommandChannel.



(** X10. A poll answers with exactly the commands of the device that are
    PENDING and expire strictly after the time of the poll: each of them is
    in the answer, nothing else is, and none is there twice. *)
Theorem poll_returns_exactly_deliverable (secret agent : string) (now : Z)
        (s : Server.db) :
  NoDup (returned_ids (Server.poll_commands secret agent now s).2)
  /\ forall cid,
       Some cid ∈ returned_ids (Server.poll_commands secret agent now s).2
       <-> exists c e,
             Server.commands s !! cid = Some c
             /\ Command.device_id c = agent /\ Command.status c = "PENDING"
             /\ Command.expires_at c = Some e /\ now < e.
Proof.
  split.
  - rewrite returned_ids_poll.
    change (NoDup ((Some ∘ fst) <$> map_to_list
              (filter (fun kc => Server.deliverable agent now kc.2 = true)
                      (Server.commands s)))).
    rewrite list_fmap_compose.
    apply (NoDup_fmap_2 Some), NoDup_fst_map_to_list.
  - intros cid. rewrite returned_ids_spec. split.
    + intros (c & Hc & Hd).
      apply deliverable_spec in Hd as (? & ? & e & ? & ?). eauto 10.
    + intros (c & e & Hc & Hdev & Hst & He & Hlt). exists c.
      split; [exact Hc |]. apply deliverable_spec. eauto.
Qed.

(** X11. A command can be fetched for five minutes. After it was issued
    under a fresh id, a poll returns it exactly when the poll is for the
    device the command names and its time is before the second reading of
    the clock at issue plus five minutes; the poll of another device, or a
    poll from then on, does not. *)
Theorem command_expires_after_five_minutes (secret : string)
        (payload : CommandIn.t) (uuid : string) (now now' : Z) (s : Server.db)
        (agent : string) (t : Z) :
  Server.commands s !! uuid = None ->
  is_Some (Server.devices s !! CommandIn.deviceId payload) ->
  Some uuid ∈ returned_ids
    (Server.poll_commands secret agent t
       (Server.issue_command payload uuid now now' s).1).2
  <-> agent = CommandIn.deviceId payload
      /\ t < now' + Datetime.timedelta_minutes 5.
Proof.
  intros Hfresh _. rewrite returned_ids_spec.
  rewrite issue_command_lookup, decide_True by reflexivity.
  rewrite Hfresh. split.
  - intros (c & [= <-] & Hd).
    apply deliverable_spec in Hd as (Hdev & _ & e & [= <-] & Hlt).
    simpl in Hdev. auto.
  - intros [-> Hlt]. eexists. split; [reflexivity |].
    apply deliverable_spec. simpl. eauto.
Qed.

Lemma command_expires_after_five_minutes_witness :
  Some "c1" ∈ returned_ids
    (Server.poll_commands default_secret "dev-1"
       (sample_time + Datetime.timedelta_minutes 5 - 1)
       (Server.issue_command (CommandIn.mk "dev-1" "LOCK") "c1" 0 sample_time
          (sample_db 0)).1).2
  <-> "dev-1" = CommandIn.deviceId (CommandIn.mk "dev-1" "LOCK")
      /\ sample_time + Datetime.timedelta_minutes 5 - 1
         < sample_time + Datetime.timedelta_minutes 5.
Proof.
  apply (command_expires_after_five_minutes default_secret
           (CommandIn.mk "dev-1" "LOCK") "c1" 0 sample_time (sample_db 0)
           "dev-1" (sample_time + Datetime.timedelta_minutes 5 - 1)).
  - reflexivity.
  - eexists. reflexivity.
Defined.

(** X12. An ack always answers ok, also for an id the table does not hold,
    and then it changes nothing. For an id the table holds, the row gets
    the status of the body, EXECUTED when the body has none, and the time
    of the ack as its execution time; its other columns stay. Of two acks
    of the same id only the second one shows: the status and the
    execution time it stored replace those of the first. An ack never
    touches the other commands, the devices or the events. *)
Theorem ack_command_last_wins (cid : string) (d1 d2 : gmap string string)
        (t1 t2 : Z) (s : Server.db) :
  (Server.ack_command cid d1 t1 s).2 = OK "ok"
  /\ (forall c, Server.commands s !! cid = Some c ->
        Server.commands (Server.ack_command cid d1 t1 s).1 !! cid
        = Some (Command.mk (Command.device_id c) (Command.action c)
                  (match d1 !! "status" with
                   | Some status => status
                   | None => "EXECUTED"
                   end)
                  (Command.issued_by c) (Command.timestamp c)
                  (Command.expires_at c) (Some t1)))
  /\ (Server.ack_command cid d2 t2 (Server.ack_command cid d1 t1 s).1).1
     = (Server.ack_command cid d2 t2 s).1
  /\ (forall cid', cid' <> cid ->
        Server.commands (Server.ack_command cid d1 t1 s).1 !! cid'
        = Server.commands s !! cid')
  /\ (Server.commands s !! cid = None -> (Server.ack_command cid d1 t1 s).1 = s)
  /\ Server.devices (Server.ack_command cid d1 t1 s).1 = Server.devices s
  /\ Server.events (Server.ack_command cid d1 t1 s).1 = Server.events s.
Proof.
  unfold Server.ack_command.
  destruct (Server.commands s !! cid) as [c|] eqn:Hc; simpl.
  - rewrite lookup_insert_eq. simpl. rewrite insert_insert_eq.
    split; [reflexivity |].
    split; [intros c0 [= <-]; now destruct (d1 !! "status") |].
    split; [reflexivity |].
    split; [| split; [discriminate | split; reflexivity]].
    intros cid' Hne. now rewrite lookup_insert_ne.
  - rewrite Hc. split; [reflexivity |]. split; [discriminate |].
    split; [reflexivity |].
    split; [now intros |]. split; [now intros |]. split; reflexivity.
Qed.

(** * The device table *)

Lemma total_nonneg (ws : list Z) : Forall (fun w => 0 <= w) ws -> 0 <= total ws.
Proof. unfold total. induction 1; simpl; lia. Qed.

(** The clamp binds at most once when no weight is negative. *)
Lemma clamped_sum_total (ws : list Z) :
  Forall (fun w => 0 <= w) ws ->
  forall score, score <= 100 ->
    clamped_sum score ws = Z.min 100 (score + total ws).
Proof.
  induction 1 as [|w ws Hw Hws IH]; intros score Hs.
  - unfold clamped_sum, total. simpl. lia.
  - change (clamped_sum score (w :: ws))
      with (clamped_sum (Z.min 100 (score + w)) ws).
    rewrite IH by lia. apply total_nonneg in Hws.
    change (total (w :: ws)) with (w + total ws). lia.
Qed.

Section DeviceTable.
Variable secret : string.

(** What one request does to a registered device. *)
Lemma handle_device_kept (s : Server.db) (r : Server.request) (id : string)
      (dev : Device.t) :
  Server.devices s !! id = Some dev ->
  exists dev',
    Server.devices (Server.handle secret s r) !! id = Some dev'
    /\ Device.hostname dev' = Device.hostname dev
    /\ Device.os_info dev' = Device.os_info dev
    /\ Device.ip_address dev' = Device.ip_address dev
    /\ Device.registered_at dev' = Device.registered_at dev
    /\ (as_inserted dev -> as_inserted dev')
    /\ (Device.risk_score dev' = Device.risk_score dev
        \/ exists payload now uuid4 utcnow,
             r = Server.ReceiveTelemetry payload now uuid4 utcnow
             /\ Device.risk_score dev'
                = clamped_sum (Device.risk_score dev) (weights payload)).
Proof.
  intros Hdev.
  destruct r as [data host now | payload now uuid4 utcnow | agent now
                 | cid' data now | id' policy | payload uuid now now']; simpl.
  - unfold Server.register_agent.
    destruct (data !! "agent_id") as [[|a did]|]; simpl; eauto 10.
    destruct (Server.devices s !! String a did) eqn:Hd; simpl; eauto 10.
    rewrite lookup_insert_ne by (intros <-; congruence). eauto 10.
  - rewrite receive_telemetry_spec.
    destruct (Server.devices s !! TelemetryIn.agent_id payload) as [dev0|] eqn:Hd;
      simpl; eauto 10.
    destruct (Server.flushes _ _ _); simpl; eauto 10.
    destruct (decide (TelemetryIn.agent_id payload = id)) as [<-|Hne].
    + rewrite lookup_insert_eq. rewrite Hd in Hdev. injection Hdev as ->.
      eexists. split; [reflexivity |]. simpl.
      repeat (split; [reflexivity |]). split.
      * unfold as_inserted. simpl. tauto.
      * right. eauto 10.
    + rewrite lookup_insert_ne by exact Hne. eauto 10.
  - destruct (poll_commands_ok secret agent now s) as (results & -> & _).
    simpl. eauto 10.
  - unfold Server.ack_command. destruct (Server.commands s !! cid'); simpl; eauto 10.
  - unfold Server.update_policy.
    destruct (Server.devices s !! id') as [dev0|] eqn:Hd; simpl; eauto 10.
    destruct (decide (id' = id)) as [<-|Hne].
    + rewrite lookup_insert_eq. rewrite Hd in Hdev. injection Hdev as ->.
      eexists. split; [reflexivity |]. simpl.
      repeat (split; [reflexivity |]). split; [| now left].
      unfold as_inserted. simpl. tauto.
    + rewrite lookup_insert_ne by exact Hne. eauto 10.
  - unfold Server.issue_command. destruct (Server.commands s !! uuid); simpl; eauto 10.
Qed.

(** A device that appears was inserted by a registration. *)
Lemma handle_device_new (s : Server.db) (r : Server.request) (id : string)
      (dev' : Device.t) :
  Server.devices s !! id = None ->
  Server.devices (Server.handle secret s r) !! id = Some dev' ->
  as_inserted dev' /\ id <> "" /\ Device.risk_score dev' = 0.
Proof.
  intros Hnone.
  destruct r as [data host now | payload now uuid4 utcnow | agent now
                 | cid' data now | id' policy | payload uuid now now']; simpl.
  - unfold Server.register_agent.
    destruct (data !! "agent_id") as [[|a did]|]; simpl; try congruence.
    destruct (Server.devices s !! String a did) eqn:Hd; simpl; try congruence.
    destruct (decide (String a did = id)) as [<-|Hne].
    + rewrite lookup_insert_eq. intros [= <-]. unfold as_inserted. simpl.
      repeat split; discriminate.
    + rewrite lookup_insert_ne by exact Hne. congruence.
  - rewrite receive_telemetry_spec.
    destruct (Server.devices s !! TelemetryIn.agent_id payload) as [dev0|] eqn:Hd;
      simpl; try congruence.
    destruct (Server.flushes _ _ _); simpl; try congruence.
    rewrite lookup_insert_ne by (intros <-; congruence). congruence.
  - destruct (poll_commands_ok secret agent now s) as (results & -> & _).
    simpl. congruence.
  - unfold Server.ack_command. destruct (Server.commands s !! cid'); simpl; congruence.
  - unfold Server.update_policy.
    destruct (Server.devices s !! id') as [dev0|] eqn:Hd; simpl; try congruence.
    rewrite lookup_insert_ne by (intros <-; congruence). congruence.
  - unfold Server.issue_command. destruct (Server.commands s !! uuid); simpl; congruence.
Qed.

Lemma handle_all_devices_as_inserted (rs : list Server.request) :
  forall s,
    (forall id dev, Server.devices s !! id = Some dev -> as_inserted dev /\ id <> "") ->
    forall id dev,
      Server.devices (Server.handle_all secret s rs) !! id = Some dev ->
      as_inserted dev /\ id <> "".
Proof.
  unfold Server.handle_all.
  induction rs as [|r rs IH]; intros s Hs; simpl; [exact Hs |].
  apply IH. intros id dev' Hdev'.
  destruct (Server.devices s !! id) as [dev|] eqn:Hdev.
  - destruct (Hs id dev Hdev) as [Hins Hid].
    destruct (handle_device_kept s r id dev Hdev)
      as (dev'' & Hdev'' & _ & _ & _ & _ & Hkeep & _).
    rewrite Hdev' in Hdev''. injection Hdev'' as <-. auto.
  - destruct (handle_device_new s r id dev' Hdev Hdev') as (? & ? & _). auto.
Qed.

Lemma handle_all_device_kept (rs : list Server.request) :
  Forall nonneg_upload rs ->
  forall s id dev,
    risk_bounded s -> Server.devices s !! id = Some dev ->
    exists dev',
      Server.devices (Server.handle_all secret s rs) !! id = Some dev'
      /\ Device.risk_score dev <= Device.risk_score dev' <= 100
      /\ Device.hostname dev' = Device.hostname dev
      /\ Device.os_info dev' = Device.os_info dev
      /\ Device.ip_address dev' = Device.ip_address dev
      /\ Device.registered_at dev' = Device.registered_at dev.
Proof.
  unfold Server.handle_all.
  induction 1 as [|r rs Hr _ IH]; intros s id dev Hs Hdev; simpl.
  - exists dev. split; [exact Hdev |]. specialize (Hs id dev Hdev).
    repeat split; try reflexivity; lia.
  - destruct (handle_device_kept s r id dev Hdev)
      as (dev1 & Hdev1 & Hh & Ho & Hi & Hreg & _ & Hrisk).
    destruct (IH (Server.handle secret s r) id dev1
                (handle_risk_bounded secret s r Hs) Hdev1)
      as (dev' & Hdev' & Hle & Hh' & Ho' & Hi' & Hreg').
    exists dev'. split; [exact Hdev' |].
    split; [| repeat split; congruence].
    pose proof (Hs id dev Hdev) as Hb.
    destruct Hrisk as [Heq | (payload & now & uuid4 & utcnow & Hreq & Heq)]; [lia |].
    subst r.
    pose proof (clamped_sum_ge (weights payload) Hr (Device.risk_score dev) Hb).
    lia.
Qed.

End DeviceTable.

(** The sample uploads can be stored. *)
Lemma sample_upload_storable (ws : list Z) (score : Z) :
  Server.flushes (clamped_sum (Device.risk_score (sample_device score))
                              (weights (sample_upload ws)))
                 (Server.events (sample_db score))
                 (uploaded_rows (sample_upload ws) sample_uuid4 sample_utcnow)
  = true ->
  storable (sample_upload ws) sample_uuid4 (sample_db score) (sample_device score).
Proof. apply flushes_spec. Qed.

(** X13. Registering twice is registering once. A second registration
    under the same [agent_id], whatever host name, system, address and time
    it carries, leaves the database as the first one left it and gets the
    same answer; and a registration never changes a row that is already
    there. *)
Theorem register_agent_idempotent (data data' : gmap string string)
        (host host' : string) (now now' : Z) (s : Server.db) :
  data' !! "agent_id" = data !! "agent_id" ->
  Server.register_agent data' host' now' (Server.register_agent data host now s).1
  = Server.register_agent data host now s
  /\ forall id dev,
       Server.devices s !! id = Some dev ->
       Server.devices (Server.register_agent data host now s).1 !! id = Some dev.
Proof.
  intros Hid. unfold Server.register_agent. rewrite Hid.
  destruct (data !! "agent_id") as [[|a did]|]; simpl.
  - split; [reflexivity | auto].
  - destruct (Server.devices s !! String a did) as [dev|] eqn:Hdev; simpl.
    + rewrite Hdev. split; [reflexivity | auto].
    + rewrite lookup_insert_eq. split; [reflexivity |].
      intros id dev Hsome.
      rewrite lookup_insert_ne by (intros <-; congruence). exact Hsome.
  - split; [reflexivity | auto].
Qed.

Lemma register_agent_idempotent_witness :
  Server.register_agent {["agent_id" := "dev-2"; "hostname" := "OTHER"]}
    "10.0.0.9" (sample_time + 60)
    (Server.register_agent {["agent_id" := "dev-2"; "hostname" := "PC"]}
       "10.0.0.8" sample_time (sample_db 30)).1
  = Server.register_agent {["agent_id" := "dev-2"; "hostname" := "PC"]}
      "10.0.0.8" sample_time (sample_db 30)
  /\ forall id dev,
       Server.devices (sample_db 30) !! id = Some dev ->
       Server.devices
         (Server.register_agent {["agent_id" := "dev-2"; "hostname" := "PC"]}
            "10.0.0.8" sample_time (sample_db 30)).1 !! id = Some dev.
Proof.
  apply (register_agent_idempotent
           {["agent_id" := "dev-2"; "hostname" := "PC"]}
           {["agent_id" := "dev-2"; "hostname" := "OTHER"]}
           "10.0.0.8" "10.0.0.9" sample_time (sample_time + 60) (sample_db 30)).
  reflexivity.
Defined.

(** X14. A policy the administrator stores for a registered device is the
    policy the agent of that device gets with the answer to its next
    registration and to its next upload that the database takes (the
    upload gets a server error when its rows or the new score cannot be
    stored); the update changes no score and no other device. For a
    device that is not registered the update answers 404 and stores
    nothing. *)
Theorem update_policy_round_trip (id : string) (policy : json) (s : Server.db)
        (dev : Device.t) (payload : TelemetryIn.t) (now : Z)
        (uuid4 : nat -> string) (utcnow : nat -> Z)
        (data : gmap string string) (host : string) :
  Server.devices s !! id = Some dev ->
  TelemetryIn.agent_id payload = id ->
  data !! "agent_id" = Some id -> id <> "" ->
  (Server.update_policy id policy s).2 = OK "updated"
  /\ (storable payload uuid4 s dev ->
      (Server.receive_telemetry payload now uuid4 utcnow
         (Server.update_policy id policy s).1).2 = OK policy)
  /\ (~ storable payload uuid4 s dev ->
      (Server.receive_telemetry payload now uuid4 utcnow
         (Server.update_policy id policy s).1).2 = HTTPException 500)
  /\ (Server.register_agent data host now
        (Server.update_policy id policy s).1).2 = OK policy
  /\ score_of id (Server.update_policy id policy s).1 = score_of id s
  /\ (forall id', id' <> id ->
        Server.devices (Server.update_policy id policy s).1 !! id'
        = Server.devices s !! id')
  /\ (forall id', Server.devices s !! id' = None ->
        Server.update_policy id' policy s = (s, HTTPException 404)).
Proof.
  intros Hdev Hp Hdata Hne.
  assert (Hup : Server.update_policy id policy s
                = (Server.Db
                     (<[id := Device.mk (Device.hostname dev)
                                (Device.employee_name dev) (Device.department dev)
                                (Device.os_info dev) (Device.ip_address dev)
                                (Device.status dev) (Device.risk_score dev)
                                (Device.predictive_risk_score dev)
                                (Device.last_heartbeat dev) (Device.work_stats dev)
                                policy (Device.registered_at dev)]>
                        (Server.devices s))
                     (Server.events s) (Server.commands s), OK "updated"))
    by (unfold Server.update_policy; now rewrite Hdev).
  rewrite Hup. cbn [fst snd].
  pose proof (flushes_spec payload uuid4 utcnow s dev) as Hfl.
  assert (Hrt : (Server.receive_telemetry payload now uuid4 utcnow
                   (Server.Db
                      (<[id := Device.mk (Device.hostname dev)
                                 (Device.employee_name dev) (Device.department dev)
                                 (Device.os_info dev) (Device.ip_address dev)
                                 (Device.status dev) (Device.risk_score dev)
                                 (Device.predictive_risk_score dev)
                                 (Device.last_heartbeat dev) (Device.work_stats dev)
                                 policy (Device.registered_at dev)]>
                         (Server.devices s))
                      (Server.events s) (Server.commands s))).2
                = if Server.flushes
                       (clamped_sum (Device.risk_score dev) (weights payload))
                       (Server.events s) (uploaded_rows payload uuid4 utcnow)
                  then OK policy else HTTPException 500).
  { rewrite receive_telemetry_spec, Hp. cbn [Server.devices Server.events].
    rewrite lookup_insert_eq. cbn [Device.risk_score Device.policy].
    now destruct (Server.flushes _ _ _). }
  split; [reflexivity |]. split; [| split; [| split; [| split; [| split]]]].
  - intros Hst. apply Hfl in Hst. now rewrite Hrt, Hst.
  - intros Hst. rewrite Hrt.
    destruct (Server.flushes _ _ _); [| reflexivity].
    exfalso. now apply Hst, Hfl.
  - unfold Server.register_agent. rewrite Hdata.
    destruct id as [|a did]; [contradiction |]. simpl.
    now rewrite lookup_insert_eq.
  - unfold score_of. simpl. now rewrite lookup_insert_eq, Hdev.
  - intros id' Hid'. simpl. now rewrite lookup_insert_ne.
  - intros id' Hnone. unfold Server.update_policy. now rewrite Hnone.
Qed.

Lemma update_policy_round_trip_witness :
  storable (sample_upload [15]) sample_uuid4 (sample_db 30) (sample_device 30)
  /\ (Server.receive_telemetry (sample_upload [15]) sample_time sample_uuid4
        sample_utcnow
        (Server.update_policy "dev-1" (JObj [("usbMonitoring", JBool false)])
           (sample_db 30)).1).2 = OK (JObj [("usbMonitoring", JBool false)]).
Proof.
  assert (Hst : storable (sample_upload [15]) sample_uuid4 (sample_db 30)
                         (sample_device 30))
    by (apply sample_upload_storable; vm_compute; reflexivity).
  split; [exact Hst |].
  apply (update_policy_round_trip "dev-1" (JObj [("usbMonitoring", JBool false)])
           (sample_db 30) (sample_device 30) (sample_upload [15]) sample_time
           sample_uuid4 sample_utcnow {["agent_id" := "dev-1"]} "10.0.0.7");
    [reflexivity | reflexivity | reflexivity | discriminate | exact Hst].
Defined.

(** X15. An upload that the database takes appends to the events table
    one row per uploaded event, in the order of the upload: the row of
    the [j]-th event has the [j]-th id drawn, the id of the device, as its
    time the reading of the clock when that row is inserted (the default
    of the column, not the time stored as heartbeat), the type, the
    description, the weight and the metadata of the event, and the
    severity CRITICAL when the weight is above 60 and NORMAL otherwise.
    The rows that were there stay in front. An upload that cannot be
    stored is answered with a server error, one for a device that is not
    registered with 404, and both leave the database as it was. *)
Theorem telemetry_stores_one_row_per_event (payload : TelemetryIn.t) (now : Z)
        (uuid4 : nat -> string) (utcnow : nat -> Z) (s : Server.db) :
  (forall dev,
      Server.devices s !! TelemetryIn.agent_id payload = Some dev ->
      storable payload uuid4 s dev ->
      Server.events (Server.receive_telemetry payload now uuid4 utcnow s).1
      = Server.events s
        ++ imap (fun j e =>
             SecurityEvent.mk (uuid4 j) (TelemetryIn.agent_id payload)
               (Some (utcnow j)) (EventIn.type e)
               (if EventIn.weight e >? 60 then "CRITICAL" else "NORMAL")
               (EventIn.description e) (EventIn.weight e) (EventIn.metadata e))
             (TelemetryIn.events payload))
  /\ (forall dev,
        Server.devices s !! TelemetryIn.agent_id payload = Some dev ->
        ~ storable payload uuid4 s dev ->
        Server.receive_telemetry payload now uuid4 utcnow s
        = (s, HTTPException 500))
  /\ (Server.devices s !! TelemetryIn.agent_id payload = None ->
      Server.receive_telemetry payload now uuid4 utcnow s
      = (s, HTTPException 404)).
Proof.
  rewrite receive_telemetry_spec.
  split; [| split].
  - intros dev Hdev Hst. rewrite Hdev.
    apply (flushes_spec payload uuid4 utcnow) in Hst. now rewrite Hst.
  - intros dev Hdev Hst. rewrite Hdev.
    destruct (Server.flushes _ _ _) eqn:Hfl; [| reflexivity].
    exfalso. now apply Hst, (flushes_spec payload uuid4 utcnow).
  - now intros ->.
Qed.

Lemma telemetry_stores_one_row_per_event_witness :
  storable (sample_upload [15; 70]) sample_uuid4 (sample_db 30) (sample_device 30)
  /\ Server.events
       (Server.receive_telemetry (sample_upload [15; 70]) sample_time
          sample_uuid4 sample_utcnow (sample_db 30)).1
     = Server.events (sample_db 30)
       ++ imap (fun j e =>
            SecurityEvent.mk (sample_uuid4 j)
              (TelemetryIn.agent_id (sample_upload [15; 70]))
              (Some (sample_utcnow j)) (EventIn.type e)
              (if EventIn.weight e >? 60 then "CRITICAL" else "NORMAL")
              (EventIn.description e) (EventIn.weight e) (EventIn.metadata e))
            (TelemetryIn.events (sample_upload [15; 70])).
Proof.
  assert (Hst : storable (sample_upload [15; 70]) sample_uuid4 (sample_db 30)
                         (sample_device 30))
    by (apply sample_upload_storable; vm_compute; reflexivity).
  split; [exact Hst |].
  apply (proj1 (telemetry_stores_one_row_per_event (sample_upload [15; 70])
                  sample_time sample_uuid4 sample_utcnow (sample_db 30))
               (sample_device 30));
    [reflexivity | exact Hst].
Defined.

(** X16. An upload that the database takes writes the row of the
    uploading device only: that row becomes ONLINE with the time of the
    upload as heartbeat and the uploaded work statistics, and keeps its
    host name, system, address, employee, department, policy, stored
    predictive score and registration time; the answer carries the stored
    policy; the other devices and the commands are as before. *)
Theorem telemetry_writes_only_the_uploader (payload : TelemetryIn.t) (now : Z)
        (uuid4 : nat -> string) (utcnow : nat -> Z) (s : Server.db)
        (dev : Device.t) :
  Server.devices s !! TelemetryIn.agent_id payload = Some dev ->
  storable payload uuid4 s dev ->
  exists dev',
    Server.devices (Server.receive_telemetry payload now uuid4 utcnow s).1
      !! TelemetryIn.agent_id payload = Some dev'
    /\ (Server.receive_telemetry payload now uuid4 utcnow s).2
       = OK (Device.policy dev)
    /\ Device.status dev' = "ONLINE"
    /\ Device.last_heartbeat dev' = now
    /\ Device.work_stats dev' = TelemetryIn.work_stats payload
    /\ Device.policy dev' = Device.policy dev
    /\ Device.hostname dev' = Device.hostname dev
    /\ Device.os_info dev' = Device.os_info dev
    /\ Device.ip_address dev' = Device.ip_address dev
    /\ Device.employee_name dev' = Device.employee_name dev
    /\ Device.department dev' = Device.department dev
    /\ Device.predictive_risk_score dev' = Device.predictive_risk_score dev
    /\ Device.registered_at dev' = Device.registered_at dev
    /\ (forall id, id <> TelemetryIn.agent_id payload ->
          Server.devices (Server.receive_telemetry payload now uuid4 utcnow s).1
            !! id
          = Server.devices s !! id)
    /\ Server.commands (Server.receive_telemetry payload now uuid4 utcnow s).1
       = Server.commands s.
Proof.
  intros Hdev Hst. apply (flushes_spec payload uuid4 utcnow) in Hst.
  rewrite receive_telemetry_spec, Hdev, Hst. simpl.
  eexists. split; [apply lookup_insert_eq |]. simpl.
  do 12 (split; [reflexivity |]). split; [| reflexivity].
  intros id Hne. now rewrite lookup_insert_ne.
Qed.

Lemma telemetry_writes_only_the_uploader_witness :
  exists dev',
    Server.devices
      (Server.receive_telemetry (sample_upload [15; 40]) (sample_time + 9)
         sample_uuid4 sample_utcnow (sample_db 30)).1
      !! TelemetryIn.agent_id (sample_upload [15; 40]) = Some dev'
    /\ (Server.receive_telemetry (sample_upload [15; 40]) (sample_time + 9)
          sample_uuid4 sample_utcnow (sample_db 30)).2
       = OK (Device.policy (sample_device 30))
    /\ Device.status dev' = "ONLINE"
    /\ Device.last_heartbeat dev' = sample_time + 9
    /\ Device.work_stats dev' = TelemetryIn.work_stats (sample_upload [15; 40])
    /\ Device.policy dev' = Device.policy (sample_device 30)
    /\ Device.hostname dev' = Device.hostname (sample_device 30)
    /\ Device.os_info dev' = Device.os_info (sample_device 30)
    /\ Device.ip_address dev' = Device.ip_address (sample_device 30)
    /\ Device.employee_name dev' = Device.employee_name (sample_device 30)
    /\ Device.department dev' = Device.department (sample_device 30)
    /\ Device.predictive_risk_score dev'
       = Device.predictive_risk_score (sample_device 30)
    /\ Device.registered_at dev' = Device.registered_at (sample_device 30)
    /\ (forall id, id <> TelemetryIn.agent_id (sample_upload [15; 40]) ->
          Server.devices
            (Server.receive_telemetry (sample_upload [15; 40]) (sample_time + 9)
               sample_uuid4 sample_utcnow (sample_db 30)).1 !! id
          = Server.devices (sample_db 30) !! id)
    /\ Server.commands
         (Server.receive_telemetry (sample_upload [15; 40]) (sample_time + 9)
            sample_uuid4 sample_utcnow (sample_db 30)).1
       = Server.commands (sample_db 30).
Proof.
  apply (telemetry_writes_only_the_uploader (sample_upload [15; 40])
           (sample_time + 9) sample_uuid4 sample_utcnow (sample_db 30)
           (sample_device 30)).
  - reflexivity.
  - apply sample_upload_storable. vm_compute. reflexivity.
Defined.

(** X17. When no uploaded weight is negative, the stored score is at
    most 100 and the database takes the upload, the clamp of the loop
    binds at most once: the new score is the smaller of 100 and the old
    score plus the sum of the weights, so the order of the events in the
    upload does not matter to it. *)
Theorem telemetry_score_is_clamped_total (payload : TelemetryIn.t) (now : Z)
        (uuid4 : nat -> string) (utcnow : nat -> Z) (s : Server.db)
        (dev : Device.t) :
  Server.devices s !! TelemetryIn.agent_id payload = Some dev ->
  Device.risk_score dev <= 100 ->
  Forall (fun w => 0 <= w) (weights payload) ->
  storable payload uuid4 s dev ->
  score_of (TelemetryIn.agent_id payload)
           (Server.receive_telemetry payload now uuid4 utcnow s).1
  = Some (Z.min 100 (Device.risk_score dev + total (weights payload))).
Proof.
  intros Hdev Hle Hpos Hst. apply (flushes_spec payload uuid4 utcnow) in Hst.
  rewrite (receive_telemetry_score payload now uuid4 utcnow s dev Hdev), Hst.
  now rewrite clamped_sum_total.
Qed.

Lemma telemetry_score_is_clamped_total_witness :
  score_of (TelemetryIn.agent_id (sample_upload [15; 40; 45]))
           (Server.receive_telemetry (sample_upload [15; 40; 45]) sample_time
              sample_uuid4 sample_utcnow (sample_db 30)).1
  = Some (Z.min 100 (Device.risk_score (sample_device 30)
                     + total (weights (sample_upload [15; 40; 45])))).
Proof.
  apply (telemetry_score_is_clamped_total (sample_upload [15; 40; 45])
           sample_time sample_uuid4 sample_utcnow (sample_db 30)
           (sample_device 30)).
  - reflexivity.
  - simpl. lia.
  - repeat constructor; simpl; lia.
  - apply sample_upload_storable. vm_compute. reflexivity.
Defined.

(** X18. Nothing lowers a score and nothing removes a device. From a
    database whose scores are at most 100, and through any sequence of
    requests that upload no negative weight, a registered device stays
    registered under the host name, system, address and registration time
    it has, and its score never goes down (and stays at most 100): no
    endpoint resets or decays it. *)
Theorem risk_score_never_decreases (secret : string) (rs : list Server.request)
        (s : Server.db) (id : string) (dev : Device.t) :
  risk_bounded s -> Forall nonneg_upload rs ->
  Server.devices s !! id = Some dev ->
  exists dev',
    Server.devices (Server.handle_all secret s rs) !! id = Some dev'
    /\ Device.risk_score dev <= Device.risk_score dev' <= 100
    /\ Device.hostname dev' = Device.hostname dev
    /\ Device.os_info dev' = Device.os_info dev
    /\ Device.ip_address dev' = Device.ip_address dev
    /\ Device.registered_at dev' = Device.registered_at dev.
Proof.
  intros Hs Hrs Hdev. now apply handle_all_device_kept.
Qed.

Lemma risk_score_never_decreases_witness :
  exists dev',
    Server.devices
      (Server.handle_all default_secret (sample_db 30)
         [Server.ReceiveTelemetry (sample_upload [15; 40]) sample_time sample_uuid4
            sample_utcnow;
          Server.RegisterAgent {["agent_id" := "dev-1"]} "10.9.9.9" sample_time;
          Server.UpdatePolicy "dev-1" (JObj [])]) !! "dev-1" = Some dev'
    /\ Device.risk_score (sample_device 30) <= Device.risk_score dev' <= 100
    /\ Device.hostname dev' = Device.hostname (sample_device 30)
    /\ Device.os_info dev' = Device.os_info (sample_device 30)
    /\ Device.ip_address dev' = Device.ip_address (sample_device 30)
    /\ Device.registered_at dev' = Device.registered_at (sample_device 30).
Proof.
  apply (risk_score_never_decreases default_secret
           [Server.ReceiveTelemetry (sample_upload [15; 40]) sample_time sample_uuid4
            sample_utcnow;
            Server.RegisterAgent {["agent_id" := "dev-1"]} "10.9.9.9" sample_time;
            Server.UpdatePolicy "dev-1" (JObj [])]
           (sample_db 30) "dev-1" (sample_device 30)).
  - intros id dev H. unfold sample_db in H. simpl in H.
    apply lookup_singleton_Some in H as [_ <-]. simpl. lia.
  - constructor; [| constructor; [exact I | constructor; [exact I | constructor]]].
    simpl. repeat constructor; simpl; lia.
  - reflexivity.
Defined.

(** X19. Whatever requests the server has handled since the empty
    database, every device row is ONLINE, has the stored predictive score
    0, the employee name and the department of the insert, and a non-empty
    id: no endpoint ever writes another status, and none writes the other
    three columns. *)
Theorem devices_stay_as_inserted (secret : string) (rs : list Server.request)
        (id : string) (dev : Device.t) :
  Server.devices (Server.handle_all secret empty_db rs) !! id = Some dev ->
  Device.status dev = "ONLINE"
  /\ Device.predictive_risk_score dev = 0
  /\ Device.employee_name dev = "Auto-Identified Agent"
  /\ Device.department dev = "Infrastructure"
  /\ id <> "".
Proof.
  intros Hdev.
  destruct (handle_all_devices_as_inserted secret rs empty_db) with (id := id) (dev := dev)
    as [(? & ? & ? & ?) ?]; auto.
  intros id0 dev0 H. inversion H.
Qed.

Lemma devices_stay_as_inserted_witness :
  Device.status (sample_device 0) = "ONLINE"
  /\ Device.predictive_risk_score (sample_device 0) = 0
  /\ Device.employee_name (sample_device 0) = "Auto-Identified Agent"
  /\ Device.department (sample_device 0) = "Infrastructure"
  /\ "dev-1" <> "".
Proof.
  apply (devices_stay_as_inserted default_secret
           [Server.RegisterAgent
              {["agent_id" := "dev-1"; "hostname" := "PC"; "os_info" := "Windows 11"]}
              "10.0.0.7" sample_time]
           "dev-1" (sample_device 0)).
  reflexivity.
Defined.

(** * The monitors *)

(** ** Dicts *)

Lemma member_store_eq (key : string) (v : json) (m : list (string * json)) :
  PyDict.member key (PyDict.store key v m) = Some v.
Proof.
  induction m as [| [k v0] m IH]; simpl.
  - now rewrite String.eqb_refl.
  - destruct (String.eqb k key) eqn:E; simpl; now rewrite E.
Qed.

Lemma member_store_ne (key key' : string) (v : json) (m : list (string * json)) :
  key' <> key ->
  PyDict.member key' (PyDict.store key v m) = PyDict.member key' m.
Proof.
  intros Hne. induction m as [| [k v0] m IH]; simpl.
  - destruct (String.eqb key key') eqn:E; [| reflexivity].
    apply String.eqb_eq in E. congruence.
  - destruct (String.eqb k key) eqn:E; simpl.
    + apply String.eqb_eq in E. subst k.
      destruct (String.eqb key key') eqn:E'; [| reflexivity].
      apply String.eqb_eq in E'. congruence.
    + destruct (String.eqb k key'); [reflexivity | exact IH].
Qed.

(** [d[key] += n] on an integer counter. *)
Lemma iadd_counter (key : string) (n d : Z) (self : Agent.IVECGuardAgent) :
  counter key self = Some n ->
  exists ws,
    PyDict.iadd key d (Agent.work_stats self) = Returns ws
    /\ counter key (Monitor.set_work_stats ws self) = Some (n + d)
    /\ forall key', key' <> key ->
         PyDict.lookup key' ws = PyDict.lookup key' (Agent.work_stats self).
Proof.
  unfold counter, PyDict.iadd, PyDict.lookup. simpl.
  destruct (Agent.work_stats self) as [| | | | |m]; try discriminate.
  destruct (PyDict.member key m) as [[| | v | | |]|] eqn:Hm; try discriminate.
  intros [= ->]. eexists. split; [reflexivity |]. split.
  - now rewrite member_store_eq.
  - intros key' Hne. now apply member_store_ne.
Qed.

Lemma counter_frame (key : string) (self self' : Agent.IVECGuardAgent) :
  PyDict.lookup key (Agent.work_stats self')
  = PyDict.lookup key (Agent.work_stats self) ->
  counter key self' = counter key self.
Proof. unfold counter. now intros ->. Qed.

(** ** The print monitor *)

Section PrintMonitor.
Variable JOB_STATUS_PRINTED : Z.

Lemma grows_refl (self : Agent.IVECGuardAgent) (n : Z) :
  counter "printCount" self = Some n -> grows self self n [].
Proof.
  intros Hn. unfold grows. rewrite app_nil_r. simpl. rewrite Z.add_0_r.
  repeat split; auto.
Qed.

Lemma total_app (xs ys : list Z) : total (xs ++ ys) = total xs + total ys.
Proof. unfold total. induction xs; simpl; lia. Qed.

Lemma grows_trans (self self1 self2 : Agent.IVECGuardAgent) (n : Z)
      (new1 new2 : list json) :
  grows self self1 n new1 ->
  grows self1 self2 (n + total (map event_pages new1)) new2 ->
  grows self self2 n (new1 ++ new2).
Proof.
  intros (Hq1 & Hc1 & Hf1 & Hp1 & Hk1) (Hq2 & Hc2 & Hf2 & Hp2 & Hk2).
  unfold grows. rewrite Hq2, Hq1, app_assoc, map_app, total_app, Z.add_assoc.
  split; [reflexivity |]. split; [exact Hc2 |].
  split; [now apply Forall_app |]. split; [congruence |].
  intros key Hkey. now rewrite Hk2, Hk1.
Qed.

Lemma counted_pages_nonzero (j : Monitor.job) (pages : Z) :
  Monitor.counted_pages JOB_STATUS_PRINTED j = Some pages -> pages <> 0.
Proof.
  unfold Monitor.counted_pages.
  destruct (default 0 (Monitor.TotalPages j) =? 0) eqn:E.
  - destruct (negb _); intros [= <-]. discriminate.
  - intros [= <-]. now apply Z.eqb_neq.
Qed.

(** The body of the loop over the jobs, when the print count is an
    integer. *)
Lemma log_job_spec (name : string) (j : Monitor.job) (self : Agent.IVECGuardAgent)
      (L : gset string) (n : Z) :
  counter "printCount" self = Some n ->
  exists self' L' new,
    Monitor.log_job JOB_STATUS_PRINTED name j (self, L) = ((self', L'), Returns tt)
    /\ grows self self' n new
    /\ L ⊆ L' /\ settled JOB_STATUS_PRINTED L' name j.
Proof.
  intros Hn. unfold Monitor.log_job.
  destruct (decide (Monitor.jid name j ∈ L)) as [Hin|Hnin].
  { exists self, L, []. split; [reflexivity |].
    split; [now apply grows_refl |]. split; [reflexivity | now left]. }
  destruct (Monitor.counted_pages JOB_STATUS_PRINTED j) as [pages|] eqn:Hpages.
  2:{ exists self, L, []. split; [reflexivity |].
      split; [now apply grows_refl |]. split; [reflexivity | now right]. }
  set (self1 := Agent.log_event "PRINT" ("Document: " +:+ Monitor.pDocument j)
                  (if pages <? 10 then 15 else 40)
                  (JObj [("pages", JInt pages)]) self).
  assert (Hn1 : counter "printCount" self1 = Some n) by exact Hn.
  destruct (iadd_counter "printCount" n pages self1 Hn1) as (ws & Hws & Hc & Hk).
  rewrite Hws.
  exists (Monitor.set_work_stats ws self1), ({[Monitor.jid name j]} ∪ L),
    [print_event (Monitor.pDocument j) pages].
  split; [reflexivity |]. split; [| split; [set_solver | left; set_solver]].
  unfold grows. split; [reflexivity |]. split.
  - rewrite Hc. unfold total, event_pages, print_event. simpl.
    now rewrite Z.add_0_r.
  - split.
    + constructor; [| constructor]. exists (Monitor.pDocument j), pages.
      split; [reflexivity |]. eapply counted_pages_nonzero, Hpages.
    + split; [reflexivity |]. intros key Hkey. simpl. now apply Hk.
Qed.

Lemma settled_mono (L L' : gset string) (name : string) (j : Monitor.job) :
  L ⊆ L' -> settled JOB_STATUS_PRINTED L name j -> settled JOB_STATUS_PRINTED L' name j.
Proof. intros Hsub [Hin | Hnone]; [left; set_solver | now right]. Qed.

Lemma log_jobs_spec (name : string) (js : list Monitor.job) :
  forall (self : Agent.IVECGuardAgent) (L : gset string) (n : Z),
    counter "printCount" self = Some n ->
    exists self' L' new,
      Monitor.log_jobs JOB_STATUS_PRINTED name js (self, L) = ((self', L'), Returns tt)
      /\ grows self self' n new
      /\ L ⊆ L' /\ Forall (settled JOB_STATUS_PRINTED L' name) js.
Proof.
  induction js as [|j js IH]; intros self L n Hn.
  - exists self, L, []. split; [reflexivity |].
    split; [now apply grows_refl |]. split; [reflexivity | constructor].
  - destruct (log_job_spec name j self L n Hn)
      as (self1 & L1 & new1 & Hrun1 & Hg1 & Hsub1 & Hs1).
    pose proof Hg1 as (_ & Hc1 & _).
    destruct (IH self1 L1 _ Hc1) as (self2 & L2 & new2 & Hrun2 & Hg2 & Hsub2 & Hs2).
    exists self2, L2, (new1 ++ new2).
    split; [cbn [Monitor.log_jobs]; rewrite Hrun1; exact Hrun2 |].
    split; [now apply (grows_trans self self1 self2) |].
    split; [set_solver |].
    constructor; [now apply (settled_mono L1) | exact Hs2].
Qed.

Lemma quiet_mono (ps : list Monitor.printer) :
  forall L L' : gset string, L ⊆ L' -> quiet JOB_STATUS_PRINTED L ps -> quiet JOB_STATUS_PRINTED L' ps.
Proof.
  induction ps as [|p ps IH]; intros L L' Hsub; simpl; [auto |].
  destruct (Monitor.jobs p) as [js|]; [| auto].
  intros [Hjs Hrest]. split.
  - eapply Forall_impl; [exact Hjs |]. intros j. now apply settled_mono.
  - destruct Hrest as [Hc | Hq]; [now left | right; now apply (IH L)].
Qed.

(** A round logs what it sees; a second look at the printers it got as
    far as finds nothing to log. *)
Lemma scan_printers_spec (ps : list Monitor.printer) :
  forall (self : Agent.IVECGuardAgent) (L : gset string) (n : Z),
    counter "printCount" self = Some n ->
    exists self' L' new o,
      Monitor.scan_printers JOB_STATUS_PRINTED ps (self, L) = ((self', L'), o)
      /\ grows self self' n new
      /\ L ⊆ L' /\ quiet JOB_STATUS_PRINTED L' ps.
Proof.
  induction ps as [|p ps IH]; intros self L n Hn.
  - exists self, L, [], (Returns tt). split; [reflexivity |].
    split; [now apply grows_refl |]. split; [reflexivity | exact I].
  - cbn [Monitor.scan_printers quiet]. unfold Monitor.scan_printer.
    destruct (Monitor.jobs p) as [js|] eqn:Hjobs.
    2:{ exists self, L, [], Raises. split; [reflexivity |].
        split; [now apply grows_refl |]. split; [reflexivity | exact I]. }
    destruct (log_jobs_spec (Monitor.pPrinterName p) js self L n Hn)
      as (self1 & L1 & new1 & Hrun1 & Hg1 & Hsub1 & Hs1).
    rewrite Hrun1.
    destruct (Monitor.close_raises p) eqn:Hclose.
    { exists self1, L1, new1, Raises. split; [reflexivity |].
      split; [exact Hg1 |]. split; [exact Hsub1 |]. split; [exact Hs1 | now left]. }
    pose proof Hg1 as (_ & Hc1 & _).
    destruct (IH self1 L1 _ Hc1)
      as (self2 & L2 & new2 & o & Hrun2 & Hg2 & Hsub2 & Hq2).
    exists self2, L2, (new1 ++ new2), o. split; [exact Hrun2 |].
    split; [now apply (grows_trans self self1 self2) |].
    split; [set_solver |]. split; [| now right].
    eapply Forall_impl; [exact Hs1 |]. intros j. now apply settled_mono.
Qed.

Lemma log_jobs_settled (name : string) (js : list Monitor.job)
      (st : Monitor.state) :
  Forall (settled JOB_STATUS_PRINTED st.2 name) js ->
  Monitor.log_jobs JOB_STATUS_PRINTED name js st = (st, Returns tt).
Proof.
  destruct st as [self L]. simpl.
  induction 1 as [|j js Hj _ IH]; simpl; [reflexivity |].
  destruct (decide (Monitor.jid name j ∈ L)) as [Hin|Hnin]; [exact IH |].
  destruct Hj as [Hin | ->]; [contradiction | exact IH].
Qed.

Lemma scan_printers_quiet (ps : list Monitor.printer) (st : Monitor.state) :
  quiet JOB_STATUS_PRINTED st.2 ps -> (Monitor.scan_printers JOB_STATUS_PRINTED ps st).1 = st.
Proof.
  induction ps as [|p ps IH]; simpl; [reflexivity |].
  unfold Monitor.scan_printer.
  destruct (Monitor.jobs p) as [js|]; [| reflexivity].
  intros [Hjs Hrest]. rewrite (log_jobs_settled _ js st Hjs).
  destruct (Monitor.close_raises p); [reflexivity |].
  destruct Hrest as [[=] | Hq]. now apply IH.
Qed.

(** One round, whatever the policy and whatever raises. *)
Lemma monitor_printing_spec (printers : outcome (list Monitor.printer))
      (self : Agent.IVECGuardAgent) (L : gset string) (n : Z) :
  counter "printCount" self = Some n ->
  exists self' L' new o,
    Monitor.monitor_printing JOB_STATUS_PRINTED printers (self, L) = ((self', L'), o)
    /\ grows self self' n new /\ L ⊆ L'
    /\ (Monitor.monitor_printing JOB_STATUS_PRINTED printers (self', L')).1 = (self', L').
Proof.
  intros Hn. unfold Monitor.monitor_printing. simpl.
  destruct (PyDict.get "printMonitoring" (JBool true) (Agent.policy self))
    as [enabled|] eqn:Hpol.
  2:{ exists self, L, [], Raises. split; [reflexivity |].
      split; [now apply grows_refl |]. split; [reflexivity |].
      simpl. now rewrite Hpol. }
  destruct (negb (PyDict.truth enabled)) eqn:Hen.
  { exists self, L, [], (Returns tt). split; [reflexivity |].
    split; [now apply grows_refl |]. split; [reflexivity |].
    simpl. now rewrite Hpol, Hen. }
  destruct printers as [ps|].
  2:{ exists self, L, [], (Returns tt). split; [reflexivity |].
      split; [now apply grows_refl |]. split; [reflexivity |].
      simpl. now rewrite Hpol, Hen. }
  destruct (scan_printers_spec ps self L n Hn)
    as (self' & L' & new & o & Hrun & Hg & Hsub & Hq).
  exists self', L', new, (Returns tt). rewrite Hrun. simpl.
  split; [reflexivity |]. split; [exact Hg |]. split; [exact Hsub |].
  destruct Hg as (_ & _ & _ & Hp & _). rewrite Hp, Hpol, Hen.
  now rewrite (scan_printers_quiet ps (self', L') Hq).
Qed.

End PrintMonitor.

(** X20. The print count follows the queue. In one round of the print
    monitor, whatever the policy, whatever the spooler reports and
    whichever of its calls raises, what is queued are print events (type
    PRINT, the document in the description, weight 15 below ten pages and
    40 from ten on, the pages in the metadata, never zero), and the print
    count grows by exactly the pages of the events queued; the other
    statistics and the policy stay, and no job leaves the set of logged
    jobs. This holds from a print count that is an integer, as the start of
    the agent makes it. *)
Theorem print_round_accounts_for_pages (JOB_STATUS_PRINTED : Z)
        (printers : outcome (list Monitor.printer))
        (self : Agent.IVECGuardAgent) (L : gset string) (n : Z) :
  counter "printCount" self = Some n ->
  exists new,
    Agent.event_queue
      (Monitor.monitor_printing JOB_STATUS_PRINTED printers (self, L)).1.1
    = Agent.event_queue self ++ new
    /\ counter "printCount"
         (Monitor.monitor_printing JOB_STATUS_PRINTED printers (self, L)).1.1
       = Some (n + total (map event_pages new))
    /\ Forall (fun e => exists doc pages,
                 e = print_event doc pages /\ pages <> 0) new
    /\ (forall key, key <> "printCount" ->
          PyDict.lookup key
            (Agent.work_stats
               (Monitor.monitor_printing JOB_STATUS_PRINTED printers (self, L)).1.1)
          = PyDict.lookup key (Agent.work_stats self))
    /\ Agent.policy
         (Monitor.monitor_printing JOB_STATUS_PRINTED printers (self, L)).1.1
       = Agent.policy self
    /\ L ⊆ (Monitor.monitor_printing JOB_STATUS_PRINTED printers (self, L)).1.2.
Proof.
  intros Hn.
  destruct (monitor_printing_spec JOB_STATUS_PRINTED printers self L n Hn)
    as (self' & L' & new & o & -> & (Hq & Hc & Hf & Hp & Hk) & Hsub & _).
  exists new. simpl. auto 10.
Qed.

Lemma print_round_accounts_for_pages_witness :
  exists new,
    Agent.event_queue
      (Monitor.monitor_printing 128 (Returns sample_printers)
         (sample_monitored, ∅)).1.1
    = Agent.event_queue sample_monitored ++ new
    /\ counter "printCount"
         (Monitor.monitor_printing 128 (Returns sample_printers)
            (sample_monitored, ∅)).1.1
       = Some (4 + total (map event_pages new))
    /\ Forall (fun e => exists doc pages,
                 e = print_event doc pages /\ pages <> 0) new
    /\ (forall key, key <> "printCount" ->
          PyDict.lookup key
            (Agent.work_stats
               (Monitor.monitor_printing 128 (Returns sample_printers)
                  (sample_monitored, ∅)).1.1)
          = PyDict.lookup key (Agent.work_stats sample_monitored))
    /\ Agent.policy
         (Monitor.monitor_printing 128 (Returns sample_printers)
            (sample_monitored, ∅)).1.1
       = Agent.policy sample_monitored
    /\ ∅ ⊆ (Monitor.monitor_printing 128 (Returns sample_printers)
              (sample_monitored, ∅)).1.2.
Proof.
  apply (print_round_accounts_for_pages 128 (Returns sample_printers)
           sample_monitored ∅ 4).
  reflexivity.
Defined.

(** X21. A job is logged once. When a round of the print monitor is
    followed by a round in which the spooler reports the same printers and
    jobs, the second round queues nothing and counts nothing: the jobs the
    first round logged are in the set of logged jobs, and those it passed
    over (no page yet and not marked printed) are passed over again. *)
Theorem print_round_logs_a_job_once (JOB_STATUS_PRINTED : Z)
        (printers : outcome (list Monitor.printer))
        (self : Agent.IVECGuardAgent) (L : gset string) (n : Z) :
  counter "printCount" self = Some n ->
  (Monitor.monitor_printing JOB_STATUS_PRINTED printers
     (Monitor.monitor_printing JOB_STATUS_PRINTED printers (self, L)).1).1
  = (Monitor.monitor_printing JOB_STATUS_PRINTED printers (self, L)).1.
Proof.
  intros Hn.
  destruct (monitor_printing_spec JOB_STATUS_PRINTED printers self L n Hn)
    as (self' & L' & new & o & -> & _ & _ & Hagain).
  exact Hagain.
Qed.

Lemma print_round_logs_a_job_once_witness :
  (Monitor.monitor_printing 128 (Returns sample_printers)
     (Monitor.monitor_printing 128 (Returns sample_printers)
        (sample_monitored, ∅)).1).1
  = (Monitor.monitor_printing 128 (Returns sample_printers)
       (sample_monitored, ∅)).1.
Proof.
  apply (print_round_logs_a_job_once 128 (Returns sample_printers)
           sample_monitored ∅ 4).
  reflexivity.
Defined.

(** ** The idle monitor *)

(** One round of the idle monitor, from integer counters. *)
Lemma monitor_idle_precise_spec (ok : bool) (tick dwTime : Z)
      (self : Agent.IVECGuardAgent) (u a i : Z) :
  counter "uptime" self = Some u ->
  counter "activeTime" self = Some a ->
  counter "idleTime" self = Some i ->
  exists u' a' i',
    counter "uptime" (Monitor.monitor_idle_precise ok tick dwTime self).1 = Some u'
    /\ counter "activeTime" (Monitor.monitor_idle_precise ok tick dwTime self).1
       = Some a'
    /\ counter "idleTime" (Monitor.monitor_idle_precise ok tick dwTime self).1
       = Some i'
    /\ u' = u + (if switched_on "idleTracking" self then 1 else 0)
    /\ a' + i' = a + i + (if switched_on "idleTracking" self then 1 else 0)
    /\ a <= a' /\ i <= i'
    /\ Agent.event_queue (Monitor.monitor_idle_precise ok tick dwTime self).1
       = Agent.event_queue self
    /\ (forall key, key <> "uptime" -> key <> "activeTime" -> key <> "idleTime" ->
          PyDict.lookup key
            (Agent.work_stats (Monitor.monitor_idle_precise ok tick dwTime self).1)
          = PyDict.lookup key (Agent.work_stats self)).
Proof.
  intros Hu Ha Hi. unfold Monitor.monitor_idle_precise, switched_on.
  destruct (PyDict.get "idleTracking" (JBool true) (Agent.policy self))
    as [enabled|]; simpl.
  2:{ exists u, a, i. repeat (split; [assumption || lia |]). split; reflexivity. }
  destruct (PyDict.truth enabled); simpl.
  2:{ exists u, a, i. repeat (split; [assumption || lia |]). split; reflexivity. }
  destruct (iadd_counter "uptime" u 1 self Hu) as (ws1 & -> & Hu1 & Hk1).
  assert (Ha1 : counter "activeTime" (Monitor.set_work_stats ws1 self) = Some a).
  { rewrite <- Ha. apply counter_frame, Hk1. discriminate. }
  assert (Hi1 : counter "idleTime" (Monitor.set_work_stats ws1 self) = Some i).
  { rewrite <- Hi. apply counter_frame, Hk1. discriminate. }
  cbn zeta. cbn [Agent.work_stats Monitor.set_work_stats].
  destruct (PrimFloat.ltb (PyFloat.of_int 60) (get_idle_duration ok tick dwTime)).
  - destruct (iadd_counter "idleTime" i 1 _ Hi1) as (ws2 & Hws2 & Hi2 & Hk2).
    cbn [Agent.work_stats Monitor.set_work_stats] in Hws2, Hk2. rewrite Hws2.
    exists (u + 1), a, (i + 1). simpl.
    split; [rewrite <- Hu1; apply counter_frame, Hk2; discriminate |].
    split; [rewrite <- Ha1; apply counter_frame, Hk2; discriminate |].
    split; [exact Hi2 |]. repeat (split; [lia |]). split; [reflexivity |].
    intros key K1 K2 K3. now rewrite Hk2, Hk1.
  - destruct (iadd_counter "activeTime" a 1 _ Ha1) as (ws2 & Hws2 & Ha2 & Hk2).
    cbn [Agent.work_stats Monitor.set_work_stats] in Hws2, Hk2. rewrite Hws2.
    exists (u + 1), (a + 1), i. simpl.
    split; [rewrite <- Hu1; apply counter_frame, Hk2; discriminate |].
    split; [exact Ha2 |].
    split; [rewrite <- Hi1; apply counter_frame, Hk2; discriminate |].
    repeat (split; [lia |]). split; [reflexivity |].
    intros key K1 K2 K3. now rewrite Hk2, Hk1.
Qed.

(** X22. The seconds add up. In one round of the idle monitor, from
    statistics whose three counters are integers, the uptime grows by one
    when idle tracking is switched on in the policy and not at all
    otherwise, and the active time and the idle time together grow by as
    much, neither of them going down: uptime = activeTime + idleTime is
    kept, whatever the tick counter and the time of the last input are.
    The round queues no event. *)
Theorem idle_round_keeps_the_seconds (ok : bool) (tick dwTime : Z)
        (self : Agent.IVECGuardAgent) (u a i : Z) :
  counter "uptime" self = Some u ->
  counter "activeTime" self = Some a ->
  counter "idleTime" self = Some i ->
  exists u' a' i',
    counter "uptime" (Monitor.monitor_idle_precise ok tick dwTime self).1 = Some u'
    /\ counter "activeTime" (Monitor.monitor_idle_precise ok tick dwTime self).1
       = Some a'
    /\ counter "idleTime" (Monitor.monitor_idle_precise ok tick dwTime self).1
       = Some i'
    /\ u' = u + (if switched_on "idleTracking" self then 1 else 0)
    /\ a' + i' = a + i + (if switched_on "idleTracking" self then 1 else 0)
    /\ a <= a' /\ i <= i'
    /\ Agent.event_queue (Monitor.monitor_idle_precise ok tick dwTime self).1
       = Agent.event_queue self.
Proof.
  intros Hu Ha Hi.
  destruct (monitor_idle_precise_spec ok tick dwTime self u a i Hu Ha Hi)
    as (u' & a' & i' & H1 & H2 & H3 & H4 & H5 & H6 & H7 & H8 & _).
  exists u', a', i'. auto 10.
Qed.

Lemma idle_round_keeps_the_seconds_witness :
  exists u' a' i',
    counter "uptime" (Monitor.monitor_idle_precise true 200000 100000
                        sample_monitored).1 = Some u'
    /\ counter "activeTime" (Monitor.monitor_idle_precise true 200000 100000
                               sample_monitored).1 = Some a'
    /\ counter "idleTime" (Monitor.monitor_idle_precise true 200000 100000
                             sample_monitored).1 = Some i'
    /\ u' = 9 + (if switched_on "idleTracking" sample_monitored then 1 else 0)
    /\ a' + i' = 7 + 2 + (if switched_on "idleTracking" sample_monitored then 1 else 0)
    /\ 7 <= a' /\ 2 <= i'
    /\ Agent.event_queue (Monitor.monitor_idle_precise true 200000 100000
                            sample_monitored).1
       = Agent.event_queue sample_monitored.
Proof.
  apply (idle_round_keeps_the_seconds true 200000 100000 sample_monitored 9 7 2);
    reflexivity.
Defined.

(** ** What the monitors log, on the server *)

(** X23. No event of the monitors is critical. What a round of the print
    monitor or of the USB monitor queues is a dict with the four keys of
    an event whose weight is 15, 40 or 45; the row the server stores for an
    event of that type, description, weight and metadata has the severity
    NORMAL, the threshold of CRITICAL being a weight above 60. *)
Theorem monitor_events_are_stored_normal (JOB_STATUS_PRINTED : Z)
        (printers : outcome (list Monitor.printer)) (usb : outcome string)
        (self : Agent.IVECGuardAgent) (L : gset string) (n : Z) (e : json)
        (agent_id : string) (now : Z) (uuid : string) (dev : Device.t) :
  counter "printCount" self = Some n ->
  e ∈ logged self
        (Monitor.monitor_printing JOB_STATUS_PRINTED printers (self, L)).1.1
  \/ e ∈ logged self (Monitor.monitor_usb usb self).1 ->
  exists etype desc weight meta,
    e = JObj [("type", JStr etype); ("description", JStr desc);
              ("weight", JInt weight); ("metadata", meta)]
    /\ (weight = 15 \/ weight = 40 \/ weight = 45)
    /\ SecurityEvent.severity
         (Server.ingest_event agent_id now uuid dev
            (EventIn.mk etype desc weight meta)).2 = "NORMAL".
Proof.
  intros Hn [Hin | Hin].
  - destruct (monitor_printing_spec JOB_STATUS_PRINTED printers self L n Hn)
      as (self' & L' & new & o & Hrun & (Hq & _ & Hf & _) & _).
    rewrite Hrun in Hin. unfold logged in Hin. simpl in Hin.
    rewrite Hq, drop_app_length in Hin.
    rewrite Forall_forall in Hf. destruct (Hf e Hin) as (doc & pages & -> & _).
    unfold print_event. do 4 eexists. split; [reflexivity |].
    destruct (pages <? 10); simpl; auto.
  - unfold Monitor.monitor_usb, logged in Hin.
    destruct (PyDict.get "usbMonitoring" (JBool true) (Agent.policy self))
      as [enabled|]; simpl in Hin.
    2:{ rewrite drop_all in Hin. inversion Hin. }
    destruct (negb (PyDict.truth enabled)); simpl in Hin.
    { rewrite drop_all in Hin. inversion Hin. }
    destruct usb as [DeviceID|]; simpl in Hin.
    2:{ rewrite drop_all in Hin. inversion Hin. }
    rewrite drop_app_length in Hin. apply list_elem_of_singleton in Hin as ->.
    do 4 eexists. split; [reflexivity |]. simpl. auto.
Qed.

Lemma monitor_events_are_stored_normal_witness :
  exists etype desc weight meta,
    sample_event "USB_INSERT" "USB Mounted: USB\VID_0781" 45 (JObj [])
    = JObj [("type", JStr etype); ("description", JStr desc);
            ("weight", JInt weight); ("metadata", meta)]
    /\ (weight = 15 \/ weight = 40 \/ weight = 45)
    /\ SecurityEvent.severity
         (Server.ingest_event "dev-1" sample_time "u-0" (sample_device 0)
            (EventIn.mk etype desc weight meta)).2 = "NORMAL".
Proof.
  apply (monitor_events_are_stored_normal 128 (Returns sample_printers)
           (Returns "USB\VID_0781") sample_monitored ∅ 4
           (sample_event "USB_INSERT" "USB Mounted: USB\VID_0781" 45 (JObj []))
           "dev-1" sample_time "u-0" (sample_device 0)).
  - reflexivity.
  - right. vm_compute. left.
Defined.

(** * The sync loop beside the monitor threads *)

Lemma set_event_queue_enqueue_all (q during : list json) :
  forall self : Agent.IVECGuardAgent,
    Agent.set_event_queue q (fold_left (fun s e => Agent.enqueue e s) during self)
    = Agent.set_event_queue q self.
Proof.
  induction during as [|e during IH]; intros self; simpl; [reflexivity |].
  now rewrite IH.
Qed.

(** X24. Events logged while the upload is in flight are lost when it
    succeeds. The sync loop builds the upload from a copy of the queue and
    resets the queue when [requests.post] has returned, so an iteration
    during which the monitor threads log events while the request waits
    ends exactly as if they had logged nothing: the events are not in the
    upload, not in the queue, and not in the offline file. *)
Theorem events_logged_during_upload_are_lost {py : PyLib}
        (self : Agent.IVECGuardAgent) (offline_file : file) (w : world)
        (during : list json) (r : outcome json) :
  telemetry_reply w = Returns r ->
  sync_cycle_during self offline_file w during
  = Agent.sync_cycle self offline_file w.
Proof.
  intros Hr. unfold sync_cycle_during, Agent.sync_cycle. rewrite Hr.
  now rewrite set_event_queue_enqueue_all.
Qed.

Lemma events_logged_during_upload_are_lost_witness :
  sync_cycle_during (py := python_lib) (Agent.enqueue event_A sample_agent)
    None (reachable []) [event_B; event_C]
  = Agent.sync_cycle (py := python_lib) (Agent.enqueue event_A sample_agent)
      None (reachable []).
Proof.
  apply (events_logged_during_upload_are_lost (py := python_lib)
           (Agent.enqueue event_A sample_agent) None (reachable [])
           [event_B; event_C] (Returns (JObj []))).
  reflexivity.
Defined.

(** * The admin view of the devices *)

(** X25. The device list of the admin view has one entry per device row,
    under the id of the row. Whatever requests the server has handled
    since the empty database, the predictive score of an entry is the
    score plus 10, clamped to 100, so it lies between the score and 100;
    it is computed for the view, the stored predictive score is not shown;
    and the status of every entry is ONLINE. *)
Theorem get_devices_reports_every_device (secret : string)
        (rs : list Server.request) :
  length (Admin.get_devices (Server.handle_all secret empty_db rs))
  = size (Server.devices (Server.handle_all secret empty_db rs))
  /\ (forall id dev,
        Server.devices (Server.handle_all secret empty_db rs) !! id = Some dev ->
        Admin.device_out id dev
          ∈ Admin.get_devices (Server.handle_all secret empty_db rs))
  /\ (forall o,
        o ∈ Admin.get_devices (Server.handle_all secret empty_db rs) ->
        exists id dev p,
          Server.devices (Server.handle_all secret empty_db rs) !! id = Some dev
          /\ PyDict.lookup "id" o = Some (JStr id)
          /\ PyDict.lookup "riskScore" o = Some (JInt (Device.risk_score dev))
          /\ PyDict.lookup "predictiveRiskScore" o = Some (JInt p)
          /\ p = Z.min 100 (Device.risk_score dev + 10)
          /\ Device.risk_score dev <= p <= 100
          /\ PyDict.lookup "status" o = Some (JStr "ONLINE")).
Proof.
  set (s := Server.handle_all secret empty_db rs).
  unfold Admin.get_devices. split; [| split].
  - rewrite length_map. apply length_map_to_list.
  - intros id dev Hdev. apply list_elem_of_fmap. exists (id, dev).
    split; [reflexivity | now apply elem_of_map_to_list].
  - intros o Hin. apply list_elem_of_fmap in Hin as ([id dev] & -> & Hin).
    apply elem_of_map_to_list in Hin. simpl.
    pose proof (reachable_risk_bounded secret rs id dev Hin) as Hle.
    destruct (handle_all_devices_as_inserted secret rs empty_db) with (id := id) (dev := dev)
      as [(Hst & _) _]; [intros ? ? H; inversion H | exact Hin |].
    exists id, dev, (Z.min 100 (Device.risk_score dev + 10)).
    split; [exact Hin |]. rewrite Hst.
    repeat (split; [reflexivity || lia |]). reflexivity.
Qed.

(** * The analysis *)

Section Analysis.
Context {builtins : PyBuiltins}.

Lemma tally_spec (events : list (gmap string json)) :
  forall (risk : Z) (chain : list string),
    AI.tally events risk chain
    = match event_weights events with
      | Returns ws => Returns (risk + total ws, chain ++ map event_type events)
      | Raises => Raises
      end.
Proof.
  induction events as [|e events IH]; intros risk chain.
  - simpl. unfold total. simpl. now rewrite Z.add_0_r, app_nil_r.
  - cbn [AI.tally event_weights].
    change (int_ (PyDict.or_ (PyDict.or_ (AI.get "riskWeight" e) (AI.get "weight" e))
                             (JInt 0))) with (event_weight e).
    destruct (event_weight e) as [w|]; [| reflexivity].
    rewrite IH. destruct (event_weights events) as [ws|]; [| reflexivity].
    change (total (w :: ws)) with (w + total ws).
    rewrite Z.add_assoc, <- app_assoc. reflexivity.
Qed.

Lemma event_weights_length (events : list (gmap string json)) :
  forall ws, event_weights events = Returns ws -> length ws = length events.
Proof.
  induction events as [|e events IH]; simpl; intros ws.
  - now intros [= <-].
  - destruct (event_weight e); [| discriminate].
    destruct (event_weights events) as [ws'|]; [| discriminate].
    intros [= <-]. simpl. now rewrite (IH ws').
Qed.

Lemma event_weights_app (l1 l2 : list (gmap string json)) :
  event_weights (l1 ++ l2)
  = match event_weights l1, event_weights l2 with
    | Returns a, Returns b => Returns (a ++ b)
    | _, _ => Raises
    end.
Proof.
  induction l1 as [|e l1 IH]; simpl.
  - now destruct (event_weights l2).
  - destruct (event_weight e); [| reflexivity].
    rewrite IH. destruct (event_weights l1), (event_weights l2); reflexivity.
Qed.

End Analysis.

(** The seven-day probability in integers: the product with the double
    0.8, cut to an integer, is four fifths of the score, rounded down,
    for each of the 101 scores. *)
Lemma probability_exact (b : Z) :
  0 <= b <= 100 ->
  PyFloat.to_int (PrimFloat.mul (PyFloat.of_int b) PyFloat.c0_8)
  = Returns (4 * b / 5).
Proof.
  intros Hb.
  assert (Hall : forallb (fun n : nat =>
            match PyFloat.to_int (PrimFloat.mul (PyFloat.of_int (Z.of_nat n))
                                                PyFloat.c0_8) with
            | Returns p => p =? 4 * Z.of_nat n / 5
            | Raises => false
            end) (seq 0 101) = true) by (vm_compute; reflexivity).
  rewrite forallb_forall in Hall.
  specialize (Hall (Z.to_nat b)).
  rewrite Z2Nat.id in Hall by lia.
  destruct (PyFloat.to_int _) as [p|].
  - f_equal. apply Z.eqb_eq, Hall, in_seq. lia.
  - discriminate Hall. apply in_seq. lia.
Qed.

(** X26. The verdict of the analysis follows the sum of the weights. When
    [int] raises on the weight of no event, the analysis answers with the
    sum clamped to 0..100 as behaviour score; a threat exactly when the sum
    reaches 60; lock and isolation as actions from 80 on, more monitoring
    from 60 on, close monitoring below; a seven-day probability of four
    fifths of the score, rounded down, so never above 80 (the cap at 100
    never binds); and the types of the last ten events as chain. When [int]
    raises on a weight, the answer is a server error. *)
Theorem ai_analyze_verdict {builtins : PyBuiltins}
        (events : list (gmap string json)) :
  match event_weights events with
  | Raises => AI.ai_analyze events = HTTPException 500
  | Returns ws =>
      exists out,
        AI.ai_analyze events = OK out
        /\ AIAnalysisOut.behaviorScore out = Z.max 0 (Z.min 100 (total ws))
        /\ 0 <= AIAnalysisOut.behaviorScore out <= 100
        /\ (AIAnalysisOut.threatDetected out = true <-> 60 <= total ws)
        /\ AIAnalysisOut.recommendedActions out
           = (if 80 <=? total ws then ["lock_device"; "isolate_network"]
              else if 60 <=? total ws
                   then ["increase_monitoring"; "review_print_activity"]
                   else ["monitor_closely"])
        /\ AIAnalysisOut.probability7d (AIAnalysisOut.predictiveForecast out)
           = 4 * AIAnalysisOut.behaviorScore out / 5
        /\ AIAnalysisOut.probability7d (AIAnalysisOut.predictiveForecast out) <= 80
        /\ AIAnalysisOut.correlationChain out
           = drop (length events - 10) (map event_type events)
        /\ (length (AIAnalysisOut.correlationChain out) <= 10)%nat
  end.
Proof.
  unfold AI.ai_analyze. rewrite tally_spec.
  destruct (event_weights events) as [ws|]; [| reflexivity].
  set (b := Z.max 0 (Z.min 100 (0 + total ws))).
  assert (Hb : 0 <= b <= 100) by (unfold b; lia).
  rewrite (probability_exact b Hb).
  assert (Hp : 4 * b / 5 <= 80).
  { apply Z.div_le_upper_bound; lia. }
  eexists. split; [reflexivity |]. simpl. fold b.
  split; [unfold b; f_equal; f_equal; lia |].
  split; [exact Hb |]. split; [| split; [| split; [| split; [| split]]]].
  - rewrite Z.leb_le. unfold b. lia.
  - assert (H80 : (80 <=? b) = (80 <=? total ws)).
    { unfold b. destruct (80 <=? total ws) eqn:E.
      - apply Z.leb_le in E. apply Z.leb_le. lia.
      - apply Z.leb_gt in E. apply Z.leb_gt. lia. }
    assert (H60 : (60 <=? b) = (60 <=? total ws)).
    { unfold b. destruct (60 <=? total ws) eqn:E.
      - apply Z.leb_le in E. apply Z.leb_le. lia.
      - apply Z.leb_gt in E. apply Z.leb_gt. lia. }
    now rewrite H80, H60.
  - lia.
  - lia.
  - now rewrite length_map.
  - rewrite length_drop, length_map. lia.
Qed.

(** X27. The verdict does not depend on the order of the events: the
    analysis of two batches in either order gives the same score, threat
    flag, actions and forecast (only the chain follows the order). A
    negative weight anywhere takes away from the sum, unlike in the
    telemetry upload, where the clamp is applied event by event. *)
Theorem ai_analyze_ignores_order {builtins : PyBuiltins}
        (l1 l2 : list (gmap string json)) :
  match AI.ai_analyze (l1 ++ l2), AI.ai_analyze (l2 ++ l1) with
  | OK o1, OK o2 =>
      AIAnalysisOut.behaviorScore o1 = AIAnalysisOut.behaviorScore o2
      /\ AIAnalysisOut.threatDetected o1 = AIAnalysisOut.threatDetected o2
      /\ AIAnalysisOut.recommendedActions o1 = AIAnalysisOut.recommendedActions o2
      /\ AIAnalysisOut.predictiveForecast o1 = AIAnalysisOut.predictiveForecast o2
  | HTTPException c1, HTTPException c2 => c1 = c2
  | _, _ => False
  end.
Proof.
  unfold AI.ai_analyze. rewrite !tally_spec, !event_weights_app.
  destruct (event_weights l1) as [a|], (event_weights l2) as [b|];
    try reflexivity.
  rewrite !total_app, (Z.add_comm (total b) (total a)).
  set (s := Z.max 0 (Z.min 100 (0 + (total a + total b)))).
  assert (Hs : 0 <= s <= 100) by (unfold s; lia).
  rewrite (probability_exact s Hs). simpl. auto.
Qed.

(** * Runs *)

(** ** An outage, then the recovery *)

Section Outage.
Context {py : PyLib}.

Lemma run_agent_app (s1 s2 : list (list json * world)) :
  forall (self : Agent.IVECGuardAgent) (f : file),
    run_agent self f (s1 ++ s2)
    = let '(self1, f1, sent1) := run_agent self f s1 in
      let '(self2, f2, sent2) := run_agent self1 f1 s2 in
      (self2, f2, sent1 ++ sent2).
Proof.
  induction s1 as [| [new w] s1 IH]; intros self f.
  - simpl. now destruct (run_agent self f s2) as [[? ?] ?].
  - cbn [app run_agent].
    destruct (Agent.sync_cycle _ f w) as [[self2 file2] tr].
    rewrite IH.
    destruct (run_agent self2 file2 s1) as [[self3 file3] sent1].
    destruct (run_agent self3 file3 s2) as [[self4 file4] sent2].
    now rewrite app_assoc.
Qed.

(** While every upload raises, nothing is sent and what is logged goes
    behind the file, in the order logged. *)
Lemma run_agent_outage (steps : list (list json * world)) :
  Forall (fun step => telemetry_reply step.2 = Raises) steps ->
  forall (self : Agent.IVECGuardAgent) (text : string),
    exists self',
      run_agent self (Some text) steps
      = (self',
         Some (text +:+ writelines (jsonl match steps with
                                          | [] => []
                                          | _ :: _ =>
                                              Agent.event_queue self
                                              ++ concat (map fst steps)
                                          end)),
         [])
      /\ (steps <> [] -> Agent.event_queue self' = []).
Proof.
  induction 1 as [| [new w] rest Hw _ IH]; intros self text.
  - exists self. simpl. rewrite append_nil_r. now split.
  - simpl in Hw. cbn [run_agent].
    set (self1 := fold_left (fun s e => Agent.enqueue e s) new self).
    assert (Hq1 : Agent.event_queue self1 = Agent.event_queue self ++ new)
      by apply enqueue_all_queue.
    pose proof (sync_cycle_unreachable self1 (Some text) w Hw) as Hcycle.
    destruct (on_exception_spec self1 (Some text)) as [Hq2 Hf2].
    destruct (sync_cycle_keeps_file self1 text w) as [text2 Hsome].
    destruct (Agent.sync_cycle self1 (Some text) w) as [[self2 file2] tr].
    cbn [fst snd] in Hcycle, Hsome. subst file2.
    rewrite <- Hcycle in Hq2, Hf2. cbn [fst snd content default id] in Hq2, Hf2.
    destruct (IH self2 text2) as (self' & Hrun & Hempty).
    rewrite Hrun. unfold delivered. rewrite Hw. exists self'. split.
    + f_equal. f_equal. f_equal. rewrite Hf2, Hq1, Hq2.
      cbn [map concat fst]. rewrite !jsonl_app, !writelines_app.
      destruct rest as [|step rest'].
      * simpl. now rewrite !append_nil_r.
      * cbn [app]. now rewrite !append_assoc.
    + intros _. destruct rest as [|step rest'].
      * injection Hrun as <- _. exact Hq2.
      * apply Hempty. discriminate.
Qed.

End Outage.

(** X28. An outage of any length keeps the order. When the upload raises in
    every iteration of a stretch (events being logged in between) and then
    returns, the body of the upload that returns carries, under "events",
    the events that were in the offline file, those that were in the queue
    and those logged during the stretch, in this order, up to the first
    200 of them, followed by the events logged since the last failure;
    the others stay in the file, in order, for the iterations to come. No
    upload of the stretch counts as delivered. (The events of a run are
    read from the bodies of its POSTs to the telemetry URL.) *)
Theorem outage_then_recovery_keeps_order {py : PyLib}
        (self : Agent.IVECGuardAgent) (B : list json)
        (step : list json * world) (more : list (list json * world))
        (new : list json) (w : world) (r : outcome json) :
  Forall reads_back B ->
  Forall reads_back (Agent.event_queue self) ->
  Forall (fun st => Forall reads_back st.1) (step :: more) ->
  Forall (fun st => telemetry_reply st.2 = Raises) (step :: more) ->
  telemetry_reply w = Returns r ->
  (run_agent self (Some (writelines (jsonl B))) (step :: more)).2 = []
  /\ (run_agent self (Some (writelines (jsonl B)))
        ((step :: more) ++ [(new, w)])).2
     = take 200 (B ++ Agent.event_queue self ++ concat (map fst (step :: more)))
       ++ new
  /\ content (run_agent self (Some (writelines (jsonl B)))
                ((step :: more) ++ [(new, w)])).1.2
     = writelines (jsonl (drop 200 (B ++ Agent.event_queue self
                                    ++ concat (map fst (step :: more))))).
Proof.
  intros HB HQ Hlogged Hfail Hw.
  destruct (run_agent_outage (step :: more) Hfail self (writelines (jsonl B)))
    as (self1 & Hrun & Hempty).
  specialize (Hempty ltac:(discriminate)).
  rewrite run_agent_app, Hrun. split; [reflexivity |].
  rewrite <- writelines_app, <- jsonl_app.
  set (All := B ++ Agent.event_queue self ++ concat (map fst (step :: more))).
  assert (HAll : Forall reads_back All).
  { unfold All. apply Forall_app. split; [exact HB |].
    apply Forall_app. split; [exact HQ |].
    apply Forall_concat, Forall_map. exact Hlogged. }
  cbn [run_agent].
  set (self2 := fold_left (fun s e => Agent.enqueue e s) new self1).
  assert (Hq2 : Agent.event_queue self2 = new).
  { unfold self2. now rewrite enqueue_all_queue, Hempty. }
  destruct (sync_cycle_buffer self2 All w HAll) as (_ & Hf & Hacc).
  rewrite Hw, Hq2 in Hacc. rewrite Hw in Hf.
  destruct (Agent.sync_cycle self2 (Some (writelines (jsonl All))) w)
    as [[self3 file3] tr].
  cbn [fst snd] in *. rewrite Hacc, app_nil_r. split; [reflexivity | exact Hf].
Qed.

Lemma outage_then_recovery_keeps_order_witness :
  (run_agent (py := python_lib) sample_agent
     (Some (writelines (jsonl (py := python_lib) [event_A])))
     [([event_B], unreachable); ([event_C], unreachable)]).2 = []
  /\ (run_agent (py := python_lib) sample_agent
        (Some (writelines (jsonl (py := python_lib) [event_A])))
        ([([event_B], unreachable); ([event_C], unreachable)]
         ++ [([event_D], reachable [])])).2
     = take 200 ([event_A] ++ Agent.event_queue sample_agent
                 ++ concat (map fst [([event_B], unreachable);
                                     ([event_C], unreachable)]))
       ++ [event_D]
  /\ content (run_agent (py := python_lib) sample_agent
                (Some (writelines (jsonl (py := python_lib) [event_A])))
                ([([event_B], unreachable); ([event_C], unreachable)]
                 ++ [([event_D], reachable [])])).1.2
     = writelines (jsonl (py := python_lib)
         (drop 200 ([event_A] ++ Agent.event_queue sample_agent
                    ++ concat (map fst [([event_B], unreachable);
                                        ([event_C], unreachable)])))).
Proof.
  apply (outage_then_recovery_keeps_order (py := python_lib) sample_agent
           [event_A] ([event_B], unreachable) [([event_C], unreachable)]
           [event_D] (reachable []) (Returns (JObj []))).
  - constructor; [vm_compute; repeat split; reflexivity | constructor].
  - constructor.
  - constructor; [| constructor; [| constructor]];
      (constructor; [vm_compute; repeat split; reflexivity | constructor]).
  - constructor; [reflexivity | constructor; [reflexivity | constructor]].
  - reflexivity.
Defined.

(** ** What a poll writes *)

(** X29. A poll writes nothing but the status of what it returns: the
    commands whose id is in the answer become SENT, every other command
    is as before, and so are the devices and the events. *)
Theorem poll_writes_only_what_it_returns (secret agent : string) (now : Z)
        (s : Server.db) :
  Server.devices (Server.poll_commands secret agent now s).1 = Server.devices s
  /\ Server.events (Server.poll_commands secret agent now s).1 = Server.events s
  /\ forall cid,
       Server.commands (Server.poll_commands secret agent now s).1 !! cid
       = if decide (Some cid ∈ returned_ids
                                 (Server.poll_commands secret agent now s).2)
         then Command.set_status "SENT" <$> Server.commands s !! cid
         else Server.commands s !! cid.
Proof.
  split; [| split].
  - now destruct (poll_commands_ok secret agent now s) as (results & -> & _).
  - now destruct (poll_commands_ok secret agent now s) as (results & -> & _).
  - intros cid. rewrite poll_commands_lookup.
    destruct (decide (Some cid ∈ returned_ids
                        (Server.poll_commands secret agent now s).2)) as [Hin|Hnin].
    + apply returned_ids_spec in Hin as (c & -> & Hd). simpl. now rewrite Hd.
    + destruct (Server.commands s !! cid) as [c|] eqn:Hc; [| reflexivity].
      simpl. destruct (Server.deliverable agent now c) eqn:Hd; [| reflexivity].
      exfalso. apply Hnin, returned_ids_spec. eauto.
Qed.

(** ** The statistics over a run of the monitors *)

Section Statistics.
Variable JOB_STATUS_PRINTED : Z.

(** What one round does to the counters. *)
Lemma step_counters (r : Threads.round) (th : Threads.t) (u a i n f : Z) :
  counter "uptime" (Threads.agent th) = Some u ->
  counter "activeTime" (Threads.agent th) = Some a ->
  counter "idleTime" (Threads.agent th) = Some i ->
  counter "printCount" (Threads.agent th) = Some n ->
  counter "fileModCount" (Threads.agent th) = Some f ->
  exists u' a' i',
    counter "uptime" (Threads.agent (Threads.step JOB_STATUS_PRINTED r th)) = Some u'
    /\ counter "activeTime" (Threads.agent (Threads.step JOB_STATUS_PRINTED r th))
       = Some a'
    /\ counter "idleTime" (Threads.agent (Threads.step JOB_STATUS_PRINTED r th))
       = Some i'
    /\ counter "printCount" (Threads.agent (Threads.step JOB_STATUS_PRINTED r th))
       = Some (n + total (map event_pages
                            (logged (Threads.agent th)
                               (Threads.agent (Threads.step JOB_STATUS_PRINTED r th)))))
    /\ counter "fileModCount" (Threads.agent (Threads.step JOB_STATUS_PRINTED r th))
       = Some f
    /\ u' - u = (a' - a) + (i' - i) /\ a <= a' /\ i <= i'.
Proof.
  intros Hu Ha Hi Hn Hf.
  assert (Hsame : forall self' : Agent.IVECGuardAgent,
             Agent.work_stats self' = Agent.work_stats (Threads.agent th) ->
             logged (Threads.agent th) self' = [] ->
             exists u' a' i',
               counter "uptime" self' = Some u'
               /\ counter "activeTime" self' = Some a'
               /\ counter "idleTime" self' = Some i'
               /\ counter "printCount" self'
                  = Some (n + total (map event_pages (logged (Threads.agent th) self')))
               /\ counter "fileModCount" self' = Some f
               /\ u' - u = (a' - a) + (i' - i) /\ a <= a' /\ i <= i').
  { intros self' Hws Hlog. exists u, a, i. rewrite Hlog. unfold counter in *.
    rewrite Hws. simpl. unfold total. simpl. rewrite Z.add_0_r.
    repeat (split; [assumption || lia |]). lia. }
  assert (Hnone : logged (Threads.agent th) (Threads.agent th) = [])
    by (unfold logged; apply drop_all).
  destruct r as [printers | ok tick dwTime | insertion | p |]; simpl.
  - destruct (Threads.printing th); [| now apply Hsame].
    destruct (monitor_printing_spec JOB_STATUS_PRINTED printers
                (Threads.agent th) (Threads.last_logged th) n Hn)
      as (self' & L' & new & o & -> & (Hq & Hc & _ & _ & Hk) & _).
    simpl. exists u, a, i. unfold logged. rewrite Hq, drop_app_length.
    split; [rewrite <- Hu; apply counter_frame, Hk; discriminate |].
    split; [rewrite <- Ha; apply counter_frame, Hk; discriminate |].
    split; [rewrite <- Hi; apply counter_frame, Hk; discriminate |].
    split; [exact Hc |].
    split; [rewrite <- Hf; apply counter_frame, Hk; discriminate |]. lia.
  - destruct (Threads.idle th); [| now apply Hsame].
    destruct (monitor_idle_precise_spec ok tick dwTime (Threads.agent th) u a i
                Hu Ha Hi)
      as (u' & a' & i' & H1 & H2 & H3 & H4 & H5 & H6 & H7 & Hq & Hk).
    destruct (Monitor.monitor_idle_precise ok tick dwTime (Threads.agent th))
      as [self' o]. simpl in *.
    exists u', a', i'. unfold logged. rewrite Hq, drop_all.
    split; [exact H1 |]. split; [exact H2 |]. split; [exact H3 |].
    split; [| split; [| lia]].
    + unfold total. simpl. rewrite Z.add_0_r, <- Hn.
      apply counter_frame, Hk; discriminate.
    + rewrite <- Hf. apply counter_frame, Hk; discriminate.
  - destruct (Threads.usb th); [| now apply Hsame].
    unfold Monitor.monitor_usb.
    destruct (PyDict.get "usbMonitoring" (JBool true)
                (Agent.policy (Threads.agent th))) as [enabled|];
      [| now apply Hsame].
    destruct (negb (PyDict.truth enabled)); [now apply Hsame |].
    destruct insertion as [DeviceID|]; [| now apply Hsame].
    simpl. exists u, a, i. unfold logged. simpl. rewrite drop_app_length.
    unfold total, event_pages. simpl. rewrite Z.add_0_r.
    repeat (split; [assumption || lia |]). lia.
  - now apply Hsame.
  - apply Hsame; [reflexivity |]. unfold logged. simpl. apply drop_nil.
Qed.

Lemma run_counters (rounds : list Threads.round) :
  forall (th : Threads.t) (u a i n f : Z),
    counter "uptime" (Threads.agent th) = Some u ->
    counter "activeTime" (Threads.agent th) = Some a ->
    counter "idleTime" (Threads.agent th) = Some i ->
    counter "printCount" (Threads.agent th) = Some n ->
    counter "fileModCount" (Threads.agent th) = Some f ->
    exists u' a' i',
      counter "uptime" (Threads.agent (Threads.run JOB_STATUS_PRINTED rounds th).1)
      = Some u'
      /\ counter "activeTime"
           (Threads.agent (Threads.run JOB_STATUS_PRINTED rounds th).1) = Some a'
      /\ counter "idleTime"
           (Threads.agent (Threads.run JOB_STATUS_PRINTED rounds th).1) = Some i'
      /\ counter "printCount"
           (Threads.agent (Threads.run JOB_STATUS_PRINTED rounds th).1)
         = Some (n + total (map event_pages
                              (Threads.run JOB_STATUS_PRINTED rounds th).2))
      /\ counter "fileModCount"
           (Threads.agent (Threads.run JOB_STATUS_PRINTED rounds th).1) = Some f
      /\ u' - u = (a' - a) + (i' - i) /\ a <= a' /\ i <= i'.
Proof.
  induction rounds as [|r rounds IH]; intros th u a i n f Hu Ha Hi Hn Hf.
  - exists u, a, i. simpl. unfold total. simpl. rewrite Z.add_0_r.
    repeat (split; [assumption || lia |]). lia.
  - destruct (step_counters r th u a i n f Hu Ha Hi Hn Hf)
      as (u1 & a1 & i1 & Hu1 & Ha1 & Hi1 & Hn1 & Hf1 & Hsum1 & Hale & Hile).
    destruct (IH _ _ _ _ _ _ Hu1 Ha1 Hi1 Hn1 Hf1)
      as (u2 & a2 & i2 & Hu2 & Ha2 & Hi2 & Hn2 & Hf2 & Hsum2 & Hale2 & Hile2).
    cbn [Threads.run].
    destruct (Threads.run JOB_STATUS_PRINTED rounds
                (Threads.step JOB_STATUS_PRINTED r th)) as [th2 events].
    cbn [fst snd] in *. exists u2, a2, i2.
    split; [exact Hu2 |]. split; [exact Ha2 |]. split; [exact Hi2 |].
    split; [| split; [exact Hf2 | lia]].
    rewrite Hn2, map_app, total_app. f_equal. lia.
Qed.

End Statistics.

(** X30. The statistics of a running agent are consistent. From the agent
    as [__init__] builds it, after any rounds of the three monitors in any
    order, with the sync loop replacing the policy by anything and
    resetting the queue in between, and with threads ending on an
    exception: the five counters are integers, the uptime is the active
    time plus the idle time, neither of which is negative, the print count
    is the sum of the pages of the events the monitors queued, and the
    count of file modifications is still 0, nothing ever writing it. *)
Theorem statistics_stay_consistent (JOB_STATUS_PRINTED : Z)
        (IVEC_SERVER COMMAND_SIGNING_SECRET : option string) (node : Z)
        (rounds : list Threads.round) :
  exists u a i,
    counter "uptime"
      (Threads.agent
         (Threads.run JOB_STATUS_PRINTED rounds
            (Threads.start (__init__ IVEC_SERVER COMMAND_SIGNING_SECRET node))).1)
    = Some u
    /\ counter "activeTime"
         (Threads.agent
            (Threads.run JOB_STATUS_PRINTED rounds
               (Threads.start (__init__ IVEC_SERVER COMMAND_SIGNING_SECRET node))).1)
       = Some a
    /\ counter "idleTime"
         (Threads.agent
            (Threads.run JOB_STATUS_PRINTED rounds
               (Threads.start (__init__ IVEC_SERVER COMMAND_SIGNING_SECRET node))).1)
       = Some i
    /\ counter "printCount"
         (Threads.agent
            (Threads.run JOB_STATUS_PRINTED rounds
               (Threads.start (__init__ IVEC_SERVER COMMAND_SIGNING_SECRET node))).1)
       = Some (total (map event_pages
                        (Threads.run JOB_STATUS_PRINTED rounds
                           (Threads.start
                              (__init__ IVEC_SERVER COMMAND_SIGNING_SECRET node))).2))
    /\ counter "fileModCount"
         (Threads.agent
            (Threads.run JOB_STATUS_PRINTED rounds
               (Threads.start (__init__ IVEC_SERVER COMMAND_SIGNING_SECRET node))).1)
       = Some 0
    /\ u = a + i /\ 0 <= a /\ 0 <= i.
Proof.
  destruct (run_counters JOB_STATUS_PRINTED rounds
              (Threads.start (__init__ IVEC_SERVER COMMAND_SIGNING_SECRET node))
              0 0 0 0 0) as (u & a & i & Hu & Ha & Hi & Hn & Hf & Hsum & Hage & Hige);
    try reflexivity.
  exists u, a, i. rewrite Z.add_0_l in Hn.
  repeat (split; [assumption || lia |]). lia.
Qed.
